(** * PyPDFmanager: the cataloguing and diff engine of [pdfmanager.py]

    A shallow embedding of the [PDFManager] class and of the parts of
    [PDFManagerWindow] that touch files or the classification tree, with
    the properties of the design document checked against it.

    Conventions.
    - A Python [str] is a [string]: one [ascii] per character, so the
      characters covered are the code points below 256.  Comparison of
      strings is by code point, as in Python.
    - A Python [dict] whose iteration order is observed is an association
      list in insertion order ([odict]); a [dict] that is only looked up,
      or iterated through [sorted] or through a [set], is a [gmap]; a
      Python [set] is a [gset], iterated through [elements].
    - A call that can raise returns a [result]; a method that works on the
      file system threads a [world].

    Part I holds the embedding, Part II the properties. *)

From Stdlib Require Import ZArith Ascii String DecimalString.
From stdpp Require Import base option list strings gmap sorting.

Local Open Scope string_scope.
Local Open Scope Z_scope.

(** * Part I: the embedding *)

(** ** Python strings *)

Module Py.

Definition code (c : ascii) : N := N_of_ascii c.

Definition between (lo hi : N) (c : ascii) : bool :=
  ((lo <=? code c) && (code c <=? hi))%N.

(** The character class [[a-zA-Z0-9]] of the prefix pattern. *)
Definition alnum (c : ascii) : bool :=
  between 97 122 c || between 65 90 c || between 48 57 c.

(** [str.isspace] on one character: the ASCII white space, the four
    separators 28..31, NEL and the no-break space. *)
Definition isspace (c : ascii) : bool :=
  between 9 13 c || between 28 32 c
  || (code c =? 133)%N || (code c =? 160)%N.

(** [str.lower] on one character (ASCII and Latin-1 capitals). *)
Definition lower_char (c : ascii) : ascii :=
  if between 65 90 c || (between 192 222 c && negb (code c =? 215)%N)
  then ascii_of_N (code c + 32) else c.

Fixpoint lower (s : string) : string :=
  match s with
  | EmptyString => EmptyString
  | String c s' => String (lower_char c) (lower s')
  end.

Fixpoint lstrip (s : string) : string :=
  match s with
  | String c s' => if isspace c then lstrip s' else s
  | EmptyString => EmptyString
  end.

(** [rstrip] drops the white space at the end: a character is kept when
    it is not white space or when something is kept after it. *)
Fixpoint rstrip (s : string) : string :=
  match s with
  | EmptyString => EmptyString
  | String c s' =>
      match rstrip s' with
      | EmptyString => if isspace c then EmptyString else String c EmptyString
      | r => String c r
      end
  end.

(** [s.strip()] *)
Definition strip (s : string) : string := rstrip (lstrip s).

(** [s[n:]] *)
Fixpoint drop (n : nat) (s : string) : string :=
  match n, s with
  | O, _ => s
  | S n', String _ s' => drop n' s'
  | S _, EmptyString => EmptyString
  end.

(** [s[:-1]] *)
Fixpoint init (s : string) : string :=
  match s with
  | EmptyString => EmptyString
  | String _ EmptyString => EmptyString
  | String c s' => String c (init s')
  end.

(** [s.endswith(p)] *)
Definition endswith (p s : string) : bool :=
  (String.length p <=? String.length s)%nat
  && String.eqb (drop (String.length s - String.length p) s) p.

(** [sep.join(s)] for a string [s]: the separator between every two
    characters. *)
Fixpoint join_chars (sep : string) (s : string) : string :=
  match s with
  | EmptyString => EmptyString
  | String c EmptyString => String c EmptyString
  | String c s' => String c (sep ++ join_chars sep s')
  end.

(** [sep.join(l)] for a list of strings. *)
Fixpoint join (sep : string) (l : list string) : string :=
  match l with
  | [] => EmptyString
  | [x] => x
  | x :: l' => x ++ sep ++ join sep l'
  end.

(** [str(n)] for an integer. *)
Definition str_of_Z (n : Z) : string := NilZero.string_of_int (Z.to_int n).

Definition str_of_nat (n : nat) : string := str_of_Z (Z.of_nat n).

(** Digits grouped in threes from the right, for the [,] format. *)
Fixpoint group3 (digits : list ascii) (fuel : nat) : list (list ascii) :=
  match fuel with
  | O => []
  | S fuel' =>
      if (length digits <=? 3)%nat then [digits]
      else group3 (take (length digits - 3) digits) fuel'
             ++ [list.drop (length digits - 3) digits]
  end.

(** [f"{n:,}"] *)
Definition format_thousands (n : Z) : string :=
  let digits := list_ascii_of_string (str_of_Z (Z.abs n)) in
  (if n <? 0 then "-" else "")
  ++ join "," (string_of_list_ascii <$> group3 digits (length digits)).

(** [sorted(l, key=key)] and [l.sort(key=key)]: the sort is stable, so an
    element goes before the first one whose key is not smaller. *)
Fixpoint insert_by {A K} (le : relation K) `{!RelDecision le}
    (key : A → K) (x : A) (l : list A) : list A :=
  match l with
  | [] => [x]
  | y :: l' =>
      if decide (le (key x) (key y)) then x :: l
      else y :: insert_by le key x l'
  end.

Definition sorted {A K} (le : relation K) `{!RelDecision le}
    (key : A → K) (l : list A) : list A :=
  foldr (insert_by le key) [] l.

(** [next((x for x in l if p(x)), None)] *)
Definition next_where {A} (p : A → bool) (l : list A) : option A :=
  head (filter (λ x, p x = true) l).

(** [p in s] for two strings: [p] stands somewhere in [s]. *)
Fixpoint contains (p s : string) : bool :=
  String.prefix p s
  || match s with
     | String _ s' => contains p s'
     | EmptyString => false
     end.

(** [str.isalnum] on one character: besides the ASCII letters and
    digits, the letters, superscript digits and fractions of Latin-1. *)
Definition isalnum_char (c : ascii) : bool :=
  alnum c
  || (code c =? 170)%N || (code c =? 178)%N || (code c =? 179)%N
  || (code c =? 181)%N || (code c =? 185)%N || (code c =? 186)%N
  || between 188 190 c || between 192 214 c || between 216 246 c
  || between 248 255 c.

Fixpoint all_isalnum (s : string) : bool :=
  match s with
  | EmptyString => true
  | String c s' => isalnum_char c && all_isalnum s'
  end.

(** [s.isalnum()]: at least one character, and all of them letters or
    digits. *)
Definition isalnum (s : string) : bool :=
  match s with
  | EmptyString => false
  | _ => all_isalnum s
  end.

(** [s.split()]: the runs of characters that are not white space. *)
Fixpoint split (s : string) : list string :=
  match s with
  | EmptyString => []
  | String c s' =>
      if isspace c then split s'
      else
        let word_ends :=
          match s' with
          | String c' _ => isspace c'
          | EmptyString => true
          end in
        match split s' with
        | w :: ws =>
            if word_ends then String c EmptyString :: w :: ws
            else String c w :: ws
        | [] => [String c EmptyString]
        end
  end.

(** [f"{s:<{w}}"]: blanks to the right up to the width [w], nothing cut
    off. *)
Definition ljust (w : nat) (s : string) : string :=
  s ++ string_of_list_ascii (replicate (w - String.length s) " "%char).

(** The line feed of ["\n"]. *)
Definition nl : string := String (ascii_of_nat 10) EmptyString.

End Py.

(** ** PrefixCodec: [PDFManager.matches_pattern] *)

(** The text the pattern [([a-zA-Z0-9] ){n,}] consumes at the start of
    [s]: the repetition is greedy and a pair either matches or not, so it
    is the longest run of pairs "one alphanumeric, one space". *)
Fixpoint pairs_run (s : string) : string :=
  match s with
  | String c (String sp s') =>
      if Py.alnum c && Ascii.eqb sp " "
      then String c (String sp (pairs_run s'))
      else EmptyString
  | _ => EmptyString
  end.

(** [re.match(r'^([a-zA-Z0-9] ){2,}', filename)]: [group(0)] when at
    least two pairs are there. *)
Definition re_match_pairs (filename : string) : option string :=
  let m := pairs_run filename in
  if (4 <=? String.length m)%nat then Some m else None.

Definition matches_pattern (filename : string) : option string :=
  match re_match_pairs filename with
  | Some g => Some (Py.strip g)
  | None => None
  end.

(** [filename[len(tok_prefix):].strip()], the base filename of the two
    scans. *)
Definition remainder (tok_prefix filename : string) : string :=
  Py.strip (Py.drop (String.length tok_prefix) filename).

(** [' '.join(tok_code) + ' '] of [add_tok_prefix_to_file]. *)
Definition formatted_code (tok_code : string) : string :=
  Py.join_chars " " tok_code ++ " ".

(** The code as the classification document stores it: the prefix of a
    file name without its separating spaces. *)
Fixpoint compact (prefix : string) : string :=
  match prefix with
  | EmptyString => EmptyString
  | String c s => if Ascii.eqb c " " then compact s else String c (compact s)
  end.

(** A string over the character class of the pattern. *)
Fixpoint all_alnum (s : string) : bool :=
  match s with
  | EmptyString => true
  | String c s' => Py.alnum c && all_alnum s'
  end.

(** A code as it stands at the start of a file name: every character
    followed by one space. *)
Fixpoint spaced (tok_code : string) : string :=
  match tok_code with
  | EmptyString => EmptyString
  | String c s => String c (String " " (spaced s))
  end.

(** ** The classification list: [tok_data['ToK']] *)

(** One entry of the list, a JSON object with the keys ["prefix"] and
    ["string"]; [None] stands for a key the object does not have. *)
Record tok_entry := TokEntry {
  e_prefix : option string;
  e_string : option string;
}.

#[export] Instance tok_entry_eq_dec : EqDecision tok_entry.
Proof. solve_decision. Defined.

(** [x.get('prefix', '')], the sort key. *)
Definition prefix_key (x : tok_entry) : string := default "" (e_prefix x).

(** [update_tok_entry]: the first entry whose prefix is [old_code] gets
    the new code and label, where it stands. *)
Fixpoint update_tok_entry (old_code new_code new_label : string)
    (tok : list tok_entry) : bool * list tok_entry :=
  match tok with
  | [] => (false, [])
  | item :: rest =>
      if decide (e_prefix item = Some old_code)
      then (true, TokEntry (Some new_code) (Some new_label) :: rest)
      else let '(found, rest') :=
             update_tok_entry old_code new_code new_label rest in
           (found, item :: rest')
  end.

(** [add_tok_entry]: append, then sort by prefix. *)
Definition add_tok_entry (code label : string) (tok : list tok_entry)
    : list tok_entry :=
  let new_entry := TokEntry (Some code) (Some label) in
  Py.sorted String.le prefix_key (tok ++ [new_entry])%list.

(** [l.remove(x)]: the first element equal to [x] goes. *)
Fixpoint list_remove `{EqDecision A} (x : A) (l : list A) : list A :=
  match l with
  | [] => []
  | y :: l' => if decide (y = x) then l' else y :: list_remove x l'
  end.

(** [delete_tok_entry]: the first entry whose prefix is [code] is removed
    from the list. *)
Definition delete_tok_entry (code : string) (tok : list tok_entry)
    : bool * list tok_entry :=
  match find (λ item, bool_decide (e_prefix item = Some code)) tok with
  | Some item => (true, list_remove item tok)
  | None => (false, tok)
  end.

(** The list is in ascending order of prefix. *)
Definition tok_sorted (tok : list tok_entry) : Prop :=
  Sorted (λ a b, String.le (prefix_key a) (prefix_key b)) tok.

(** ** ToKHierarchy: the tree of [load_tok_codes] *)

(** A [QTreeWidgetItem]: its two columns and the item it was added to as
    a child ([None] for a top-level item).  An item is known by its
    position in the order of creation. *)
Record tree_item := TreeItem {
  item_code : string;
  item_label : string;
  item_parent : option nat;
}.

(** One turn of the loop: the state is the items placed so far and the
    dictionary [code_to_item].  An item that the dictionary holds counts
    as true in [if parent_item]. *)
Definition place_item (st : list tree_item * gmap string nat)
    (item : tok_entry) : list tree_item * gmap string nat :=
  let '(tree, code_to_item) := st in
  let code := default "" (e_prefix item) in
  let label := default "" (e_string item) in
  let parent_item :=
    if (1 <? String.length code)%nat
    then code_to_item !! Py.init code
    else None in
  ((tree ++ [TreeItem code label parent_item])%list,
   <[code := length tree]> code_to_item).

Definition place_items (sorted_items : list tok_entry)
    : list tree_item * gmap string nat :=
  foldl place_item ([], ∅) sorted_items.

(** The tree [load_tok_codes] shows: nothing is touched when the list is
    empty, otherwise the tree is cleared and rebuilt from the sorted
    list. *)
Definition load_tok_codes (tok_tree : list tree_item)
    (tok_items : list tok_entry) : list tree_item :=
  match tok_items with
  | [] => tok_tree
  | _ => (place_items (Py.sorted String.le prefix_key tok_items)).1
  end.

(** ** Time stamps and paths *)

(** A [datetime], as [datetime.fromtimestamp] and [datetime.now] give
    it. *)
Record datetime := DateTime {
  year : Z; month : Z; day : Z; hour : Z; minute : Z; second : Z;
}.

#[export] Instance datetime_eq_dec : EqDecision datetime.
Proof. solve_decision. Defined.

(** A field printed on two digits. *)
Definition pad2 (n : Z) : string :=
  if n <? 10 then "0" ++ Py.str_of_Z n else Py.str_of_Z n.

(** [dt.strftime('%Y-%m-%d %H:%M:%S')] and, with [sep1 = "_"] and
    [sep2 = "-"], [dt.strftime('%Y-%m-%d_%H-%M-%S')].  The year of a file
    time or of the clock has four digits. *)
Definition strftime (sep1 sep2 : string) (dt : datetime) : string :=
  Py.str_of_Z (year dt) ++ "-" ++ pad2 (month dt) ++ "-" ++ pad2 (day dt)
  ++ sep1
  ++ pad2 (hour dt) ++ sep2 ++ pad2 (minute dt) ++ sep2 ++ pad2 (second dt).

(** [os.path.join(a, b)] on a POSIX system. *)
Definition os_path_join (a b : string) : string :=
  if String.prefix "/" b then b
  else if bool_decide (a = "") || Py.endswith "/" a then a ++ b
  else a ++ "/" ++ b.

(** [os.path.relpath(path, start)] for a [path] that [os.walk(start)]
    yields: [start] itself or [start] joined with a relative path. *)
Definition os_path_relpath (path start : string) : string :=
  if bool_decide (path = start) then "."
  else Py.drop (String.length start + 1) path.

(** ** FilesystemScanner: [scan_all_pdfs] and [scan_pdfs] *)

(** What the scans read of a file: its size and times ([None] when the
    calls raise [OSError]) and what [get_pdf_title] returns for it. *)
Record file_stat := FileStat {
  st_size : Z; st_ctime : datetime; st_mtime : datetime;
}.

Record file_node := FileNode {
  f_stat : option file_stat;
  f_title : string;
}.

(** A directory: its files and its subdirectories, in the order in which
    [os.walk] lists them. *)
#[warnings="-register-all"]
Inductive dir_tree :=
| Dir (files : list (string * file_node)) (subdirs : list (string * dir_tree)).

(** [os.walk(top)], top down: a directory is yielded before its
    subdirectories, and a subdirectory that the loop body removed from
    [dirs] ([skip]) is not visited. *)
Fixpoint os_walk (skip : string → bool) (top : string) (d : dir_tree)
    : list (string * list (string * file_node)) :=
  match d with
  | Dir files subdirs =>
      (top, files)
      :: (fix visit (l : list (string * dir_tree)) :=
            match l with
            | [] => []
            | (name, sub) :: l' =>
                ((if skip name then []
                  else os_walk skip (os_path_join top name) sub)
                 ++ visit l')%list
            end) subdirs
  end.

(** The tuple [scan_all_pdfs] keeps for a file. *)
Record file_info := FileInfo {
  fi_base_filename : string;
  fi_tok_prefix : string;
  fi_folder : string;
  fi_date_created : datetime;
  fi_date_modified : datetime;
}.

(** The prefix and the base filename of a file: a prefix that is found
    and is not empty is cut off. *)
Definition split_prefix (filename : string) : string * string :=
  match matches_pattern filename with
  | Some tok_prefix =>
      if bool_decide (tok_prefix = "") then ("", filename)
      else (tok_prefix, remainder tok_prefix filename)
  | None => ("", filename)
  end.

(** The body of the inner loop of [scan_all_pdfs] for one file.  A file
    whose size or times cannot be read is skipped; the line printed for
    it is not part of the result. *)
Definition scan_file (dirpath filename : string) (node : file_node)
    (pdf_dict : gmap Z (list file_info)) : gmap Z (list file_info) :=
  if Py.endswith ".pdf" (Py.lower filename) then
    let '(tok_prefix, base_filename) := split_prefix filename in
    match f_stat node with
    | None => pdf_dict
    | Some st =>
        let file_size := st_size st in
        let file_info :=
          FileInfo base_filename tok_prefix dirpath (st_ctime st) (st_mtime st) in
        match pdf_dict !! file_size with
        | None => <[file_size := [file_info]]> pdf_dict
        | Some l => <[file_size := (l ++ [file_info])%list]> pdf_dict
        end
    end
  else pdf_dict.

Definition scan_dir (pdf_dict : gmap Z (list file_info))
    (entry : string * list (string * file_node)) : gmap Z (list file_info) :=
  foldl (λ d f, scan_file entry.1 f.1 f.2 d) pdf_dict entry.2.

Definition scan_all_pdfs (dropbox_path : string) (root : dir_tree)
    : gmap Z (list file_info) :=
  foldl scan_dir ∅ (os_walk (λ _, false) dropbox_path root).

(** [scan_pdfs]: the files with a prefix, with the folder relative to
    [dropbox_path]; a directory named RAG is not entered. *)
Definition scan_pdfs_file (dropbox_path dirpath filename : string)
    (node : file_node) : list (string * string * string * string) :=
  if Py.endswith ".pdf" (Py.lower filename) then
    match matches_pattern filename with
    | Some pattern =>
        if bool_decide (pattern = "") then []
        else
          let filename_remainder := remainder pattern filename in
          let relative_folder := os_path_relpath dirpath dropbox_path in
          let relative_folder :=
            if bool_decide (relative_folder = ".") then "[root]"
            else relative_folder in
          [(pattern, filename_remainder, relative_folder, f_title node)]
    | None => []
    end
  else [].

Definition scan_pdfs (dropbox_path : string) (root : dir_tree)
    : list (string * string * string * string) :=
  flat_map
    (λ entry, flat_map (λ f, scan_pdfs_file dropbox_path entry.1 f.1 f.2) entry.2)
    (os_walk (λ name, bool_decide (name = "RAG")) dropbox_path root).

(** ** SizeIndex: [create_json_output] *)

(** A [dict] whose order of insertion is observed. *)
Abbreviation odict K V := (list (K * V)) (only parsing).

Fixpoint odict_get `{EqDecision K} {V} (k : K) (d : odict K V) : option V :=
  match d with
  | [] => None
  | (k', v) :: d' => if decide (k' = k) then Some v else odict_get k d'
  end.

(** [d[k] = v]: a key that is there keeps its place, a new one goes to
    the end. *)
Fixpoint odict_set `{EqDecision K} {V} (k : K) (v : V) (d : odict K V)
    : odict K V :=
  match d with
  | [] => [(k, v)]
  | (k', v') :: d' =>
      if decide (k' = k) then (k, v) :: d' else (k', v') :: odict_set k v d'
  end.

(** The objects of the catalog document.  [fe_ToK] is [None] for an
    entry without the key ["ToK"], which only a document of the old
    format has. *)
Record location_obj := LocationObj {
  loc_folder : string;
  loc_created : string;
  loc_modified : string;
}.

Record file_entry := FileEntry {
  fe_filename : string;
  fe_ToK : option string;
  fe_locations : list location_obj;
}.

Record size_obj := SizeObj {
  so_size : Z;
  so_files : list file_entry;
}.

#[export] Instance location_obj_eq_dec : EqDecision location_obj.
Proof. solve_decision. Defined.

#[export] Instance file_entry_eq_dec : EqDecision file_entry.
Proof. solve_decision. Defined.

#[export] Instance size_obj_eq_dec : EqDecision size_obj.
Proof. solve_decision. Defined.

(** The body of the loop over [file_list]: the entry of the base
    filename is created when it is not there, the prefix is added to its
    set when it is not empty, and the location is appended. *)
Definition add_location
    (files_by_name : odict string (gset string * list location_obj))
    (fi : file_info) : odict string (gset string * list location_obj) :=
  let base_filename := fi_base_filename fi in
  let files_by_name :=
    match odict_get base_filename files_by_name with
    | None => odict_set base_filename (∅, []) files_by_name
    | Some _ => files_by_name
    end in
  let '(tok_prefixes, locations) :=
    default (∅, []) (odict_get base_filename files_by_name) in
  let tok_prefixes :=
    if bool_decide (fi_tok_prefix fi = "") then tok_prefixes
    else {[fi_tok_prefix fi]} ∪ tok_prefixes in
  let location_obj :=
    LocationObj (fi_folder fi)
      (strftime " " ":" (fi_date_created fi))
      (strftime " " ":" (fi_date_modified fi)) in
  odict_set base_filename (tok_prefixes, (locations ++ [location_obj])%list)
    files_by_name.

(** [';'.join(sorted(tok_prefixes))], the empty string for no prefix. *)
Definition tok_string (tok_prefixes : gset string) : string :=
  match Py.sorted String.le id (elements tok_prefixes) with
  | [] => ""
  | l => Py.join ";" l
  end.

Definition make_file_entry
    (item : string * (gset string * list location_obj)) : file_entry :=
  FileEntry item.1 (Some (tok_string item.2.1)) item.2.2.

(** The object of one size. *)
Definition make_size_obj (item : Z * list file_info) : size_obj :=
  SizeObj item.1 (make_file_entry <$> foldl add_location [] item.2).

(** [create_json_output]: the sizes in ascending order, each with its
    list of files; with [only_duplicates] a size with one file is left
    out.  The keys of a dictionary are distinct, so sorting the keys and
    looking each one up is sorting the items by key. *)
Definition create_json_output (pdf_dict : gmap Z (list file_info))
    (only_duplicates : bool) : list size_obj :=
  let data_to_process :=
    if only_duplicates
    then filter (λ item : Z * list file_info, (1 < length item.2)%nat) pdf_dict
    else pdf_dict in
  make_size_obj <$> Py.sorted Z.le fst (map_to_list data_to_process).

(** ** SnapshotDiffer: [compare_pdf_scans] *)

(** The value kept for a file in the lookup structures: ['ToK'] and
    ['locations']. *)
Abbreviation file_data := (string * list location_obj)%type (only parsing).

(** The inner dictionary of one size, filled in the order of the file
    entries; an entry without ["ToK"] counts as the empty string. *)
Definition inner_table (files : list file_entry) : odict string file_data :=
  foldl (λ table file_entry,
           odict_set (fe_filename file_entry)
             (default "" (fe_ToK file_entry), fe_locations file_entry) table)
    [] files.

(** [old_data] and [new_data]: a size that comes again starts a new
    inner dictionary. *)
Definition lookup_table (json : list size_obj)
    : gmap Z (odict string file_data) :=
  foldl (λ data size_group,
           <[so_size size_group := inner_table (so_files size_group)]> data)
    ∅ json.

(** One line of the report, before it is made a string. *)
Inductive difference :=
| NEW (filename tok : string) (size : Z) (num_locations : nat)
| REMOVED (filename tok : string) (size : Z) (num_locations : nat)
| TOK_CHANGED (filename old_tok new_tok : string)
| MOVED_COPIED (filename folder : string)
| MOVED_DELETED (filename folder : string)
| MODIFIED (filename folder : string).

#[export] Instance difference_eq_dec : EqDecision difference.
Proof. solve_decision. Defined.

Definition tok_display (tok : string) : string :=
  if bool_decide (tok = "") then "" else " [ToK: " ++ tok ++ "]".

(** The f-strings of [compare_pdf_scans]. *)
Definition render (d : difference) : string :=
  match d with
  | NEW filename tok size n =>
      "NEW: " ++ filename ++ tok_display tok ++ " (size: "
      ++ Py.format_thousands size ++ " bytes, " ++ Py.str_of_nat n
      ++ " location(s))"
  | REMOVED filename tok size n =>
      "REMOVED: " ++ filename ++ tok_display tok ++ " (size: "
      ++ Py.format_thousands size ++ " bytes, was in " ++ Py.str_of_nat n
      ++ " location(s))"
  | TOK_CHANGED filename old_tok new_tok =>
      "TOK CHANGED: " ++ filename ++ " - '" ++ old_tok ++ "' -> '"
      ++ new_tok ++ "'"
  | MOVED_COPIED filename folder =>
      "MOVED/COPIED: " ++ filename ++ " now in: " ++ folder
  | MOVED_DELETED filename folder =>
      "MOVED/DELETED: " ++ filename ++ " no longer in: " ++ folder
  | MODIFIED filename folder =>
      "MODIFIED: " ++ filename ++ " in " ++ folder ++ " - dates changed"
  end.

(** A subscript [data[size][filename]]; [None] is a [KeyError]. *)
Definition subscript2 (data : gmap Z (odict string file_data))
    (size : Z) (filename : string) : option file_data :=
  files ← data !! size; odict_get filename files.

(** The lines for the files in [filenames] of one size, all new or all
    removed. *)
Definition report_files (tag : string → string → Z → nat → difference)
    (data : gmap Z (odict string file_data)) (size : Z)
    (filenames : list string) : option (list difference) :=
  mapM (λ filename,
          fd ← subscript2 data size filename;
          Some (tag filename fd.1 size (length fd.2)))
    filenames.

(** The lines for a size that only one of the two scans has: the files
    in the order of the inner dictionary. *)
Definition report_size (tag : string → string → Z → nat → difference)
    (data : gmap Z (odict string file_data)) (size : Z)
    : option (list difference) :=
  files ← data !! size; report_files tag data size files.*1.

(** A location whose folder both scans have: the first old location in
    that folder is the one compared. *)
Definition compare_dates (filename : string)
    (old_locations : list location_obj) (old_folders : gset string)
    (loc : location_obj) : list difference :=
  let folder := loc_folder loc in
  if decide (folder ∈ old_folders) then
    match Py.next_where (λ l, bool_decide (loc_folder l = folder))
            old_locations with
    | Some old_loc =>
        if bool_decide (loc_created loc ≠ loc_created old_loc)
           || bool_decide (loc_modified loc ≠ loc_modified old_loc)
        then [MODIFIED filename folder]
        else []
    | None => []
    end
  else [].

(** A file that both scans have at the same size. *)
Definition compare_file (filename : string)
    (old_file_data new_file_data : file_data) : list difference :=
  let old_locations := old_file_data.2 in
  let new_locations := new_file_data.2 in
  let old_tok := old_file_data.1 in
  let new_tok := new_file_data.1 in
  let old_folders : gset string := list_to_set (loc_folder <$> old_locations) in
  let new_folders : gset string := list_to_set (loc_folder <$> new_locations) in
  ((if bool_decide (old_tok ≠ new_tok)
    then [TOK_CHANGED filename old_tok new_tok] else [])
   ++ (MOVED_COPIED filename <$> elements (new_folders ∖ old_folders))
   ++ (MOVED_DELETED filename <$> elements (old_folders ∖ new_folders))
   ++ (new_locations ≫= compare_dates filename old_locations old_folders))%list.

(** A size that both scans have. *)
Definition compare_size (old_data new_data : gmap Z (odict string file_data))
    (size : Z) : option (list difference) :=
  old ← old_data !! size;
  new ← new_data !! size;
  let old_files : gset string := list_to_set old.*1 in
  let new_files : gset string := list_to_set new.*1 in
  added ← report_files NEW new_data size (elements (new_files ∖ old_files));
  removed ← report_files REMOVED old_data size (elements (old_files ∖ new_files));
  kept ← mapM (λ filename,
                 old_file_data ← subscript2 old_data size filename;
                 new_file_data ← subscript2 new_data size filename;
                 Some (compare_file filename old_file_data new_file_data))
            (elements (old_files ∩ new_files));
  Some (added ++ removed ++ concat kept)%list.

(** The lines of the comparison of two documents. *)
Definition compare_json (old_json new_json : list size_obj)
    : option (list difference) :=
  let old_data := lookup_table old_json in
  let new_data := lookup_table new_json in
  let old_sizes : gset Z := dom old_data in
  let new_sizes : gset Z := dom new_data in
  added ← mapM (report_size NEW new_data) (elements (new_sizes ∖ old_sizes));
  removed ← mapM (report_size REMOVED old_data) (elements (old_sizes ∖ new_sizes));
  same ← mapM (compare_size old_data new_data) (elements (old_sizes ∩ new_sizes));
  Some (concat added ++ concat removed ++ concat same)%list.

Record comparison := Comparison {
  has_changes : bool;
  differences : list string;
}.

(** [compare_pdf_scans]; [None] for [old_json] is no previous document,
    and a result [None] is a [KeyError]. *)
Definition compare_pdf_scans (old_json : option (list size_obj))
    (new_pdf_dict : gmap Z (list file_info)) (only_duplicates : bool)
    : option comparison :=
  match old_json with
  | None =>
      Some (Comparison true
              ["No previous JSON file found - this is the first scan"])
  | Some old_json =>
      let new_json := create_json_output new_pdf_dict only_duplicates in
      differences ← compare_json old_json new_json;
      Some (Comparison (0 <? length differences)%nat (render <$> differences))
  end.

(** ** The file system and the calls that can raise *)

(** What a path names. *)
Inductive node :=
| RegularFile (content : string) (mtime : Z)
| Directory.

#[export] Instance node_eq_dec : EqDecision node.
Proof. solve_decision. Defined.

(** A call to the operating system, as the key of what it refuses. *)
Inductive syscall :=
| SysMkdir (path : string)
| SysCopy (src dst : string)
| SysWrite (path : string)
| SysRead (path : string)
| SysRename (old new : string)
| SysListdir (path : string)
| SysStat (path : string).

(** The calls that changed the file system, and what the program shows. *)
Inductive event :=
| Mkdir (path : string)
| Copied (src dst : string)
| Written (path : string)
| Renamed (old new : string)
| Printed (text : string)
| ShowMessage (title text icon : string)
| StatusBar (text : string).

#[export] Instance event_eq_dec : EqDecision event.
Proof. solve_decision. Defined.

(** The state a method works on: the file system (paths as they are
    written, no normalisation), the clock, what the operating system
    refuses for reasons outside the model (permissions, a full disk),
    what a refused copy or write leaves at its target, the text that
    [str(e)] gives for an exception of a class (it holds the error
    number, the path or the place in the JSON text, none of which the
    model knows), the events so far, and the fields of the manager and of
    the window. *)
Record world := World {
  fs : gmap string node;
  now : datetime;
  clock : Z;
  refused : syscall → bool;
  debris : string → option string;
  exception_text : string → string;
  events : list event;
  current_dir : string;
  bare_pdf_files : gmap nat string;
  file_paths : gmap nat string;
  files_table : list string;
  files_being_edited : gset string;
}.

Definition set_fs (f : gmap string node → gmap string node) (w : world)
    : world :=
  World (f (fs w)) (now w) (clock w) (refused w) (debris w)
    (exception_text w) (events w) (current_dir w) (bare_pdf_files w)
    (file_paths w) (files_table w) (files_being_edited w).

Definition emit (e : event) (w : world) : world :=
  World (fs w) (now w) (clock w) (refused w) (debris w) (exception_text w)
    (events w ++ [e])%list (current_dir w) (bare_pdf_files w) (file_paths w)
    (files_table w) (files_being_edited w).

Definition set_bare_pdf_files (b : gmap nat string) (w : world) : world :=
  World (fs w) (now w) (clock w) (refused w) (debris w) (exception_text w)
    (events w) (current_dir w) b (file_paths w) (files_table w)
    (files_being_edited w).

Definition set_file_paths (p : gmap nat string) (w : world) : world :=
  World (fs w) (now w) (clock w) (refused w) (debris w) (exception_text w)
    (events w) (current_dir w) (bare_pdf_files w) p (files_table w)
    (files_being_edited w).

Definition set_files_table (t : list string) (w : world) : world :=
  World (fs w) (now w) (clock w) (refused w) (debris w) (exception_text w)
    (events w) (current_dir w) (bare_pdf_files w) (file_paths w) t
    (files_being_edited w).

Definition set_files_being_edited (s : gset string) (w : world) : world :=
  World (fs w) (now w) (clock w) (refused w) (debris w) (exception_text w)
    (events w) (current_dir w) (bare_pdf_files w) (file_paths w)
    (files_table w) s.

(** The outcome of a call: a value or an exception, known by its
    class. *)
Inductive result (A : Type) :=
| Ok (a : A)
| Raised (exn : string).

Arguments Ok {A} a.
Arguments Raised {A} exn.

(** A method: from a state to an outcome and a state. *)
Definition io (A : Type) : Type := world → result A * world.

#[export] Instance io_ret : MRet io := λ A a w, (Ok a, w).

#[export] Instance io_bind : MBind io := λ A B k m w,
  match m w with
  | (Ok a, w') => k a w'
  | (Raised exn, w') => (Raised exn, w')
  end.

(** [try: m except Exception as e: handler].  The handlers of this
    program use [e] in one way only, as [str(e)] in the message they
    show, so what the handler is given is that text. *)
Definition try_except {A} (m : io A) (handler : string → io A) : io A :=
  λ w, match m w with
       | (Ok a, w') => (Ok a, w')
       | (Raised exn, w') => handler (exception_text w' exn) w'
       end.

(** [try: m finally: cleanup] *)
Definition try_finally {A} (m : io A) (cleanup : world → world) : io A :=
  λ w, let '(r, w') := m w in (r, cleanup w').

Definition get_world : io world := λ w, (Ok w, w).

Definition modify (f : world → world) : io unit := λ w, (Ok (), f w).

Definition raise {A} (exn : string) : io A := λ w, (Raised exn, w).

(** [os.path.exists(path)], which never raises. *)
Definition path_exists (path : string) : io bool :=
  λ w, (Ok (bool_decide (is_Some (fs w !! path))), w).

(** A path that cannot be reached: a directory on the way to it may not
    be searched.  [stat] is refused for such a path, and so is opening
    what it names, which is why the refusal of [SysStat] counts only
    together with that of [SysRead]. *)
Definition unreachable (w : world) (path : string) : bool :=
  refused w (SysStat path) && refused w (SysRead path).

(** [Path.exists()] of [pathlib], which is [stat]: a path that names
    nothing gives [False], but a [stat] that fails for another reason
    raises, [PermissionError] for a path that cannot be reached. *)
Definition Path_exists (path : string) : io bool :=
  λ w, if unreachable w path then (Raised "PermissionError", w)
       else (Ok (bool_decide (is_Some (fs w !! path))), w).

(** [os.path.isfile(path)] *)
Definition is_file (w : world) (path : string) : bool :=
  match fs w !! path with Some (RegularFile _ _) => true | _ => false end.

(** [os.path.basename(path)]: what follows the last slash. *)
Fixpoint basename (path : string) : string :=
  match path with
  | EmptyString => EmptyString
  | String c s =>
      if Ascii.eqb c "/" then basename s
      else if existsb (Ascii.eqb "/") (list_ascii_of_string s) then basename s
      else path
  end.

(** [Path.mkdir(exist_ok=True)]: nothing to do for a directory that is
    there; a file in its place is an error. *)
Definition mkdir_exist_ok (path : string) : io unit :=
  λ w, match fs w !! path with
       | Some Directory => (Ok (), w)
       | Some (RegularFile _ _) => (Raised "FileExistsError", w)
       | None =>
           if refused w (SysMkdir path) then (Raised "OSError", w)
           else (Ok (), emit (Mkdir path) (set_fs <[path := Directory]> w))
       end.

(** Where [shutil.copy2(src, dst)] writes: into [dst] when it is a
    directory, else to [dst] itself. *)
Definition copy_target (w : world) (src dst : string) : string :=
  match fs w !! dst with
  | Some Directory => os_path_join dst (basename src)
  | _ => dst
  end.

(** [shutil.copy2(src, dst)]: content and times of a regular file.  A
    refused copy raises and may leave something at the target. *)
Definition shutil_copy2 (src dst : string) : io unit :=
  λ w, match fs w !! src with
       | None => (Raised "FileNotFoundError", w)
       | Some Directory => (Raised "IsADirectoryError", w)
       | Some (RegularFile content mtime) =>
           let target := copy_target w src dst in
           match fs w !! target with
           | Some Directory => (Raised "IsADirectoryError", w)
           | _ =>
               if bool_decide (target = src) then (Raised "SameFileError", w)
               else if refused w (SysCopy src dst) then
                 (Raised "OSError",
                  match debris w target with
                  | Some part =>
                      set_fs <[target := RegularFile part (clock w)]> w
                  | None => w
                  end)
               else
                 (Ok (),
                  emit (Copied src dst)
                    (set_fs <[target := RegularFile content mtime]> w))
           end
       end.

(** [with open(path, 'w') as f: f.write(text)]: a refused write raises
    and may leave the file cut short. *)
Definition write_text (path text : string) : io unit :=
  λ w, match fs w !! path with
       | Some Directory => (Raised "IsADirectoryError", w)
       | _ =>
           if refused w (SysWrite path) then
             (Raised "OSError",
              match debris w path with
              | Some part => set_fs <[path := RegularFile part (clock w)]> w
              | None => w
              end)
           else
             (Ok (),
              emit (Written path)
                (set_fs <[path := RegularFile text (clock w)]> w))
       end.

(** [with open(path, 'r') as f: f.read()] *)
Definition read_text (path : string) : io string :=
  λ w, match fs w !! path with
       | None => (Raised "FileNotFoundError", w)
       | Some Directory => (Raised "IsADirectoryError", w)
       | Some (RegularFile content _) =>
           if refused w (SysRead path) then (Raised "PermissionError", w)
           else (Ok content, w)
       end.

(** [os.rename(old, new)] on a POSIX system: a file at [new] is
    replaced without notice; a file does not replace a directory, nor a
    directory a file.  Of a directory only the entry itself moves: the
    methods below rename what the listing found to be a regular file. *)
Definition os_rename (old new : string) : io unit :=
  λ w, match fs w !! old, fs w !! new with
       | None, _ => (Raised "FileNotFoundError", w)
       | Some (RegularFile _ _), Some Directory =>
           (Raised "IsADirectoryError", w)
       | Some Directory, Some (RegularFile _ _) =>
           (Raised "NotADirectoryError", w)
       | Some n, _ =>
           if refused w (SysRename old new) then (Raised "OSError", w)
           else
             (Ok (),
              emit (Renamed old new) (set_fs (λ f, <[new := n]> (delete old f)) w))
       end.

Definition print (text : string) : io unit := modify (emit (Printed text)).

Definition show_message (title text icon : string) : io unit :=
  modify (emit (ShowMessage title text icon)).

Definition status_bar (text : string) : io unit :=
  modify (emit (StatusBar text)).

(** ** SnapshotStore: [load_pdf_scan_json] and [save_pdf_scan_json] *)

(** [self.dropbox_path / "pdfmanager" / "pdf-files-by-size.json"]: the
    pathlib operator joins like [os.path.join] here. *)
Definition scan_json_path (dropbox_path : string) : string :=
  os_path_join (os_path_join dropbox_path "pdfmanager") "pdf-files-by-size.json".

(** [load_pdf_scan_json].  [json_loads] is [json.load] on the text of
    the file: the value, or [None] when it raises. *)
Definition load_pdf_scan_json {J : Type} (json_loads : string → option J)
    (dropbox_path : string) : io (option J) :=
  let json_path := scan_json_path dropbox_path in
  there ← Path_exists json_path;
  if negb there then mret None
  else
    try_except
      (text ← read_text json_path;
       match json_loads text with
       | Some data => mret (Some data)
       | None => raise "JSONDecodeError"
       end)
      (λ e, print ("Error loading JSON file: " ++ e);; mret None).

Record stats := Stats {
  stats_output_path : string;
  stats_size_groups : nat;
  stats_file_entries : nat;
  stats_total_locations : nat;
  stats_backup_path : option string;
}.

Definition backup_folder_of (output_path_parent : string) : string :=
  os_path_join output_path_parent "pdf-files-by-size-old-files".

Definition backup_filename_at (t : datetime) : string :=
  "pdf-files-by-size_" ++ strftime "_" "-" t ++ ".json".

(** [save_pdf_scan_json].  [json_dumps] is the text [json.dump] writes
    for the catalog. *)
Definition save_pdf_scan_json (json_dumps : list size_obj → string)
    (dropbox_path : string) (pdf_dict : gmap Z (list file_info))
    (only_duplicates backup_old : bool)
    : io (string * stats * option string) :=
  let json_data := create_json_output pdf_dict only_duplicates in
  let parent := os_path_join dropbox_path "pdfmanager" in
  let output_path := scan_json_path dropbox_path in
  there ← (if backup_old then Path_exists output_path else mret false);
  backup_path ←
    (if (there : bool) then
       w ← get_world;
       let backup_filename := backup_filename_at (now w) in
       let backup_folder := backup_folder_of parent in
       mkdir_exist_ok backup_folder;;
       let backup_path := os_path_join backup_folder backup_filename in
       shutil_copy2 output_path backup_path;;
       mret (Some backup_path)
     else mret None);
  write_text output_path (json_dumps json_data);;
  let total_size_groups := length json_data in
  let total_file_entries :=
    sum_list ((λ size_group, length (so_files size_group)) <$> json_data) in
  let total_locations :=
    sum_list ((λ file_entry, length (fe_locations file_entry))
                <$> (json_data ≫= so_files)) in
  let stats :=
    Stats output_path total_size_groups total_file_entries total_locations
      backup_path in
  mret (output_path, stats, backup_path).

(** ** SafeRenamer: the bare files and the two renames *)

(** The name of [path] in the directory [dir], when it is directly in
    it. *)
Definition child_name (dir path : string) : option string :=
  let p := if Py.endswith "/" dir then dir else dir ++ "/" in
  if String.prefix p path then
    let name := Py.drop (String.length p) path in
    if bool_decide (name = "")
       || existsb (Ascii.eqb "/") (list_ascii_of_string name)
    then None else Some name
  else None.

(** [os.listdir(path)], in some order. *)
Definition os_listdir (path : string) : io (list string) :=
  λ w, match fs w !! path with
       | Some Directory =>
           if refused w (SysListdir path) then (Raised "PermissionError", w)
           else (Ok (omap (λ item, child_name path item.1) (map_to_list (fs w))), w)
       | Some (RegularFile _ _) => (Raised "NotADirectoryError", w)
       | None => (Raised "FileNotFoundError", w)
       end.

(** [os.path.getmtime(path)] of a regular file. *)
Definition os_path_getmtime (path : string) : io Z :=
  λ w, match fs w !! path with
       | Some (RegularFile _ mtime) => (Ok mtime, w)
       | _ => (Raised "OSError", w)
       end.

(** [not self.matches_pattern(f)] *)
Definition is_bare (f : string) : bool :=
  match matches_pattern f with
  | Some pattern => bool_decide (pattern = "")
  | None => true
  end.

(** [[(f, os.path.getmtime(os.path.join(dir, f))) for f in names]] *)
Definition with_mtime (dir : string) (names : list string)
    : io (list (string * Z)) :=
  mapM (λ f, mtime ← os_path_getmtime (os_path_join dir f); mret (f, mtime))
    names.

(** [get_bare_pdfs]: the files without a prefix, latest first, numbered
    from 1.  With no such file the index is left as it was. *)
Definition get_bare_pdfs (dir : string) : io (list (nat * string)) :=
  names ← os_listdir dir;
  w ← get_world;
  let pdf_files :=
    filter (λ f, Py.endswith ".pdf" (Py.lower f) = true
                 ∧ is_file w (os_path_join dir f) = true) names in
  let bare_pdfs := filter (λ f, is_bare f = true) pdf_files in
  match bare_pdfs with
  | [] => mret []
  | _ =>
      bare_pdfs_with_time ← with_mtime dir bare_pdfs;
      let bare_pdfs_sorted :=
        (Py.sorted (flip Z.le) snd bare_pdfs_with_time).*1 in
      let items := imap (λ idx filename, (S idx, filename)) bare_pdfs_sorted in
      modify (set_bare_pdf_files (list_to_map items));;
      mret items
  end.

(** [show_bare_pdfs] *)
Definition show_bare_pdfs : io unit :=
  try_except
    (w ← get_world;
     bare_pdfs ← get_bare_pdfs (current_dir w);
     match bare_pdfs with
     | [] =>
         show_message "No Files" "No bare PDF files found in current folder."
           "Information";;
         modify (set_files_table []);;
         modify (set_file_paths ∅)
     | _ =>
         modify (set_files_table bare_pdfs.*2);;
         modify (set_file_paths
                   (list_to_map
                      (imap (λ row_idx item,
                               (row_idx, os_path_join (current_dir w) item.2))
                         bare_pdfs)));;
         status_bar ("Loaded " ++ Py.str_of_nat (length bare_pdfs)
                     ++ " bare PDF files from " ++ current_dir w)
     end)
    (λ e, show_message "Error" ("Error loading files: " ++ e) "Critical").

(** [add_tok_prefix_to_file].  What the widgets say is given: whether a
    file is selected, the text of the current item of the tree, and the
    current row of the table (negative for none). *)
Definition add_tok_prefix_to_file (file_selected : bool)
    (selected_tok_item : option string) (file_row : Z) : io unit :=
  if negb file_selected then
    show_message "No File Selected"
      "Please select a file from the Files table first." "Warning"
  else
  match selected_tok_item with
  | None =>
      show_message "No ToK Selected"
        "Please select a ToK code from the ToK tree first." "Warning"
  | Some tok_text =>
  if file_row <? 0 then
    show_message "Invalid Selection"
      "Please select one file and one ToK entry." "Warning"
  else
  let tok_code := Py.strip tok_text in
  if bool_decide (tok_code = "") then
    show_message "Error" "Could not read ToK code." "Critical"
  else
  w ← get_world;
  match files_table w !! Z.to_nat file_row with
  | None => show_message "Error" "Could not read filename." "Critical"
  | Some _ =>
  let file_index := Z.to_nat (file_row + 1) in
  match bare_pdf_files w !! file_index with
  | None => show_message "Error" "File not found in database." "Critical"
  | Some actual_old_filename =>
      try_except
        (let formatted_code := formatted_code tok_code in
         let new_filename := formatted_code ++ actual_old_filename in
         let old_path := os_path_join (current_dir w) actual_old_filename in
         let new_path := os_path_join (current_dir w) new_filename in
         old_there ← path_exists old_path;
         if negb (old_there : bool) then
           show_message "Error"
             ("File '" ++ actual_old_filename ++ "' not found on disk.")
             "Critical"
         else
         new_there ← path_exists new_path;
         if (new_there : bool) then
           show_message "Error"
             ("A file named '" ++ new_filename ++ "' already exists.")
             "Warning"
         else
         os_rename old_path new_path;;
         modify (λ w, set_bare_pdf_files
                        (<[file_index := new_filename]> (bare_pdf_files w)) w);;
         modify (λ w, set_files_table
                        (<[Z.to_nat file_row := new_filename]> (files_table w)) w);;
         modify (λ w, set_file_paths
                        (<[Z.to_nat file_row := new_path]> (file_paths w)) w);;
         status_bar ("Added prefix '" ++ tok_code ++ "' to file: "
                     ++ new_filename))
        (λ e, show_message "Error" ("Error renaming file: " ++ e) "Critical")
  end end end.

(** [on_file_item_changed] for the item of row [row]: the text of the
    cell is the name the user typed. *)
Definition on_file_item_changed (row : nat) : io unit :=
  w ← get_world;
  match files_table w !! row with
  | None => mret ()
  | Some text =>
  let row_id := Py.str_of_nat row in
  if decide (row_id ∈ files_being_edited w) then mret ()
  else
  let discard :=
    λ w, set_files_being_edited (files_being_edited w ∖ {[row_id]}) w in
  try_finally
    (try_except
       (modify (λ w, set_files_being_edited
                       ({[row_id]} ∪ files_being_edited w) w);;
        let new_filename := Py.strip text in
        if bool_decide (new_filename = "") then
          show_message "Error" "Filename cannot be empty." "Warning";;
          modify discard;;
          show_bare_pdfs
        else
        w ← get_world;
        match bare_pdf_files w !! S row with
        | None =>
            show_message "Error" "Could not find original file." "Critical";;
            modify discard
        | Some old_filename =>
        if bool_decide (old_filename = "") then
          show_message "Error" "Could not find original file." "Critical";;
          modify discard
        else
        if bool_decide (old_filename = new_filename) then modify discard
        else
        let old_path := os_path_join (current_dir w) old_filename in
        let new_path := os_path_join (current_dir w) new_filename in
        old_there ← path_exists old_path;
        if negb (old_there : bool) then
          show_message "Error" ("File '" ++ old_filename ++ "' not found.")
            "Critical";;
          modify discard;;
          show_bare_pdfs
        else
        new_there ← path_exists new_path;
        if (new_there : bool) then
          show_message "Error"
            ("A file named '" ++ new_filename ++ "' already exists.")
            "Warning";;
          modify discard;;
          show_bare_pdfs
        else
        os_rename old_path new_path;;
        modify (λ w, set_bare_pdf_files
                       (<[S row := new_filename]> (bare_pdf_files w)) w);;
        modify (λ w, set_file_paths (<[row := new_path]> (file_paths w)) w);;
        status_bar ("Renamed: " ++ old_filename ++ " -> " ++ new_filename)
        end)
       (λ e, show_message "Error" ("Error renaming file: " ++ e) "Critical";;
             show_bare_pdfs))
    discard
  end.

(** ** The by-size scan in the window: [on_dropbox_scan_finished] *)

(** [for x in l: f(x)] *)
Definition for_each {A} (f : A → io unit) (l : list A) : io unit :=
  foldr (λ x rest, f x;; rest) (mret ()) l.

(** ["=" * 80] *)
Definition rule : string := string_of_list_ascii (replicate 80 "="%char).

(** [sum(len(files) for files in pdf_dict.values())] *)
Definition count_files (pdf_dict : gmap Z (list file_info)) : nat :=
  sum_list (length <$> (map_to_list pdf_dict).*2).

(** The three texts of [show_differences_dialog], in the order in which
    the dialog shows them. *)
Definition show_differences_dialog (differences : list string)
    (total_files duplicate_files : nat) (stats : stats)
    (backup_path : option string) : io unit :=
  let summary_text :=
    "<b>Scan Complete - Changes Detected!</b><br><br>"
    ++ "Total PDFs found: " ++ Py.str_of_nat total_files ++ "<br>"
    ++ "Files with duplicate sizes: " ++ Py.str_of_nat duplicate_files
    ++ "<br>"
    ++ "Changes detected: " ++ Py.str_of_nat (length differences) ++ "<br>" in
  let diff_text :=
    foldl (λ text diff, text ++ diff ++ Py.nl) "" differences in
  let info_text :=
    match backup_path with
    | Some backup_path =>
        "Old JSON backed up to:<br>" ++ backup_path ++ "<br><br>"
    | None => ""
    end
    ++ "New JSON saved to:<br>" ++ stats_output_path stats ++ "<br><br>"
    ++ "The JSON contains " ++ Py.str_of_nat (stats_file_entries stats)
    ++ " unique filenames " ++ "across "
    ++ Py.str_of_nat (stats_total_locations stats) ++ " locations." in
  show_message "Scan Complete - Changes Detected"
    (summary_text ++ diff_text ++ info_text) "Dialog".

(** [on_dropbox_scan_finished]: the scan is compared with the document
    of the last one, and the document is written again, with a backup,
    only when the comparison shows a change. *)
Definition on_dropbox_scan_finished
    (json_loads : string → option (list size_obj))
    (json_dumps : list size_obj → string) (dropbox_path : string)
    (pdf_dict : gmap Z (list file_info)) : io unit :=
  if bool_decide (pdf_dict = ∅) then
    show_message "Scan Complete" "No PDF files were found in Dropbox."
      "Information";;
    status_bar "Scan complete - no PDFs found"
  else
  let total_files := count_files pdf_dict in
  let duplicates :=
    filter (λ item : Z * list file_info, (1 < length item.2)%nat) pdf_dict in
  let duplicate_files := count_files duplicates in
  try_except
    (print (Py.nl ++ rule);;
     print "COMPARING WITH PREVIOUS SCAN";;
     print rule;;
     old_json ← load_pdf_scan_json json_loads dropbox_path;
     match compare_pdf_scans old_json pdf_dict true with
     | None => raise "KeyError"
     | Some comparison =>
         if has_changes comparison then
           print (Py.nl ++ "Found "
                  ++ Py.str_of_nat (length (differences comparison))
                  ++ " difference(s):" ++ Py.nl);;
           for_each (λ diff, print ("  " ++ diff)) (differences comparison);;
           print (Py.nl ++ rule ++ Py.nl);;
           saved ← save_pdf_scan_json json_dumps dropbox_path pdf_dict true true;
           let '(output_path, stats, backup_path) := saved in
           show_differences_dialog (differences comparison) total_files
             duplicate_files stats backup_path;;
           status_bar ("Scan complete - "
                       ++ Py.str_of_nat (length (differences comparison))
                       ++ " changes detected")
         else
           print "No differences detected.";;
           print (rule ++ Py.nl);;
           let message :=
             "Scan Complete - No Changes" ++ Py.nl ++ Py.nl
             ++ "Total PDFs found: " ++ Py.str_of_nat total_files ++ Py.nl
             ++ "Files with duplicate sizes: "
             ++ Py.str_of_nat duplicate_files ++ Py.nl ++ Py.nl
             ++ "No differences detected from previous scan." ++ Py.nl
             ++ "JSON file was not updated." in
           show_message "Scan Complete - No Changes" message "Information";;
           status_bar "Scan complete - no changes detected"
     end)
    (λ e,
       print (Py.nl ++ "Error during comparison: " ++ e ++ Py.nl);;
       show_message "Error"
         ("Scan completed but error during comparison: " ++ e) "Critical";;
       status_bar "Scan completed with errors").

(** ** The report on duplicates: [analyze_duplicates.py] *)

Definition PROTECTED_FOLDERS : list string :=
  ["documents"; "1hugefiles"; "documents-in-folders"; "1-spark-library"].

Definition IGNORE_FOLDERS : list string := ["pdfmanager"].

(** [is_protected_folder]: the loop returns on the first name that is
    found. *)
Definition is_protected_folder (folder_path : string) : bool :=
  existsb (λ protected,
             Py.contains ("/" ++ protected) folder_path
             || Py.endswith ("/" ++ protected) folder_path)
    PROTECTED_FOLDERS.

Definition is_ignored_folder (folder_path : string) : bool :=
  existsb (λ ignored,
             Py.contains ("/" ++ ignored) folder_path
             || Py.endswith ("/" ++ ignored) folder_path)
    IGNORE_FOLDERS.

(** One record of [deletable_by_folder]. *)
Record deletable := Deletable {
  d_filename : string;
  d_size : Z;
  d_protected_locations : list string;
}.

(** The dictionary that [analyze_duplicates] returns; the
    [defaultdict] keeps the folders in the order in which they came
    first. *)
Record analysis := Analysis {
  deletable_by_folder : list (string * list deletable);
  total_files_in_protected : nat;
  total_deletable_duplicates : nat;
}.

(** The loop over the locations of a file: the folders that are
    protected and the others, without the ignored ones. *)
Definition split_locations (locations : list location_obj)
    : list string * list string :=
  foldl (λ lists loc,
           let folder := loc_folder loc in
           if is_ignored_folder folder then lists
           else if is_protected_folder folder
                then ((lists.1 ++ [folder])%list, lists.2)
                else (lists.1, (lists.2 ++ [folder])%list))
    ([], []) locations.

(** [deletable_by_folder[folder].append(record)] *)
Definition append_record (record : deletable)
    (by_folder : list (string * list deletable)) (folder : string)
    : list (string * list deletable) :=
  odict_set folder (default [] (odict_get folder by_folder) ++ [record])%list
    by_folder.

(** The body of the loop over the files of a size. *)
Definition analyze_file (size : Z) (st : analysis) (file_entry : file_entry)
    : analysis :=
  let filename := fe_filename file_entry in
  let '(protected_locations, non_protected_locations) :=
    split_locations (fe_locations file_entry) in
  match protected_locations, non_protected_locations with
  | _ :: _, _ :: _ =>
      Analysis
        (foldl (append_record (Deletable filename size protected_locations))
           (deletable_by_folder st) non_protected_locations)
        (S (total_files_in_protected st))
        (total_deletable_duplicates st + length non_protected_locations)
  | _, _ => st
  end.

(** The loops of [analyze_duplicates] over the document. *)
Definition analyze (data : list size_obj) : analysis :=
  foldl (λ st size_group,
           foldl (analyze_file (so_size size_group)) st (so_files size_group))
    (Analysis [] 0 0) data.

(** [analyze_duplicates]: the document is read and analysed. *)
Definition analyze_duplicates (json_loads : string → option (list size_obj))
    (json_file_path : string) : io analysis :=
  text ← read_text json_file_path;
  match json_loads text with
  | Some data => mret (analyze data)
  | None => raise "JSONDecodeError"
  end.

(** [sorted(deletable_by_folder.items(), key=lambda x: len(x[1]),
    reverse=True)] of the two reports: with [reverse] the folders of
    one count keep their order. *)
Definition sorted_folders (stats : analysis)
    : list (string * list deletable) :=
  Py.sorted (flip le) (λ x, length x.2) (deletable_by_folder stats).

(** The records of an analysis, and the number of them. *)
Definition num_deletable (by_folder : list (string * list deletable)) : nat :=
  sum_list ((λ x, length x.2) <$> by_folder).

(** ** The classification document and the handlers of the tree *)

Module Window.

(** The part of the window and of its manager that the classification
    tree works on: the world, [manager.tok_data] (a document is known by
    its list ["ToK"]; [None] is a document without that key, as the
    empty dictionary before the first load), the items of [tok_tree] and
    [tok_being_edited]. *)
Record window := Window {
  the_world : world;
  tok_data : option (list tok_entry);
  tok_tree : list tree_item;
  tok_being_edited : gset string;
}.

Definition set_world (w : world) (s : window) : window :=
  Window w (tok_data s) (tok_tree s) (tok_being_edited s).

Definition set_tok_data (d : option (list tok_entry)) (s : window) : window :=
  Window (the_world s) d (tok_tree s) (tok_being_edited s).

Definition set_tok_tree (t : list tree_item) (s : window) : window :=
  Window (the_world s) (tok_data s) t (tok_being_edited s).

Definition set_tok_being_edited (e : gset string) (s : window) : window :=
  Window (the_world s) (tok_data s) (tok_tree s) e.

(** A method of the window: from a state to an outcome and a state. *)
Definition gui (A : Type) : Type := window → result A * window.

#[global] Instance gui_ret : MRet gui := λ A a s, (Ok a, s).

#[global] Instance gui_bind : MBind gui := λ A B k m s,
  match m s with
  | (Ok a, s') => k a s'
  | (Raised exn, s') => (Raised exn, s')
  end.

(** A call that works on the world alone. *)
Definition lift {A} (m : io A) : gui A :=
  λ s, let '(r, w') := m (the_world s) in (r, set_world w' s).

Definition try_except {A} (m : gui A) (handler : string → gui A) : gui A :=
  λ s, match m s with
       | (Ok a, s') => (Ok a, s')
       | (Raised exn, s') => handler (exception_text (the_world s') exn) s'
       end.

Definition try_finally {A} (m : gui A) (cleanup : window → window) : gui A :=
  λ s, let '(r, s') := m s in (r, cleanup s').

Definition get : gui window := λ s, (Ok s, s).

Definition modify (f : window → window) : gui unit := λ s, (Ok (), f s).

Definition raise {A} (exn : string) : gui A := λ s, (Raised exn, s).

Section Methods.

(** [json.load] on the text of the document: [None] when it raises,
    else the list ["ToK"] of the document, if it has one.  [json.dump]
    gives the text for a document. *)
Variable json_loads : string → option (option (list tok_entry)).
Variable json_dumps : option (list tok_entry) → string.
Variable dropbox_path : string.

(** [self.json_file] and its parent. *)
Definition json_file : string :=
  os_path_join (os_path_join dropbox_path "pdfmanager")
    "pdf_manager_tok_init.json".

Definition backup_filename_at (t : datetime) : string :=
  "pdf_manager_tok_init_" ++ strftime "_" "-" t ++ ".json".

(** [PDFManager.load_tok_data]: the document read replaces the one in
    memory before its key is looked at. *)
Definition load_tok_data : gui (list tok_entry) :=
  there ← lift (Path_exists json_file);
  if negb (there : bool) then raise "FileNotFoundError"
  else
    text ← lift (read_text json_file);
    match json_loads text with
    | None => raise "JSONDecodeError"
    | Some document =>
        modify (set_tok_data document);;
        match document with
        | None => raise "KeyError"
        | Some tok => mret tok
        end
    end.

(** [PDFManager.save_tok_data]: the document on disk is renamed to the
    backup name, then the one in memory is written. *)
Definition save_tok_data : gui string :=
  s ← get;
  let backup_filename := backup_filename_at (now (the_world s)) in
  let backup_path :=
    os_path_join (os_path_join dropbox_path "pdfmanager") backup_filename in
  there ← lift (Path_exists json_file);
  (if (there : bool) then lift (os_rename json_file backup_path)
   else mret ());;
  lift (write_text json_file (json_dumps (tok_data s)));;
  mret backup_filename.

(** The three methods that change the list in memory;
    [self.tok_data['ToK']] is a [KeyError] without the key. *)
Definition update_tok_entry (old_code new_code new_label : string)
    : gui bool :=
  s ← get;
  match tok_data s with
  | None => raise "KeyError"
  | Some tok =>
      let result := update_tok_entry old_code new_code new_label tok in
      modify (set_tok_data (Some result.2));;
      mret result.1
  end.

Definition add_tok_entry (code label : string) : gui unit :=
  s ← get;
  match tok_data s with
  | None => raise "KeyError"
  | Some tok => modify (set_tok_data (Some (add_tok_entry code label tok)))
  end.

Definition delete_tok_entry (code : string) : gui bool :=
  s ← get;
  match tok_data s with
  | None => raise "KeyError"
  | Some tok =>
      let result := delete_tok_entry code tok in
      modify (set_tok_data (Some result.2));;
      mret result.1
  end.

(** [PDFManagerWindow.load_tok_codes]: the document is loaded and the
    tree is built from it. *)
Definition load_tok_codes : gui unit :=
  try_except
    (tok_items ← load_tok_data;
     match tok_items with
     | [] =>
         lift (show_message "No Data" "No ToK codes found in database."
                 "Information")
     | _ =>
         modify (λ s, set_tok_tree (load_tok_codes (tok_tree s) tok_items) s);;
         lift (status_bar ("Loaded " ++ Py.str_of_nat (length tok_items)
                           ++ " ToK codes"))
     end)
    (λ e, lift (show_message "Error" ("Error loading ToK codes: " ++ e)
                  "Critical")).

(** [x.get('ToK', [])] of the two dialogs. *)
Definition tok_or_empty (s : window) : list tok_entry :=
  default [] (tok_data s).

(** [on_tok_item_changed] for an item with the texts [text0] and
    [text1]; [item_id] stands for [id(item)]. *)
Definition on_tok_item_changed (item_id text0 text1 : string) : gui unit :=
  let new_code := Py.strip text0 in
  let new_label := Py.strip text1 in
  s ← get;
  if decide (item_id ∈ tok_being_edited s) then mret ()
  else
  let discard :=
    λ s, set_tok_being_edited (tok_being_edited s ∖ {[item_id]}) s in
  try_finally
    (try_except
       (modify (λ s, set_tok_being_edited
                       ({[item_id]} ∪ tok_being_edited s) s);;
        if bool_decide (new_code = "") || bool_decide (new_label = "") then
          lift (show_message "Error" "ToK code and label cannot be empty."
                  "Warning");;
          modify discard;;
          load_tok_codes
        else
        if negb (forallb Py.isalnum (Py.split new_code)) then
          lift (show_message "Error"
                  "ToK code must contain only alphanumeric characters and spaces."
                  "Warning");;
          modify discard;;
          load_tok_codes
        else
        s ← get;
        match tok_data s with
        | None => raise "KeyError"
        | Some tok =>
        let old_code :=
          match find (λ entry, bool_decide (e_string entry = Some new_label))
                  tok with
          | Some entry => e_prefix entry
          | None => None
          end in
        match old_code with
        | None => modify discard
        | Some old_code =>
        if bool_decide (old_code = "") then modify discard
        else
        if bool_decide (new_code ≠ old_code)
           && existsb (λ entry,
                         bool_decide (e_prefix entry = Some new_code)
                         && bool_decide (e_prefix entry ≠ Some old_code))
                tok
        then
          lift (show_message "Error"
                  ("ToK code '" ++ new_code ++ "' already exists." ++ Py.nl
                   ++ "Please use a unique code.") "Warning");;
          modify discard;;
          load_tok_codes
        else
          update_tok_entry old_code new_code new_label;;
          backup_file ← save_tok_data;
          lift (status_bar ("Updated ToK: '" ++ new_code ++ "' - '"
                            ++ new_label ++ "' (backup: " ++ backup_file
                            ++ ")"))
        end end)
       (λ e, lift (show_message "Error" ("Error updating ToK: " ++ e)
                     "Critical");;
             load_tok_codes))
    discard.

(** [add_to_tok]; a dialog gives the text typed and whether it was
    accepted. *)
Definition add_to_tok (code_dialog label_dialog : string * bool) : gui unit :=
  let '(tok_code, ok1) := code_dialog in
  if negb ok1 || bool_decide (tok_code = "") then mret ()
  else
  let tok_code := Py.strip tok_code in
  if negb (Py.isalnum tok_code) then
    lift (show_message "Error" "ToK code must be alphanumeric only." "Warning")
  else
  s ← get;
  if existsb (λ entry, bool_decide (e_prefix entry = Some tok_code))
       (tok_or_empty s)
  then
    lift (show_message "Error"
            ("ToK code '" ++ tok_code ++ "' already exists." ++ Py.nl
             ++ "Edit it in the table instead.") "Warning")
  else
  let '(label, ok2) := label_dialog in
  if negb ok2 || bool_decide (label = "") then mret ()
  else
  let label := Py.strip label in
  try_except
    (add_tok_entry tok_code label;;
     backup_file ← save_tok_data;
     lift (show_message "Success"
             ("Added ToK entry:" ++ Py.nl ++ "Code: " ++ tok_code ++ Py.nl
              ++ "Label: " ++ label ++ Py.nl ++ Py.nl ++ "Backup: "
              ++ backup_file) "Information");;
     load_tok_codes;;
     lift (status_bar ("Added ToK: '" ++ tok_code ++ "' - '" ++ label ++ "'")))
    (λ e, lift (show_message "Error" ("Error adding ToK entry: " ++ e)
                  "Critical")).

(** [delete_from_tok]; [confirmed] is the answer to the question. *)
Definition delete_from_tok (code_dialog : string * bool) (confirmed : bool)
    : gui unit :=
  let '(tok_code, ok) := code_dialog in
  if negb ok || bool_decide (tok_code = "") then mret ()
  else
  let tok_code := Py.strip tok_code in
  s ← get;
  let found_label :=
    match find (λ entry, bool_decide (e_prefix entry = Some tok_code))
            (tok_or_empty s) with
    | Some entry => e_string entry
    | None => None
    end in
  match found_label with
  | None =>
      lift (show_message "Error" ("ToK code '" ++ tok_code ++ "' not found.")
              "Warning")
  | Some found_label =>
  if bool_decide (found_label = "") then
    lift (show_message "Error" ("ToK code '" ++ tok_code ++ "' not found.")
            "Warning")
  else
  if confirmed then
    try_except
      (delete_tok_entry tok_code;;
       backup_file ← save_tok_data;
       lift (show_message "Success"
               ("Deleted ToK entry:" ++ Py.nl ++ "Code: " ++ tok_code ++ Py.nl
                ++ "Label: " ++ found_label ++ Py.nl ++ Py.nl ++ "Backup: "
                ++ backup_file) "Information");;
       load_tok_codes;;
       lift (status_bar ("Deleted ToK: '" ++ tok_code ++ "'")))
      (λ e, lift (show_message "Error" ("Error deleting ToK entry: " ++ e)
                    "Critical"))
  else mret ()
  end.

End Methods.

End Window.

(** ** The patterned scan in the window: [on_scan_finished] *)

(** The order of the keys [(x[0], x[1])]: by the first component, and
    by the second when the first ones are equal. *)
Definition pair_le (a b : string * string) : Prop :=
  if decide (a.1 = b.1) then String.le a.2 b.2 else String.le a.1 b.1.

#[export] Instance pair_le_dec : RelDecision pair_le.
Proof. intros a b. unfold pair_le. destruct (decide (a.1 = b.1)); apply _. Defined.

(** The key of a result [(pattern, filename, folder, title)]. *)
Definition sort_key (r : string * string * string * string)
    : string * string :=
  (r.1.1.1, r.1.1.2).

(** ["-" * n] *)
Definition dashes (n : nat) : string :=
  string_of_list_ascii (replicate n "-"%char).

(** [max(max(len(r[i]) for r in results) + 2, least)] *)
Definition col_width (field : string * string * string * string → string)
    (least : nat) (results : list (string * string * string * string)) : nat :=
  (max_list ((λ r, String.length (field r)) <$> results) + 2) `max` least.

(** One line of the report. *)
Definition report_line (col1_width col2_width col3_width : nat)
    (r : string * string * string * string) : string :=
  Py.ljust col1_width r.1.1.1 ++ " " ++ Py.ljust col2_width r.1.1.2 ++ " "
  ++ Py.ljust col3_width r.1.2 ++ " " ++ r.2 ++ Py.nl.

(** The first line of the report. *)
Definition report_header (col1_width col2_width col3_width : nat) : string :=
  Py.ljust col1_width "Pattern" ++ " " ++ Py.ljust col2_width "Filename"
  ++ " " ++ Py.ljust col3_width "Folder" ++ " " ++ "Internal Title" ++ Py.nl.

(** The text written to [pdf-document.txt]. *)
Definition output_text (results : list (string * string * string * string))
    : string :=
  let col1_width := col_width (λ r, r.1.1.1) 10 results in
  let col2_width := col_width (λ r, r.1.1.2) 20 results in
  let col3_width := col_width (λ r, r.1.2) 20 results in
  let output_text := report_header col1_width col2_width col3_width in
  let output_text :=
    output_text ++ dashes (col1_width + col2_width + col3_width + 50)
    ++ Py.nl in
  foldl (λ output_text r,
           output_text ++ report_line col1_width col2_width col3_width r)
    output_text (Py.sorted pair_le sort_key results).

(** The path kept for a row of the table: the name is put together
    again from the prefix and the rest, the folder from the root and
    the relative folder. *)
Definition row_path (dropbox_path : string)
    (r : string * string * string * string) : string :=
  let full_filename := r.1.1.1 ++ " " ++ r.1.1.2 in
  let actual_folder :=
    if bool_decide (r.1.2 = "[root]") then dropbox_path
    else os_path_join dropbox_path r.1.2 in
  os_path_join actual_folder full_filename.

(** [on_scan_finished]; of the table the column of the file names is
    kept. *)
Definition on_scan_finished (dropbox_path : string)
    (results : list (string * string * string * string)) : io unit :=
  match results with
  | [] =>
      show_message "Scan Complete" "No PDFs matching the pattern were found."
        "Information";;
      status_bar "Scan complete - no results";;
      modify (set_files_table []);;
      modify (set_file_paths ∅)
  | _ =>
      let output_dir := os_path_join dropbox_path "coffeetable" in
      mkdir_exist_ok output_dir;;
      let output_file_path := os_path_join output_dir "pdf-document.txt" in
      write_text output_file_path (output_text results);;
      let sorted_results := Py.sorted pair_le sort_key results in
      modify (set_files_table ((λ r, r.1.1.2) <$> sorted_results));;
      modify (set_file_paths
                (list_to_map
                   (imap (λ row_idx r, (row_idx, row_path dropbox_path r))
                      sorted_results)));;
      show_message "Scan Complete"
        ("Found " ++ Py.str_of_nat (length results)
         ++ " PDFs with ToK indices." ++ Py.nl ++ Py.nl
         ++ "Results displayed in table and written to:" ++ Py.nl
         ++ output_file_path) "Information";;
      status_bar ("Scan complete - " ++ Py.str_of_nat (length results)
                  ++ " PDFs found")
  end.

(** [on_file_double_clicked] for a row; [opened] is what
    [QDesktopServices.openUrl] answers. *)
Definition on_file_double_clicked (row : nat) (opened : bool) : io unit :=
  w ← get_world;
  match file_paths w !! row with
  | None => status_bar "Error: File path not found"
  | Some file_path =>
      there ← path_exists file_path;
      if negb (there : bool) then
        show_message "File Not Found" ("File not found:" ++ Py.nl ++ file_path)
          "Warning"
      else if opened then status_bar ("Opening: " ++ basename file_path)
      else
        show_message "Error" ("Could not open file:" ++ Py.nl ++ file_path)
          "Critical"
  end.

(** ** Predicates of the statements *)



(** The file system is as before and the events were only added to. *)
Definition fs_kept (w w' : world) : Prop :=
  fs w' = fs w ∧ ∃ ev, events w' = (events w ++ ev)%list.

(** What the lookup structures keep of a file entry. *)
Definition entry_data (fe : file_entry) : file_data :=
  (default "" (fe_ToK fe), fe_locations fe).

(** The locations of a file that are in one folder have the same
    dates. *)
Definition folder_dates_agree (locations : list location_obj) : Prop :=
  ∀ l1 l2, l1 ∈ locations → l2 ∈ locations →
           loc_folder l1 = loc_folder l2 →
           loc_created l1 = loc_created l2 ∧ loc_modified l1 = loc_modified l2.

(** The records of a scan, size by size. *)
Definition records (pdf_dict : gmap Z (list file_info)) : list file_info :=
  map_to_list pdf_dict ≫= snd.

(** A file of a listing that the by-size scan keeps: its name ends in
    [.pdf], in any case, and its size and times can be read. *)
Definition readable_pdf (f : string * file_node) : Prop :=
  Py.endswith ".pdf" (Py.lower f.1) = true ∧ is_Some (f_stat f.2).

#[export] Instance readable_pdf_dec f : Decision (readable_pdf f).
Proof. unfold readable_pdf. apply _. Defined.

(** The locations a catalog lists, over all sizes and files. *)
Definition num_locations (json : list size_obj) : nat :=
  sum_list ((λ file_entry, length (fe_locations file_entry))
              <$> (json ≫= so_files)).

(** What [create_json_output] processes. *)
Definition data_to_process (pdf_dict : gmap Z (list file_info))
    (only_duplicates : bool) : gmap Z (list file_info) :=
  if only_duplicates
  then filter (λ item : Z * list file_info, (1 < length item.2)%nat) pdf_dict
  else pdf_dict.

(** The locations of the entries of one size while they are collected. *)
Definition locations_of (files_by_name
    : list (string * (gset string * list location_obj))) : nat :=
  sum_list ((λ item, length item.2.2) <$> files_by_name).

(** The clock, and what the operating system refuses and leaves behind,
    are as before. *)
Definition same_setting (w w' : world) : Prop :=
  now w' = now w ∧ clock w' = clock w ∧ refused w' = refused w
  ∧ debris w' = debris w.

(** A folder that is kept for deletion, and a record of it. *)
Definition deletable_folder (folder : string) : Prop :=
  is_ignored_folder folder = false ∧ is_protected_folder folder = false.

Definition protected_record (record : deletable) : Prop :=
  is_Some (head (d_protected_locations record))
  ∧ Forall (λ folder, is_ignored_folder folder = false
                      ∧ is_protected_folder folder = true)
      (d_protected_locations record).

(** What the records of the folders have in common. *)
Definition good_item (item : string * list deletable) : Prop :=
  deletable_folder item.1 ∧ item.2 ≠ [] ∧ Forall protected_record item.2.

(** What every state of the analysis satisfies. *)
Definition analysis_ok (st : analysis) : Prop :=
  total_deletable_duplicates st = num_deletable (deletable_by_folder st)
  ∧ (total_files_in_protected st ≤ total_deletable_duplicates st)%nat
  ∧ Forall good_item (deletable_by_folder st)
  ∧ NoDup (deletable_by_folder st).*1.

(** An event that only shows something. *)
Definition shown (e : event) : Prop :=
  match e with
  | Printed _ | ShowMessage _ _ _ | StatusBar _ => True
  | _ => False
  end.

(** The codes of a classification list, entries without one left out. *)
Definition codes (tok : list tok_entry) : list string := omap e_prefix tok.

(** Between two worlds only something was shown: the file system and
    the setting are as before, and the events added all show
    something. *)
Definition only_shown (w w' : world) : Prop :=
  fs w' = fs w ∧ same_setting w w'
  ∧ ∃ ev, events w' = (events w ++ ev)%list ∧ Forall shown ev.

(** The time of last change of a regular file, as the listing reads
    it. *)
Definition mtime_of (w : world) (path : string) : Z :=
  match fs w !! path with
  | Some (RegularFile _ mtime) => mtime
  | _ => 0
  end.

(** A name that [get_bare_pdfs] lists: a PDF file of the folder without
    a prefix. *)
Definition bare_pdf (w : world) (dir f : string) : Prop :=
  Py.endswith ".pdf" (Py.lower f) = true
  ∧ is_file w (os_path_join dir f) = true
  ∧ is_bare f = true.

#[export] Instance bare_pdf_dec w dir f : Decision (bare_pdf w dir f).
Proof. unfold bare_pdf. apply _. Defined.

(** A directory without the directories named RAG, at any depth. *)
Fixpoint without_rag (d : dir_tree) : dir_tree :=
  match d with
  | Dir files subdirs =>
      Dir files
        ((fix go (l : list (string * dir_tree)) :=
            match l with
            | [] => []
            | (name, sub) :: l' =>
                if bool_decide (name = "RAG") then go l'
                else (name, without_rag sub) :: go l'
            end) subdirs)
  end.

(** Whether [save_pdf_scan_json] can make its backup in [w]: the
    document can be reached, the folder of the backups is there or can
    be made, the copy does not run into a directory and is not
    refused. *)
Definition backup_possible (w : world) (dropbox_path : string) : bool :=
  let output_path := scan_json_path dropbox_path in
  let backup_folder :=
    backup_folder_of (os_path_join dropbox_path "pdfmanager") in
  let backup_path :=
    os_path_join backup_folder (backup_filename_at (now w)) in
  negb (unreachable w output_path)
  && match fs w !! backup_folder with
     | Some Directory => true
     | Some (RegularFile _ _) => false
     | None => negb (refused w (SysMkdir backup_folder))
     end
  && match fs w !! copy_target w output_path backup_path with
     | Some Directory => false
     | _ => true
     end
  && negb (refused w (SysCopy output_path backup_path)).









(** ** Sample data *)

Definition t1 : datetime := DateTime 2024 1 2 3 4 5.
Definition t2 : datetime := DateTime 2024 6 7 8 9 10.

(** The folder of the end-to-end example: two subfolders, one file
    each, both of size 100. *)
Definition two_folders : dir_tree :=
  Dir []
    [("folder1",
      Dir [("A B report.pdf", FileNode (Some (FileStat 100 t1 t1)) "")] []);
     ("folder2",
      Dir [("report.pdf", FileNode (Some (FileStat 100 t2 t2)) "")] [])].


(** Sample texts of exceptions, in the words of CPython; the error of
    the JSON parser is the one for the document ["["]. *)
Definition sample_text (exn : string) : string :=
  if bool_decide (exn = "JSONDecodeError")
  then "Expecting value: line 1 column 2 (char 1)"
  else if bool_decide (exn = "PermissionError")
  then "[Errno 13] Permission denied"
  else if bool_decide (exn = "IsADirectoryError")
  then "[Errno 21] Is a directory"
  else exn.

(** A world with nothing in it but the given files, in which the
    operating system refuses what [refuse] says. *)
Definition world_of (files : gmap string node) (refuse : syscall → bool)
    : world :=
  World files (DateTime 2025 3 4 5 6 7) 1741064767 refuse (λ _, None)
    sample_text [] "/home/u/Dropbox/inbox" ∅ ∅ [] ∅.


(** A catalog document from an earlier scan. *)
Definition world_with_catalog : world :=
  world_of {[ scan_json_path "/home/u/Dropbox" := RegularFile "[]" 0;
              "/home/u/Dropbox/pdfmanager" := Directory ]}
    (λ _, false).

(** A stand-in for [json.dump]: only the number of groups is written. *)
Definition count_dumps (json_data : list size_obj) : string :=
  "[" ++ Py.str_of_nat (length json_data) ++ "]".


(** A working folder in which the name with the prefix is taken. *)
Definition world_with_conflict : world :=
  World
    {[ "/home/u/Dropbox/inbox" := Directory;
       "/home/u/Dropbox/inbox/a.pdf" := RegularFile "%PDF-1.4 a" 10;
       "/home/u/Dropbox/inbox/0 1 a.pdf" := RegularFile "%PDF-1.4 b" 5 ]}
    (DateTime 2025 3 4 5 6 7) 1741064767 (λ _, false) (λ _, None)
    sample_text [] "/home/u/Dropbox/inbox" {[ 1%nat := "a.pdf" ]}
    {[ 0%nat := "/home/u/Dropbox/inbox/a.pdf" ]} ["a.pdf"] ∅.

(** One folder with two files of the same size and the same base name,
    one with a prefix and one without, last changed at different times. *)
Definition same_folder_twice : dir_tree :=
  Dir []
    [("papers",
      Dir [("A B report.pdf", FileNode (Some (FileStat 100 t1 t1)) "");
           ("report.pdf", FileNode (Some (FileStat 100 t2 t2)) "")] [])].

(** A catalog document of the old format: the entry has no ["ToK"]. *)
Definition old_format_catalog : list size_obj :=
  [SizeObj 100
     [FileEntry "report.pdf" None
        [LocationObj "/home/u/Dropbox/folder1"
           "2024-01-02 03:04:05" "2024-01-02 03:04:05";
         LocationObj "/home/u/Dropbox/folder2"
           "2024-06-07 08:09:10" "2024-06-07 08:09:10"]]].

(** A stand-in for [json.load] that reads what [count_dumps] wrote for
    one document. *)
Definition loads_of (json_data : list size_obj) (text : string)
    : option (list size_obj) :=
  if bool_decide (text = count_dumps json_data) then Some json_data else None.

(** A stand-in for [json.dump] on the classification document: the
    codes and labels in turn. *)
Definition tok_dumps (document : option (list tok_entry)) : string :=
  match document with
  | None => "{}"
  | Some tok =>
      "{ToK:"
      ++ Py.join ";" ((λ e, prefix_key e ++ "=" ++ default "" (e_string e))
                        <$> tok)
      ++ "}"
  end.

(** A stand-in for [json.load] that reads what [tok_dumps] wrote for
    one document. *)
Definition tok_loads_of (document : option (list tok_entry)) (text : string)
    : option (option (list tok_entry)) :=
  if bool_decide (text = tok_dumps document) then Some document else None.

(** A window whose classification document has two entries, on disk and
    in memory. *)
Definition two_codes : list tok_entry :=
  [TokEntry (Some "0") (Some "Root"); TokEntry (Some "01") (Some "Branch")].

Definition window_with_document : Window.window :=
  Window.Window
    (world_of {[ Window.json_file "/home/u/Dropbox"
                 := RegularFile (tok_dumps (Some two_codes)) 0;
                 "/home/u/Dropbox/pdfmanager" := Directory ]}
       (λ _, false))
    (Some two_codes) [] ∅.

(** A root folder with one file whose prefix is followed by two
    spaces, and a world that has this file. *)
Definition two_spaces_in_root : dir_tree :=
  Dir [("A B  x.pdf", FileNode (Some (FileStat 42 t1 t1)) "")] [].

Definition world_with_two_spaces : world :=
  world_of {[ "/home/u/Dropbox" := Directory;
              "/home/u/Dropbox/A B  x.pdf" := RegularFile "%PDF-1.4" 10 ]}
    (λ _, false).



(** A window whose classification list has the code 0 twice. *)
Definition code_twice : list tok_entry :=
  [TokEntry (Some "0") (Some "X"); TokEntry (Some "0") (Some "Y")].

Definition window_with_code_twice : Window.window :=
  Window.Window
    (world_of {[ Window.json_file "/home/u/Dropbox"
                 := RegularFile (tok_dumps (Some code_twice)) 0;
                 "/home/u/Dropbox/pdfmanager" := Directory ]}
       (λ _, false))
    (Some code_twice) [] ∅.

(** * Part II: properties *)

(** ** Facts about Python strings *)

Example format_thousands_ex :
  Py.format_thousands 1234567 = "1,234,567" ∧ Py.format_thousands 100 = "100"
  ∧ Py.format_thousands (-1000) = "-1,000" ∧ Py.format_thousands 0 = "0".
Proof. repeat split; reflexivity. Qed.

Example endswith_ex :
  Py.endswith ".pdf" (Py.lower "A B Report.PDF") = true
  ∧ Py.endswith ".pdf" "pdf" = false.
Proof. split; reflexivity. Qed.

(** Induction two characters at a time, the way the pattern reads. *)
Lemma string_pair_ind (P : string → Prop) :
  P EmptyString →
  (∀ c, P (String c EmptyString)) →
  (∀ c d s, P s → P (String c (String d s))) →
  ∀ s, P s.
Proof.
  intros H0 H1 H2.
  assert (Hboth : ∀ s, P s ∧ ∀ c, P (String c s)).
  { induction s as [|d s [IH1 IH2]]; split; auto. }
  intros s. apply Hboth.
Qed.

Lemma alnum_not_space c : Py.alnum c = true → Py.isspace c = false.
Proof.
  destruct c as [[] [] [] [] [] [] [] []]; vm_compute; congruence.
Qed.

Lemma alnum_not_blank c : Py.alnum c = true → Ascii.eqb c " " = false.
Proof.
  destruct c as [[] [] [] [] [] [] [] []]; vm_compute; congruence.
Qed.

Lemma str_app_cons c (a b : string) : String c a ++ b = String c (a ++ b).
Proof. reflexivity. Qed.

Lemma str_app_nil_l (b : string) : "" ++ b = b.
Proof. reflexivity. Qed.

Lemma str_app_assoc (a b c : string) : (a ++ b) ++ c = a ++ (b ++ c).
Proof.
  induction a as [|x a IH]; [done|]. by rewrite !str_app_cons, IH.
Qed.

Lemma str_app_nil_r (a : string) : a ++ "" = a.
Proof. induction a as [|x a IH]; [done|]. by rewrite str_app_cons, IH. Qed.

Lemma str_length_app (a b : string) :
  String.length (a ++ b) = (String.length a + String.length b)%nat.
Proof.
  induction a as [|x a IH]; [done|]. rewrite str_app_cons. simpl. by rewrite IH.
Qed.

Lemma rstrip_one_space (s : string) c :
  Py.isspace c = false →
  Py.rstrip (s ++ String c " ") = s ++ String c EmptyString.
Proof.
  intros Hc. induction s as [|x s IH].
  - rewrite !str_app_nil_l. simpl. by rewrite Hc.
  - rewrite !str_app_cons. simpl. rewrite IH.
    destruct s; [rewrite str_app_nil_l | rewrite str_app_cons]; done.
Qed.

(** ** PrefixCodec *)

Example matches_pattern_ex1 : matches_pattern "A B report.pdf" = Some "A B".
Proof. reflexivity. Qed.

Example matches_pattern_ex2 : matches_pattern "A report.pdf" = None.
Proof. reflexivity. Qed.

Example formatted_code_ex : formatted_code "012" = "0 1 2 ".
Proof. reflexivity. Qed.

Lemma join_chars_cons x y c :
  Py.join_chars " " (String x (String y c))
  = String x (String " " (Py.join_chars " " (String y c))).
Proof. reflexivity. Qed.

Lemma formatted_code_spaced c : c ≠ "" → formatted_code c = spaced c.
Proof.
  unfold formatted_code. destruct c as [|x c]; [done|]. intros _.
  revert x. induction c as [|y c IH]; intros x; [done|].
  rewrite join_chars_cons, !str_app_cons, IH. done.
Qed.

Lemma pairs_run_spaced s : pairs_run s = spaced (compact (pairs_run s)).
Proof.
  induction s as [| |c d s IH] using string_pair_ind; [done..|].
  simpl. destruct (Py.alnum c && Ascii.eqb d " ") eqn:E; [|done].
  apply andb_prop in E as [Hc Hd]. apply Ascii.eqb_eq in Hd as ->.
  simpl. rewrite (alnum_not_blank c Hc). simpl. by rewrite <- IH.
Qed.

Lemma pairs_run_alnum s : all_alnum (compact (pairs_run s)) = true.
Proof.
  induction s as [| |c d s IH] using string_pair_ind; [done..|].
  simpl. destruct (Py.alnum c && Ascii.eqb d " ") eqn:E; [|done].
  apply andb_prop in E as [Hc Hd]. apply Ascii.eqb_eq in Hd as ->.
  simpl. rewrite (alnum_not_blank c Hc). simpl. by rewrite Hc, IH.
Qed.

Lemma length_spaced c : String.length (spaced c) = (2 * String.length c)%nat.
Proof. induction c as [|x c IH]; simpl; [done | rewrite IH; lia]. Qed.

Lemma pairs_run_spaced_app c b :
  all_alnum c = true → pairs_run (spaced c ++ b) = spaced c ++ pairs_run b.
Proof.
  induction c as [|x c IH]; [done|]. simpl. intros [Hx Hc]%andb_prop.
  rewrite !str_app_cons. simpl. rewrite Hx. simpl. by rewrite IH.
Qed.

Lemma strip_spaced c :
  all_alnum c = true → c ≠ "" → Py.strip (spaced c) = Py.join_chars " " c.
Proof.
  intros Hc Hne. unfold Py.strip.
  destruct c as [|x c]; [done|]. simpl in Hc. apply andb_prop in Hc as [Hx Hc].
  assert (Py.lstrip (spaced (String x c)) = spaced (String x c)) as ->.
  { simpl. by rewrite (alnum_not_space x Hx). }
  clear Hne. revert x Hx. induction c as [|y c IH]; intros x Hx.
  - simpl. by rewrite (alnum_not_space x Hx).
  - simpl in Hc. apply andb_prop in Hc as [Hy Hc].
    rewrite join_chars_cons. specialize (IH Hc y Hy).
    change (spaced (String x (String y c)))
      with (String x (String " " (spaced (String y c)))).
    remember (spaced (String y c)) as t. remember (Py.join_chars " " (String y c)) as j.
    assert (j ≠ "") by (subst j; destruct c; done).
    simpl. rewrite IH. destruct j; done.
Qed.

Lemma compact_join_chars c :
  all_alnum c = true → compact (Py.join_chars " " c) = c.
Proof.
  destruct c as [|x c]; [done|]. revert x.
  induction c as [|y c IH]; intros x Hc; apply andb_prop in Hc as [Hx Hc].
  - simpl. by rewrite (alnum_not_blank x Hx).
  - rewrite join_chars_cons.
    change (compact (String x (String " " ?t)))
      with (if Ascii.eqb x " " then compact (String " " t)
            else String x (compact t)).
    rewrite (alnum_not_blank x Hx). f_equal. by apply IH.
Qed.

(** What [matches_pattern] returns, in terms of the code of the run. *)
Lemma matches_pattern_Some filename p :
  matches_pattern filename = Some p →
  ∃ c, all_alnum c = true ∧ (2 ≤ String.length c)%nat
       ∧ pairs_run filename = spaced c ∧ p = Py.join_chars " " c.
Proof.
  unfold matches_pattern, re_match_pairs. case_match eqn:E; [|done].
  intros [= <-]. case_match eqn:Hlen; [|done]. simplify_eq.
  exists (compact (pairs_run filename)).
  pose proof (pairs_run_spaced filename) as Hs.
  pose proof (pairs_run_alnum filename) as Ha.
  apply Nat.leb_le in Hlen. rewrite Hs, length_spaced in Hlen.
  split_and!; [done | lia | done |].
  rewrite Hs at 1. apply strip_spaced; [done|].
  intros Heq. rewrite Heq in Hlen. simpl in Hlen. lia.
Qed.

Lemma matches_pattern_spaced c b :
  all_alnum c = true → (2 ≤ String.length c)%nat → pairs_run b = "" →
  matches_pattern (spaced c ++ b) = Some (Py.join_chars " " c).
Proof.
  intros Hc Hlen Hb. unfold matches_pattern, re_match_pairs.
  rewrite pairs_run_spaced_app, Hb, str_app_nil_r, length_spaced by done.
  destruct (4 <=? 2 * String.length c)%nat eqn:E.
  - f_equal. apply strip_spaced; [done|]. intros ->. simpl in Hlen. lia.
  - apply Nat.leb_gt in E. lia.
Qed.

(** The prefix a file name carries keeps its separating spaces, so
    formatting it again doubles them and the result has no prefix. *)
Lemma prefix_round_trip_spaced_code_fails :
  matches_pattern "A B report.pdf" = Some "A B"
  ∧ remainder "A B" "A B report.pdf" = "report.pdf"
  ∧ formatted_code "A B" ++ remainder "A B" "A B report.pdf"
    = "A   B report.pdf"
  ∧ matches_pattern
      (formatted_code "A B" ++ remainder "A B" "A B report.pdf") = None.
Proof. repeat split; reflexivity. Qed.

(** A base name that starts with a pair of its own is read as part of
    the prefix. *)
Example prefix_round_trip_needs_plain_base :
  matches_pattern "A B  c d.pdf" = Some "A B"
  ∧ remainder "A B" "A B  c d.pdf" = "c d.pdf"
  ∧ matches_pattern (formatted_code "AB" ++ "c d.pdf") = Some "A B c".
Proof. repeat split; reflexivity. Qed.

(** C7, amended.  For a file name with a prefix [p] whose base name does
    not itself start with an alphanumeric-and-space pair: the code of [p]
    without its separating spaces, formatted with a space after every
    character and put before the base name, gives a file name whose
    prefix parses back to [p]. *)
Theorem prefix_round_trip filename p :
  matches_pattern filename = Some p →
  pairs_run (remainder p filename) = "" →
  matches_pattern (formatted_code (compact p) ++ remainder p filename)
  = Some p.
Proof.
  intros (c & Hc & Hlen & _ & ->)%matches_pattern_Some Hbase.
  rewrite compact_join_chars by done.
  rewrite formatted_code_spaced by (intros ->; simpl in Hlen; lia).
  by apply matches_pattern_spaced.
Qed.

Lemma prefix_round_trip_witness :
  matches_pattern
    (formatted_code (compact "A B") ++ remainder "A B" "A B report.pdf")
  = Some "A B".
Proof. apply (prefix_round_trip "A B report.pdf" "A B"); reflexivity. Defined.

(** ** The classification list *)

Example add_tok_entry_ex :
  add_tok_entry "01" "Branch"
    [TokEntry (Some "0") (Some "Root"); TokEntry (Some "1") (Some "Other")]
  = [TokEntry (Some "0") (Some "Root"); TokEntry (Some "01") (Some "Branch");
     TokEntry (Some "1") (Some "Other")].
Proof. reflexivity. Qed.

Example load_tok_codes_ex :
  load_tok_codes []
    [TokEntry (Some "012") (Some "Leaf"); TokEntry (Some "0") (Some "Root");
     TokEntry (Some "01") (Some "Branch")]
  = [TreeItem "0" "Root" None; TreeItem "01" "Branch" (Some 0%nat);
     TreeItem "012" "Leaf" (Some 1%nat)].
Proof. reflexivity. Qed.

Section SortingFacts.
Context {A K : Type} (le : relation K) `{!RelDecision le, !Total le}.
Context (key : A → K).

Local Abbreviation R := (λ a b : A, le (key a) (key b)).

Lemma insert_by_HdRel x y l :
  le (key y) (key x) → HdRel R y l → HdRel R y (Py.insert_by le key x l).
Proof.
  intros Hyx Hl. destruct l as [|z l]; simpl; [by constructor|].
  case_decide; constructor; [done|]. by inversion Hl.
Qed.

Lemma insert_by_Sorted x l :
  Sorted R l → Sorted R (Py.insert_by le key x l).
Proof.
  induction 1 as [|y l Hl IH Hhd]; simpl; [by repeat constructor|].
  case_decide as Hxy.
  - constructor; [by constructor | by constructor].
  - constructor; [done|]. apply insert_by_HdRel; [|done].
    by destruct (total le (key x) (key y)).
Qed.

Lemma sorted_Sorted l : Sorted R (Py.sorted le key l).
Proof.
  induction l as [|x l IH]; simpl; [constructor|]. by apply insert_by_Sorted.
Qed.

Lemma insert_by_Permutation x l : Py.insert_by le key x l ≡ₚ x :: l.
Proof.
  induction l as [|y l IH]; simpl; [done|]. case_decide; [done|].
  rewrite IH. apply Permutation_swap.
Qed.

Lemma sorted_Permutation l : Py.sorted le key l ≡ₚ l.
Proof.
  induction l as [|x l IH]; simpl; [done|].
  by rewrite insert_by_Permutation, IH.
Qed.

Lemma sorted_length l : length (Py.sorted le key l) = length l.
Proof. by rewrite sorted_Permutation. Qed.

End SortingFacts.

Lemma list_remove_Forall `{EqDecision A} (P : A → Prop) x l :
  Forall P l → Forall P (list_remove x l).
Proof.
  induction 1 as [|y l Hy Hl IH]; simpl; [constructor|].
  case_decide; [done|]. by constructor.
Qed.

Lemma list_remove_StronglySorted `{EqDecision A} (R : relation A) x l :
  StronglySorted R l → StronglySorted R (list_remove x l).
Proof.
  induction 1 as [|y l Hl IH Hy]; simpl; [constructor|].
  case_decide; [done|]. constructor; [done|]. by apply list_remove_Forall.
Qed.

(** X1.  Adding an entry leaves the list sorted, whatever it was
    before. *)
Lemma add_tok_entry_sorted code label tok :
  tok_sorted (add_tok_entry code label tok).
Proof. apply sorted_Sorted. apply _. Qed.

(** X2.  Deleting an entry keeps a sorted list sorted. *)
Lemma delete_tok_entry_sorted code tok :
  tok_sorted tok → tok_sorted (delete_tok_entry code tok).2.
Proof.
  unfold delete_tok_entry, tok_sorted. intros Hs.
  destruct (find _ tok) as [item|]; simpl; [|done].
  apply StronglySorted_Sorted, list_remove_StronglySorted.
  apply Sorted_StronglySorted; [|done].
  intros a b c ??. by etrans.
Qed.

Lemma delete_tok_entry_witness :
  tok_sorted
    (delete_tok_entry "0"
       [TokEntry (Some "0") (Some "Root"); TokEntry (Some "1") (Some "Other")]).2.
Proof.
  apply delete_tok_entry_sorted. unfold tok_sorted.
  repeat constructor.
Defined.

(** C3: the update path changes the prefix where the entry stands and
    does not sort again: renaming code "0" to "2" in the sorted list
    "0", "1" leaves the list "2", "1". *)
Theorem update_tok_entry_unsorted :
  let tok := [TokEntry (Some "0") (Some "Root");
              TokEntry (Some "1") (Some "Other")] in
  tok_sorted tok
  ∧ update_tok_entry "0" "2" "Root" tok
    = (true, [TokEntry (Some "2") (Some "Root");
              TokEntry (Some "1") (Some "Other")])
  ∧ ¬ tok_sorted (update_tok_entry "0" "2" "Root" tok).2.
Proof.
  split_and!.
  - repeat constructor.
  - reflexivity.
  - simpl. intros Hs. inversion Hs as [|?? _ Hhd]; subst.
    inversion Hhd as [|?? Hle]; subst. vm_compute in Hle. exact Hle.
Qed.

(** ** ToKHierarchy *)

Lemma place_items_snoc s e :
  place_items (s ++ [e]) = place_item (place_items s) e.
Proof. unfold place_items. by rewrite foldl_snoc. Qed.

Lemma place_items_length s : length (place_items s).1 = length s.
Proof.
  induction s as [|e s IH] using rev_ind; [done|].
  rewrite place_items_snoc. destruct (place_items s) as [tree m].
  simpl in *. rewrite !length_app, IH. done.
Qed.

(** [code_to_item] holds, for every code placed so far, the last item
    placed with that code. *)
Lemma code_to_item_last s c j :
  (place_items s).2 !! c = Some j
  ↔ (prefix_key <$> s) !! j = Some c
    ∧ ∀ k, (j < k)%nat → (prefix_key <$> s) !! k ≠ Some c.
Proof.
  revert j. induction s as [|e s IH] using rev_ind; intros j.
  - simpl. rewrite lookup_empty. split; [done | by intros [? _]].
  - rewrite place_items_snoc. pose proof (place_items_length s) as Hlen.
    destruct (place_items s) as [tree m]. simpl in *.
    rewrite fmap_app. simpl. fold (prefix_key e).
    assert (Hl : length (prefix_key <$> s) = length s) by apply length_fmap.
    destruct (decide (prefix_key e = c)) as [->|Hne].
    + rewrite lookup_insert_eq, Hlen. split.
      * intros [= <-]. split.
        -- rewrite lookup_app_r by lia. by rewrite Hl, Nat.sub_diag.
        -- intros k Hk. rewrite lookup_ge_None_2; [done|].
           rewrite length_app. simpl. lia.
      * intros [Hj Hlast]. f_equal.
        apply lookup_lt_Some in Hj. rewrite length_app in Hj. simpl in Hj.
        destruct (decide (j = length s)) as [|Hjs]; [done|].
        exfalso. apply (Hlast (length s)); [lia|].
        rewrite lookup_app_r by lia. by rewrite Hl, Nat.sub_diag.
    + rewrite lookup_insert_ne by done. rewrite IH. split.
      * intros [Hj Hlast]. split.
        -- by apply lookup_app_l_Some.
        -- intros k Hk. destruct (decide (k < length s)%nat).
           ++ rewrite lookup_app_l by lia. by apply Hlast.
           ++ rewrite lookup_app_r by lia. rewrite Hl.
              destruct (k - length s)%nat as [|k']; [by intros [= ?] | done].
      * intros [Hj Hlast].
        assert (j < length s)%nat as Hjs.
        { apply lookup_lt_Some in Hj as Hj'.
          rewrite length_app in Hj'. simpl in Hj'.
          destruct (decide (j = length s)) as [->|]; [|lia].
          rewrite lookup_app_r in Hj by lia.
          rewrite Hl, Nat.sub_diag in Hj. simpl in Hj. congruence. }
        rewrite lookup_app_l in Hj by lia. split; [done|].
        intros k Hk Hkc. apply (Hlast k Hk).
        by apply lookup_app_l_Some.
Qed.

(** The item made for the [i]-th entry of the sorted list: its parent was
    read from [code_to_item] as the entries before it left it. *)
Lemma place_items_lookup s i e :
  s !! i = Some e →
  (place_items s).1 !! i
  = Some (TreeItem (prefix_key e) (default "" (e_string e))
            (if (1 <? String.length (prefix_key e))%nat
             then (place_items (take i s)).2 !! Py.init (prefix_key e)
             else None)).
Proof.
  revert i. induction s as [|x s IH] using rev_ind; intros i Hi; [done|].
  rewrite place_items_snoc. pose proof (place_items_length s) as Hlen.
  destruct (decide (i < length s)%nat) as [Hlt|Hge].
  - rewrite lookup_app_l in Hi by done.
    rewrite take_app_le by lia. rewrite <- (IH i Hi).
    destruct (place_items s) as [tree m]. simpl in *.
    rewrite lookup_app_l by lia. done.
  - apply lookup_lt_Some in Hi as Hi'. rewrite length_app in Hi'. simpl in Hi'.
    assert (i = length s) as -> by lia.
    rewrite lookup_app_r, Nat.sub_diag in Hi by lia. simplify_eq/=.
    rewrite take_app_length.
    destruct (place_items s) as [tree m]. simpl in *.
    rewrite lookup_app_r by lia. by rewrite Hlen, Nat.sub_diag.
Qed.

(** C8.  The entries are placed in ascending order of code.  The item of
    an entry is a child of item [j] exactly when the code has more than
    one character and [j] is the item that [code_to_item] holds for the
    code without its last character: the last one placed before with
    that code.  Every other item is a top-level item.  The entries "0",
    "01", "012" give the chain 0 → 01 → 012, and "01" alone is a root. *)
Theorem load_tok_codes_parents :
  (∀ (tok_items : list tok_entry) (tok_tree : list tree_item) i e,
     let s := Py.sorted String.le prefix_key tok_items in
     let codes := prefix_key <$> s in
     s !! i = Some e →
     tok_sorted s ∧ s ≡ₚ tok_items
     ∧ ∃ parent,
         load_tok_codes tok_tree tok_items !! i
         = Some (TreeItem (prefix_key e) (default "" (e_string e)) parent)
         ∧ ∀ j, parent = Some j
                ↔ (1 < String.length (prefix_key e))%nat
                  ∧ (j < i)%nat
                  ∧ codes !! j = Some (Py.init (prefix_key e))
                  ∧ ∀ k, (j < k < i)%nat →
                         codes !! k ≠ Some (Py.init (prefix_key e)))
  ∧ load_tok_codes []
      [TokEntry (Some "0") (Some "Root"); TokEntry (Some "01") (Some "Branch");
       TokEntry (Some "012") (Some "Leaf")]
    = [TreeItem "0" "Root" None; TreeItem "01" "Branch" (Some 0%nat);
       TreeItem "012" "Leaf" (Some 1%nat)]
  ∧ load_tok_codes [] [TokEntry (Some "01") (Some "Orphan")]
    = [TreeItem "01" "Orphan" None].
Proof.
  split; [|split; reflexivity].
  intros tok_items tree0 i e s codes Hi.
  split; [apply sorted_Sorted; apply _|].
  split; [apply sorted_Permutation|].
  assert (load_tok_codes tree0 tok_items = (place_items s).1) as ->.
  { unfold load_tok_codes. destruct tok_items; [done|]. done. }
  eexists. split; [by apply place_items_lookup|].
  intros j. destruct (1 <? String.length (prefix_key e))%nat eqn:Hlen.
  - apply Nat.ltb_lt in Hlen. rewrite code_to_item_last.
    rewrite fmap_take. fold codes.
    assert (Hil : (i < length codes)%nat).
    { unfold codes. rewrite length_fmap. by apply lookup_lt_Some in Hi. }
    split.
    + intros [Hj Hlast].
      apply lookup_take_Some in Hj as [Hj Hji].
      split_and!; [done..|].
      intros k [Hjk Hki] Hk. apply (Hlast k Hjk).
      by rewrite lookup_take_lt.
    + intros (_ & Hji & Hj & Hlast). split.
      * by rewrite lookup_take_lt.
      * intros k Hjk Hk. apply lookup_take_Some in Hk as [Hk Hki].
        by apply (Hlast k).
  - apply Nat.ltb_ge in Hlen. split; [done|]. intros [? _]. lia.
Qed.

Lemma load_tok_codes_parents_witness :
  ∃ parent,
    load_tok_codes []
      [TokEntry (Some "0") (Some "Root"); TokEntry (Some "01") (Some "Branch");
       TokEntry (Some "012") (Some "Leaf")] !! 1%nat
    = Some (TreeItem "01" "Branch" parent)
    ∧ parent = Some 0%nat.
Proof.
  destruct (proj1 load_tok_codes_parents
              [TokEntry (Some "0") (Some "Root");
               TokEntry (Some "01") (Some "Branch");
               TokEntry (Some "012") (Some "Leaf")]
              [] 1%nat (TokEntry (Some "01") (Some "Branch")) eq_refl)
    as (_ & _ & parent & Hitem & Hparent).
  exists parent. split; [exact Hitem|]. apply Hparent.
  split_and!; [simpl; lia | lia | reflexivity | intros k ?; lia].
Defined.

(** ** FilesystemScanner and SizeIndex *)

Example scan_two_folders :
  create_json_output (scan_all_pdfs "/home/u/Dropbox" two_folders) true
  = [SizeObj 100
       [FileEntry "report.pdf" (Some "A B")
          [LocationObj "/home/u/Dropbox/folder1"
             "2024-01-02 03:04:05" "2024-01-02 03:04:05";
           LocationObj "/home/u/Dropbox/folder2"
             "2024-06-07 08:09:10" "2024-06-07 08:09:10"]]].
Proof. vm_compute. reflexivity. Qed.

(** The claim as the design document has it asks for the code "AB"; the
    catalog holds the prefix as it stands in the file name, "A B". *)
Lemma end_to_end_tok_keeps_spaces :
  (fe_ToK <$> (create_json_output
                 (scan_all_pdfs "/home/u/Dropbox" two_folders) true
               ≫= so_files))
  = [Some "A B"]
  ∧ "A B" ≠ "AB".
Proof. split; [vm_compute; reflexivity | discriminate]. Qed.

(** C1, amended.  A file named "A B report.pdf" of size 100 in one folder
    and a file named "report.pdf" of size 100 in another give, with the
    filter for duplicates, one group of size 100 with one entry
    "report.pdf" whose ToK is "A B" and whose locations are the two
    folders, in the order of the walk. *)
Theorem end_to_end_duplicates
    (dropbox_path folder1 folder2 : string) (c1 m1 c2 m2 : datetime) :
  let root :=
    Dir []
      [(folder1,
        Dir [("A B report.pdf", FileNode (Some (FileStat 100 c1 m1)) "")] []);
       (folder2,
        Dir [("report.pdf", FileNode (Some (FileStat 100 c2 m2)) "")] [])] in
  create_json_output (scan_all_pdfs dropbox_path root) true
  = [SizeObj 100
       [FileEntry "report.pdf" (Some "A B")
          [LocationObj (os_path_join dropbox_path folder1)
             (strftime " " ":" c1) (strftime " " ":" m1);
           LocationObj (os_path_join dropbox_path folder2)
             (strftime " " ":" c2) (strftime " " ":" m2)]]].
Proof. intros root. subst root. vm_compute. reflexivity. Qed.

(** ** SnapshotStore *)

Ltac run_io :=
  repeat (progress (unfold mbind, io_bind, mret, io_ret, try_except,
                    try_finally, path_exists, Path_exists, read_text, print,
                    show_message, status_bar, modify, raise, get_world in *;
                    simpl in * )).



(** ** FilesystemScanner: the folder of a record *)

Lemma dir_tree_nested_ind (P : dir_tree → Prop) :
  (∀ files subdirs, Forall (λ sub, P sub.2) subdirs → P (Dir files subdirs)) →
  ∀ d, P d.
Proof.
  intros Hdir. fix IH 1. intros [files subdirs]. apply Hdir.
  induction subdirs as [|[name sub] l IHl]; constructor; [apply IH | apply IHl].
Qed.

















(** ** SnapshotStore: the backup comes first *)

Lemma os_path_join_length a b :
  String.prefix "/" b = false →
  (String.length a + String.length b ≤ String.length (os_path_join a b)
   ≤ String.length a + String.length b + 1)%nat.
Proof.
  intros Hb. unfold os_path_join. rewrite Hb.
  destruct (_ || _); rewrite !str_length_app; simpl; lia.
Qed.

Lemma basename_relative path : String.prefix "/" (basename path) = false.
Proof.
  induction path as [|c s IH]; [done|].
  change (basename (String c s))
    with (if Ascii.eqb c "/" then basename s
          else if existsb (Ascii.eqb "/") (list_ascii_of_string s)
               then basename s else String c s).
  destruct (Ascii.eqb c "/") eqn:Hc; [done|].
  destruct (existsb _ _); [done|].
  change (String.prefix "/" (String c s))
    with (if ascii_dec "/" c then String.prefix "" s else false).
  destruct (ascii_dec "/" c) as [<-|]; [|done].
  by rewrite Ascii.eqb_refl in Hc.
Qed.

(** The backup is never written over the live document: its path is
    longer. *)
Lemma backup_target_ne_output dropbox_path t w :
  let output_path := scan_json_path dropbox_path in
  let backup_path :=
    os_path_join (backup_folder_of (os_path_join dropbox_path "pdfmanager"))
      (backup_filename_at t) in
  copy_target w output_path backup_path ≠ output_path.
Proof.
  intros output_path backup_path Heq.
  assert (Hlen : (String.length output_path < String.length backup_path)%nat).
  { unfold output_path, backup_path, scan_json_path, backup_folder_of.
    set (p := os_path_join dropbox_path "pdfmanager").
    pose proof (os_path_join_length p "pdf-files-by-size.json" eq_refl) as H1.
    pose proof (os_path_join_length p "pdf-files-by-size-old-files" eq_refl) as H2.
    pose proof (os_path_join_length (os_path_join p "pdf-files-by-size-old-files")
                  (backup_filename_at t) eq_refl) as H3.
    assert (18 ≤ String.length (backup_filename_at t))%nat.
    { unfold backup_filename_at. rewrite str_length_app. simpl. lia. }
    simpl in H1, H2. lia. }
  apply (f_equal String.length) in Heq. unfold copy_target in Heq.
  destruct (fs w !! backup_path) as [[|]|]; try lia.
  pose proof (os_path_join_length backup_path (basename output_path)
                (basename_relative _)). lia.
Qed.

Lemma write_text_cases path text w :
  (∃ exn w3, write_text path text w = (Raised exn, w3) ∧ events w3 = events w)
  ∨ (∃ w3,
       write_text path text w = (Ok (), w3)
       ∧ events w3 = (events w ++ [Written path])%list
       ∧ fs w3 = <[path := RegularFile text (clock w)]> (fs w)).
Proof.
  unfold write_text.
  destruct (refused w (SysWrite path)).
  - left. destruct (fs w !! path) as [[|]|]; [|by eauto|];
      destruct (debris w path); eauto.
  - destruct (fs w !! path) as [[|]|]; [right|left|right]; eauto.
Qed.

(** Nor is the folder of the backups the document, or the backup its
    own folder. *)
Lemma backup_paths_longer dropbox_path t w :
  let output_path := scan_json_path dropbox_path in
  let backup_folder :=
    backup_folder_of (os_path_join dropbox_path "pdfmanager") in
  let backup_path := os_path_join backup_folder (backup_filename_at t) in
  backup_folder ≠ output_path
  ∧ backup_path ≠ backup_folder
  ∧ copy_target w output_path backup_path ≠ backup_folder.
Proof.
  intros output_path backup_folder backup_path.
  set (p := os_path_join dropbox_path "pdfmanager").
  pose proof (os_path_join_length p "pdf-files-by-size.json" eq_refl) as H1.
  pose proof (os_path_join_length p "pdf-files-by-size-old-files" eq_refl) as H2.
  pose proof (os_path_join_length backup_folder (backup_filename_at t) eq_refl)
    as H3.
  assert (18 ≤ String.length (backup_filename_at t))%nat.
  { unfold backup_filename_at. rewrite str_length_app. simpl. lia. }
  change (os_path_join p "pdf-files-by-size.json") with output_path in H1.
  change (os_path_join p _) with backup_folder in H2.
  fold backup_path in H3. simpl in H1, H2.
  split_and!; intros Heq; apply (f_equal String.length) in Heq; try lia.
  unfold copy_target in Heq.
  destruct (fs w !! backup_path) as [[|]|]; try lia.
  pose proof (os_path_join_length backup_path (basename output_path)
                (basename_relative _)). lia.
Qed.

(** The copy and the write of [save_pdf_scan_json], from a world [w1]
    that differs from [w] at most in the folder of the backups. *)
Lemma copy_then_write {A} (finish : option string → A)
    dropbox_path new_text w w1 content mtime :
  let output_path := scan_json_path dropbox_path in
  let backup_folder :=
    backup_folder_of (os_path_join dropbox_path "pdfmanager") in
  let backup_path :=
    os_path_join backup_folder (backup_filename_at (now w)) in
  let target := copy_target w output_path backup_path in
  let old := RegularFile content mtime in
  fs w !! output_path = Some old →
  clock w1 = clock w → refused w1 = refused w → debris w1 = debris w →
  (∀ p, p ≠ backup_folder → fs w1 !! p = fs w !! p) →
  ∃ r w' ev,
    (backup ← (shutil_copy2 output_path backup_path;; mret (Some backup_path));
     write_text output_path new_text;; mret (finish backup)) w1 = (r, w')
    ∧ events w' = (events w1 ++ ev)%list
    ∧ if match fs w !! target with Some Directory => false | _ => true end
         && negb (refused w (SysCopy output_path backup_path))
      then
        fs w' !! target = Some old
        ∧ if refused w (SysWrite output_path) then
            ev = [Copied output_path backup_path]
            ∧ (∃ exn, r = Raised exn)
            ∧ fs w' !! output_path
              = Some (match debris w output_path with
                      | Some part => RegularFile part (clock w)
                      | None => old
                      end)
          else
            ev = [Copied output_path backup_path; Written output_path]
            ∧ r = Ok (finish (Some backup_path))
            ∧ fs w' !! output_path = Some (RegularFile new_text (clock w))
      else
        (∃ exn, r = Raised exn) ∧ ev = []
        ∧ fs w' !! output_path = Some old.
Proof.
  intros output_path backup_folder backup_path target old
    Hlive Hclock Href Hdebris Hfs.
  pose proof (backup_target_ne_output dropbox_path (now w) w) as Hne.
  destruct (backup_paths_longer dropbox_path (now w) w) as (Hfo & Hbf & Htf).
  fold output_path backup_folder backup_path in Hne, Hfo, Hbf, Htf.
  simpl in Hne. fold target in Hne, Htf.
  assert (Hlive1 : fs w1 !! output_path = Some old)
    by (by rewrite Hfs by (by apply not_eq_sym)).
  assert (Htarget1 : copy_target w1 output_path backup_path = target).
  { unfold target, copy_target. by rewrite Hfs. }
  unfold mbind, io_bind, mret, io_ret, shutil_copy2.
  rewrite Hlive1. unfold old at 1. rewrite Htarget1, Hfs, Href, Hdebris by done.
  rewrite bool_decide_eq_false_2 by done.
  assert (Hraise : ∀ exn,
            ∃ (r : result A) w' ev,
              (Raised exn, w1) = (r, w')
              ∧ events w' = (events w1 ++ ev)%list
              ∧ (∃ exn, r = Raised exn) ∧ ev = []
                ∧ fs w' !! output_path = Some old).
  { intros exn. exists (Raised exn), w1, []. rewrite (right_id_L [] app).
    split_and!; [done..|by eexists|done|done]. }
  destruct (fs w !! target) as [[|]|] eqn:Ht; simpl.
  2: { apply Hraise. }
  all: destruct (refused w (SysCopy output_path backup_path)) eqn:Hcopy; simpl.
  1, 3: destruct (debris w target) as [part|];
    [eexists (Raised _), _, []; rewrite (right_id_L [] app);
     split_and!; [done..|by eexists|done|];
     simpl; by rewrite lookup_insert_ne
    |apply Hraise].
  all: unfold write_text; simpl; rewrite lookup_insert_ne, Hlive1 by done;
    unfold old at 1; rewrite Href, Hdebris, Hclock;
    destruct (refused w (SysWrite output_path)) eqn:Hwrite.
  all: try (destruct (debris w output_path) as [part|]).
  all: eexists _, _, _; (split; [reflexivity|]); simpl.
  all: rewrite <- ?(assoc_L app); (split; [reflexivity|]).
  all: rewrite ?lookup_insert_eq, ?(lookup_insert_ne _ output_path target),
         ?lookup_insert_eq by done.
  all: split_and!; try done; try by eexists.
  all: by rewrite lookup_insert_ne.
Qed.

(** C4.  [save_pdf_scan_json] with [backup_old] and a document at the
    path.  Where the backup can be made, it is made: the old content is
    copied to the backup before anything is written, and the document is
    written after the copy and only then (a write that is refused raises
    with the backup in place).  Where it cannot be made, the call raises,
    nothing was copied or written, and the live document is as it was. *)
Theorem save_backup_before_write
    (json_dumps : list size_obj → string) (dropbox_path : string)
    (pdf_dict : gmap Z (list file_info)) (only_duplicates : bool)
    (w : world) (content : string) (mtime : Z) :
  let output_path := scan_json_path dropbox_path in
  let backup_folder :=
    backup_folder_of (os_path_join dropbox_path "pdfmanager") in
  let backup_path :=
    os_path_join backup_folder (backup_filename_at (now w)) in
  let target := copy_target w output_path backup_path in
  let old := RegularFile content mtime in
  let new_text := json_dumps (create_json_output pdf_dict only_duplicates) in
  fs w !! output_path = Some old →
  ∃ r w' new_events,
    save_pdf_scan_json json_dumps dropbox_path pdf_dict only_duplicates true w
    = (r, w')
    ∧ events w' = (events w ++ new_events)%list
    ∧ (target = backup_path
       ∨ target = os_path_join backup_path (basename output_path))
    ∧ target ≠ output_path
    ∧ if backup_possible w dropbox_path then
        ∃ made,
          Forall (λ e, e = Mkdir backup_folder) made
          ∧ fs w' !! target = Some old
          ∧ if refused w (SysWrite output_path) then
              new_events = (made ++ [Copied output_path backup_path])%list
              ∧ (∃ exn, r = Raised exn)
              ∧ fs w' !! output_path
                = Some (match debris w output_path with
                        | Some part => RegularFile part (clock w)
                        | None => old
                        end)
            else
              new_events
              = (made ++ [Copied output_path backup_path;
                          Written output_path])%list
              ∧ (∃ st, r = Ok (output_path, st, Some backup_path))
              ∧ fs w' !! output_path = Some (RegularFile new_text (clock w))
      else
        (∃ exn, r = Raised exn)
        ∧ Forall (λ e, e = Mkdir backup_folder) new_events
        ∧ fs w' !! output_path = Some old.
Proof.
  intros output_path backup_folder backup_path target old new_text Hlive.
  pose proof (backup_target_ne_output dropbox_path (now w) w) as Hne.
  destruct (backup_paths_longer dropbox_path (now w) w) as (Hfo & Hbf & Htf).
  fold output_path backup_folder backup_path in Hne, Hfo, Hbf, Htf.
  simpl in Hne. fold target in Hne, Htf.
  assert (Htarget : target = backup_path
                    ∨ target = os_path_join backup_path (basename output_path)).
  { unfold target, copy_target.
    destruct (fs w !! backup_path) as [[|]|]; auto. }
  unfold backup_possible.
  fold output_path backup_folder backup_path target.
  unfold save_pdf_scan_json. fold output_path backup_folder new_text.
  unfold mbind at 1 2, io_bind at 1 2, Path_exists.
  destruct (unreachable w output_path) eqn:Hreach; simpl.
  { exists (Raised "PermissionError"), w, []. rewrite (right_id_L [] app).
    split_and!; [done..|by eexists|constructor|done]. }
  rewrite Hlive, bool_decide_eq_true_2 by eauto.
  cbv beta iota.
  set (json_data := create_json_output pdf_dict only_duplicates) in *.
  set (finish := λ backup : option string,
         (output_path,
          Stats output_path (length json_data)
            (sum_list ((λ size_group, length (so_files size_group))
                         <$> json_data))
            (sum_list ((λ file_entry, length (fe_locations file_entry))
                         <$> (json_data ≫= so_files)))
            backup,
          backup)).
  assert (Hrest : ∀ w1 made,
            events w1 = (events w ++ made)%list →
            Forall (λ e, e = Mkdir backup_folder) made →
            clock w1 = clock w → refused w1 = refused w →
            debris w1 = debris w →
            (∀ p, p ≠ backup_folder → fs w1 !! p = fs w !! p) →
            ∃ r w' new_events,
              (backup ← (shutil_copy2 output_path backup_path;;
                         mret (Some backup_path));
               write_text output_path new_text;; mret (finish backup)) w1
              = (r, w')
              ∧ events w' = (events w ++ new_events)%list
              ∧ (target = backup_path
                 ∨ target = os_path_join backup_path (basename output_path))
              ∧ target ≠ output_path
              ∧ if match fs w !! target with
                   | Some Directory => false
                   | _ => true
                   end
                   && negb (refused w (SysCopy output_path backup_path))
                then
                  ∃ made,
                    Forall (λ e, e = Mkdir backup_folder) made
                    ∧ fs w' !! target = Some old
                    ∧ if refused w (SysWrite output_path) then
                        new_events
                        = (made ++ [Copied output_path backup_path])%list
                        ∧ (∃ exn, r = Raised exn)
                        ∧ fs w' !! output_path
                          = Some (match debris w output_path with
                                  | Some part => RegularFile part (clock w)
                                  | None => old
                                  end)
                      else
                        new_events
                        = (made ++ [Copied output_path backup_path;
                                    Written output_path])%list
                        ∧ (∃ st, r = Ok (output_path, st, Some backup_path))
                        ∧ fs w' !! output_path
                          = Some (RegularFile new_text (clock w))
                else
                  (∃ exn, r = Raised exn)
                  ∧ Forall (λ e, e = Mkdir backup_folder) new_events
                  ∧ fs w' !! output_path = Some old).
  { intros w1 made Hev Hmade Hclock Href Hdebris Hfs.
    destruct (copy_then_write finish dropbox_path new_text w w1 content mtime
                Hlive Hclock Href Hdebris Hfs)
      as (r & w' & ev & Hrun & Hev' & Hcases).
    fold output_path backup_folder backup_path target old in Hrun, Hcases.
    exists r, w', (made ++ ev)%list.
    split; [exact Hrun|]. split; [by rewrite Hev', Hev, (assoc_L app)|].
    split; [done|]. split; [done|].
    destruct (_ && _).
    - destruct Hcases as (Hbackup & Hcases). exists made.
      split; [done|]. split; [done|].
      destruct (refused w (SysWrite output_path)).
      + by destruct Hcases as (-> & ? & ?).
      + destruct Hcases as (-> & -> & ?). split_and!; [done|by eexists|done].
    - destruct Hcases as (? & -> & ?). by rewrite (right_id_L [] app). }
  unfold mbind at 1, io_bind at 1, get_world. cbv beta iota.
  fold backup_path.
  unfold mbind at 1, io_bind at 1, mkdir_exist_ok.
  destruct (fs w !! backup_folder) as [[|]|] eqn:Hfolder.
  - exists (Raised "FileExistsError"), w, []. rewrite (right_id_L [] app).
    cbn [andb]. split_and!; [done..|by eexists|constructor|done].
  - apply (Hrest w []); [by rewrite (right_id_L [] app)|constructor|done..].
  - destruct (refused w (SysMkdir backup_folder)) eqn:Hmk.
    + exists (Raised "OSError"), w, []. rewrite (right_id_L [] app).
      cbn [andb negb]. split_and!; [done..|by eexists|constructor|done].
    + apply (Hrest _ [Mkdir backup_folder]); [done|by repeat constructor|done..|].
      intros p Hp. simpl. by rewrite lookup_insert_ne.
Qed.

Lemma save_backup_before_write_witness :
  fs world_with_catalog !! scan_json_path "/home/u/Dropbox"
  = Some (RegularFile "[]" 0)
  ∧ backup_possible world_with_catalog "/home/u/Dropbox" = true
  ∧ ∃ r w' new_events,
      save_pdf_scan_json count_dumps "/home/u/Dropbox" ∅ true true
        world_with_catalog = (r, w')
      ∧ events w' = (events world_with_catalog ++ new_events)%list.
Proof.
  split; [reflexivity|]. split; [vm_compute; reflexivity|].
  destruct (save_backup_before_write count_dumps "/home/u/Dropbox" ∅ true
              world_with_catalog "[]" 0 eq_refl)
    as (r & w' & new_events & Hrun & Hev & _).
  by exists r, w', new_events.
Defined.

Example save_with_backup_run :
  let run := save_pdf_scan_json count_dumps "/home/u/Dropbox" ∅ true true
               world_with_catalog in
  let backup :=
    "/home/u/Dropbox/pdfmanager/pdf-files-by-size-old-files/pdf-files-by-size_2025-03-04_05-06-07.json" in
  events run.2
  = [Mkdir "/home/u/Dropbox/pdfmanager/pdf-files-by-size-old-files";
     Copied "/home/u/Dropbox/pdfmanager/pdf-files-by-size.json" backup;
     Written "/home/u/Dropbox/pdfmanager/pdf-files-by-size.json"]
  ∧ fs run.2 !! backup = Some (RegularFile "[]" 0)
  ∧ fs run.2 !! "/home/u/Dropbox/pdfmanager/pdf-files-by-size.json"
    = Some (RegularFile "[0]" 1741064767)
  ∧ run.1
    = Ok ("/home/u/Dropbox/pdfmanager/pdf-files-by-size.json",
          Stats "/home/u/Dropbox/pdfmanager/pdf-files-by-size.json" 0 0 0
            (Some backup),
          Some backup).
Proof. vm_compute. done. Qed.

(** ** SafeRenamer *)

Lemma fs_kept_refl w : fs_kept w w.
Proof. split; [done|]. exists []. by rewrite (right_id_L [] app). Qed.

Lemma fs_kept_trans w1 w2 w3 : fs_kept w1 w2 → fs_kept w2 w3 → fs_kept w1 w3.
Proof.
  intros [Hfs1 [ev1 Hev1]] [Hfs2 [ev2 Hev2]]. split; [congruence|].
  exists (ev1 ++ ev2)%list. by rewrite Hev2, Hev1, (assoc_L app).
Qed.

Lemma fs_kept_emit e w : fs_kept w (emit e w).
Proof. split; [done|]. by exists [e]. Qed.

Lemma with_mtime_world dir l w : (with_mtime dir l w).2 = w.
Proof.
  revert w. induction l as [|f l IH]; intros w; [done|].
  change (with_mtime dir (f :: l))
    with (y ← (mtime ← os_path_getmtime (os_path_join dir f);
               mret (M := io) (f, mtime));
          k ← with_mtime dir l; mret (M := io) (y :: k)).
  unfold mbind, io_bind, mret, io_ret, os_path_getmtime.
  destruct (fs w !! os_path_join dir f) as [[c m|]|]; [|done..].
  specialize (IH w).
  destruct (with_mtime dir l w) as [[k|exn] w']; simpl in *; by subst.
Qed.

Lemma get_bare_pdfs_kept dir w : fs_kept w (get_bare_pdfs dir w).2.
Proof.
  unfold get_bare_pdfs, os_listdir, mbind, io_bind, mret, io_ret, get_world.
  destruct (fs w !! dir) as [[|]|]; [apply fs_kept_refl| |apply fs_kept_refl].
  destruct (refused w (SysListdir dir)); [apply fs_kept_refl|].
  destruct (filter _ (filter _ _)) as [|f l]; [apply fs_kept_refl|].
  pose proof (with_mtime_world dir (f :: l) w) as Hw.
  destruct (with_mtime dir (f :: l) w) as [[k|exn] w']; simpl in Hw; subst w';
    [|apply fs_kept_refl].
  unfold modify. simpl. split; [done|]. exists []. by rewrite (right_id_L [] app).
Qed.

Lemma show_bare_pdfs_kept w :
  (show_bare_pdfs w).1 = Ok () ∧ fs_kept w (show_bare_pdfs w).2.
Proof.
  unfold show_bare_pdfs, try_except, mbind, io_bind, mret, io_ret, get_world.
  pose proof (get_bare_pdfs_kept (current_dir w) w) as Hk.
  destruct (get_bare_pdfs (current_dir w) w) as [[items|exn] w1]; simpl in Hk.
  - destruct items as [|item items]; unfold show_message, status_bar, modify;
      simpl; (split; [done|]); (eapply fs_kept_trans; [exact Hk|]);
      split; simpl; eauto.
  - unfold show_message, modify. simpl. split; [done|].
    eapply fs_kept_trans; [exact Hk|]. apply fs_kept_emit.
Qed.

(** A rename of something that is there to a name that is free. *)
Lemma os_rename_free old new w n :
  fs w !! old = Some n → fs w !! new = None →
  os_rename old new w
  = if refused w (SysRename old new) then (Raised "OSError", w)
    else (Ok (),
          emit (Renamed old new) (set_fs (λ f, <[new := n]> (delete old f)) w)).
Proof. intros Hold Hnew. unfold os_rename. rewrite Hold, Hnew. by destruct n. Qed.

(** What [add_tok_prefix_to_file] does once the selection is read: the
    two checks come before the one call that changes the file system. *)
Lemma add_tok_prefix_to_file_run tok_text file_row w cell actual_old_filename :
  (file_row <? 0) = false →
  Py.strip tok_text ≠ "" →
  files_table w !! Z.to_nat file_row = Some cell →
  bare_pdf_files w !! Z.to_nat (file_row + 1) = Some actual_old_filename →
  let tok_code := Py.strip tok_text in
  let new_filename := formatted_code tok_code ++ actual_old_filename in
  let old_path := os_path_join (current_dir w) actual_old_filename in
  let new_path := os_path_join (current_dir w) new_filename in
  add_tok_prefix_to_file true (Some tok_text) file_row w
  = match fs w !! old_path with
    | None =>
        (Ok (),
         emit (ShowMessage "Error"
                 ("File '" ++ actual_old_filename ++ "' not found on disk.")
                 "Critical") w)
    | Some n =>
        match fs w !! new_path with
        | Some _ =>
            (Ok (),
             emit (ShowMessage "Error"
                     ("A file named '" ++ new_filename ++ "' already exists.")
                     "Warning") w)
        | None =>
            if refused w (SysRename old_path new_path) then
              (Ok (),
               emit (ShowMessage "Error"
                       ("Error renaming file: " ++ exception_text w "OSError")
                       "Critical") w)
            else
              let w1 :=
                emit (Renamed old_path new_path)
                  (set_fs (λ f, <[new_path := n]> (delete old_path f)) w) in
              (Ok (),
               emit (StatusBar ("Added prefix '" ++ tok_code ++ "' to file: "
                                ++ new_filename))
                 (set_file_paths
                    (<[Z.to_nat file_row := new_path]> (file_paths w))
                    (set_files_table
                       (<[Z.to_nat file_row := new_filename]> (files_table w))
                       (set_bare_pdf_files
                          (<[Z.to_nat (file_row + 1) := new_filename]>
                             (bare_pdf_files w))
                          w1))))
        end
    end.
Proof.
  intros Hrow Htok Hcell Hbare tok_code new_filename old_path new_path.
  unfold add_tok_prefix_to_file. simpl. rewrite Hrow.
  rewrite bool_decide_eq_false_2 by done.
  run_io. rewrite Hcell, Hbare. simpl.
  fold tok_code new_filename old_path new_path.
  destruct (fs w !! old_path) as [n|] eqn:Hold.
  - rewrite bool_decide_eq_true_2 by eauto. simpl.
    destruct (fs w !! new_path) as [n'|] eqn:Hnew.
    + rewrite bool_decide_eq_true_2 by eauto. done.
    + rewrite bool_decide_eq_false_2 by (by intros [? ?]).
      rewrite (os_rename_free old_path new_path _ n) by done.
      destruct (refused w (SysRename old_path new_path)); done.
  - rewrite bool_decide_eq_false_2 by (by intros [? ?]). done.
Qed.

(** What [on_file_item_changed] does for a new name: the same two checks
    before the one rename; after a refusal the table is loaded again,
    which reads the directory and shows more. *)
Lemma on_file_item_changed_cases row w text old_filename :
  files_table w !! row = Some text →
  Py.str_of_nat row ∉ files_being_edited w →
  Py.strip text ≠ "" →
  bare_pdf_files w !! S row = Some old_filename →
  old_filename ≠ "" →
  old_filename ≠ Py.strip text →
  let new_filename := Py.strip text in
  let old_path := os_path_join (current_dir w) old_filename in
  let new_path := os_path_join (current_dir w) new_filename in
  let refusal text icon (w' : world) :=
    fs w' = fs w
    ∧ ∃ ev, events w' = (events w ++ ShowMessage "Error" text icon :: ev)%list in
  ∃ w',
    on_file_item_changed row w = (Ok (), w')
    ∧ match fs w !! old_path with
      | None =>
          refusal ("File '" ++ old_filename ++ "' not found.") "Critical" w'
      | Some n =>
          match fs w !! new_path with
          | Some _ =>
              refusal ("A file named '" ++ new_filename ++ "' already exists.")
                "Warning" w'
          | None =>
              if refused w (SysRename old_path new_path)
              then refusal
                     ("Error renaming file: " ++ exception_text w "OSError")
                     "Critical" w'
              else fs w' = <[new_path := n]> (delete old_path (fs w))
                   ∧ ∃ ev, events w'
                           = (events w ++ Renamed old_path new_path :: ev)%list
          end
      end.
Proof.
  intros Hcell Hedit Hnew Hbare Hold Hdiff new_filename old_path new_path refusal.
  assert (Hreload : ∀ w0 text icon,
            fs w0 = fs w →
            events w0 = (events w ++ [ShowMessage "Error" text icon])%list →
            (show_bare_pdfs w0).1 = Ok ()
            ∧ refusal text icon (show_bare_pdfs w0).2).
  { intros w0 t i Hfs Hev. destruct (show_bare_pdfs_kept w0) as [Hok [Hk [ev Hk']]].
    split; [done|]. split; [congruence|]. exists ev.
    by rewrite Hk', Hev, <- (assoc_L app). }
  unfold on_file_item_changed. run_io. rewrite Hcell.
  rewrite decide_False by done. simpl.
  rewrite bool_decide_eq_false_2 by done. simpl.
  rewrite Hbare. rewrite bool_decide_eq_false_2 by done.
  rewrite bool_decide_eq_false_2 by done. simpl.
  fold new_filename old_path new_path.
  destruct (fs w !! old_path) as [n|] eqn:Eold.
  - rewrite bool_decide_eq_true_2 by eauto. simpl.
    destruct (fs w !! new_path) as [n'|] eqn:Enew.
    + rewrite bool_decide_eq_true_2 by eauto. simpl.
      match goal with |- context [show_bare_pdfs ?w0] =>
        destruct (Hreload w0 ("A file named '" ++ new_filename ++ "' already exists.")
                    "Warning" eq_refl eq_refl) as [Hok Href];
        destruct (show_bare_pdfs w0) as [r w1] end.
      simpl in *. subst r. eexists. split; [done|]. exact Href.
    + rewrite bool_decide_eq_false_2 by (by intros [? ?]). simpl.
      rewrite (os_rename_free old_path new_path _ n) by done. simpl.
      destruct (refused w (SysRename old_path new_path)); simpl.
      * match goal with |- context [show_bare_pdfs ?w0] =>
          destruct (Hreload w0 ("Error renaming file: " ++ exception_text w "OSError")
                      "Critical"
                      eq_refl eq_refl) as [Hok Href];
          destruct (show_bare_pdfs w0) as [r w1] end.
        simpl in *. subst r. eexists. split; [done|]. exact Href.
      * eexists. split; [done|]. simpl. split; [done|].
        eexists. by rewrite <- (assoc_L app).
  - rewrite bool_decide_eq_false_2 by (by intros [? ?]). simpl.
    match goal with |- context [show_bare_pdfs ?w0] =>
      destruct (Hreload w0 ("File '" ++ old_filename ++ "' not found.")
                  "Critical" eq_refl eq_refl) as [Hok Href];
      destruct (show_bare_pdfs w0) as [r w1] end.
    simpl in *. subst r. eexists. split; [done|]. exact Href.
Qed.

(** A call of [add_tok_prefix_to_file] leaves the file system as it was,
    or renames a file that was there to a name that was free. *)
Lemma add_tok_prefix_to_file_safe file_selected selected_tok_item file_row w :
  let w' :=
    (add_tok_prefix_to_file file_selected selected_tok_item file_row w).2 in
  fs w' = fs w
  ∨ ∃ old_path new_path n,
      fs w !! old_path = Some n ∧ fs w !! new_path = None
      ∧ fs w' = <[new_path := n]> (delete old_path (fs w)).
Proof.
  destruct file_selected; [|by left].
  destruct selected_tok_item as [tok_text|]; [|by left].
  destruct (file_row <? 0) eqn:Hrow; [unfold add_tok_prefix_to_file; simpl; rewrite Hrow; by left|].
  destruct (decide (Py.strip tok_text = "")) as [Htok|Htok].
  { unfold add_tok_prefix_to_file. simpl. rewrite Hrow.
    rewrite bool_decide_eq_true_2 by done. by left. }
  destruct (files_table w !! Z.to_nat file_row) as [cell|] eqn:Hcell; cycle 1.
  { unfold add_tok_prefix_to_file. simpl. rewrite Hrow.
    rewrite bool_decide_eq_false_2 by done. run_io. rewrite Hcell. by left. }
  destruct (bare_pdf_files w !! Z.to_nat (file_row + 1)) as [old|] eqn:Hbare;
    cycle 1.
  { unfold add_tok_prefix_to_file. simpl. rewrite Hrow.
    rewrite bool_decide_eq_false_2 by done. run_io. rewrite Hcell, Hbare.
    by left. }
  intros w'. subst w'.
  rewrite (add_tok_prefix_to_file_run tok_text file_row w cell old) by done.
  simpl.
  destruct (fs w !! os_path_join (current_dir w) old) as [n|] eqn:Hold;
    [|by left].
  destruct (fs w !! os_path_join (current_dir w)
                      (formatted_code (Py.strip tok_text) ++ old))
    as [n'|] eqn:Hnew; [by left|].
  destruct (refused w _); [by left|]. right.
  eexists _, _, n. split_and!; [exact Hold | exact Hnew | done].
Qed.

Lemma on_file_item_changed_safe row w :
  let w' := (on_file_item_changed row w).2 in
  fs w' = fs w
  ∨ ∃ old_path new_path n,
      fs w !! old_path = Some n ∧ fs w !! new_path = None
      ∧ fs w' = <[new_path := n]> (delete old_path (fs w)).
Proof.
  destruct (files_table w !! row) as [text|] eqn:Hcell; cycle 1.
  { unfold on_file_item_changed. run_io. rewrite Hcell. by left. }
  destruct (decide (Py.str_of_nat row ∈ files_being_edited w)) as [Hedit|Hedit].
  { unfold on_file_item_changed. run_io. rewrite Hcell.
    rewrite decide_True by done. by left. }
  destruct (decide (Py.strip text = "")) as [Hnew|Hnew].
  { unfold on_file_item_changed. run_io. rewrite Hcell.
    rewrite decide_False by done. simpl.
    rewrite bool_decide_eq_true_2 by done. simpl.
    match goal with |- context [show_bare_pdfs ?w0] =>
      destruct (show_bare_pdfs_kept w0) as [Hok [Hk _]];
      destruct (show_bare_pdfs w0) as [r w1] end.
    simpl in *. subst r. by left. }
  destruct (bare_pdf_files w !! S row) as [old|] eqn:Hbare; cycle 1.
  { unfold on_file_item_changed. run_io. rewrite Hcell.
    rewrite decide_False by done. simpl.
    rewrite bool_decide_eq_false_2 by done. simpl. rewrite Hbare. by left. }
  destruct (decide (old = "")) as [Hold|Hold].
  { unfold on_file_item_changed. run_io. rewrite Hcell.
    rewrite decide_False by done. simpl.
    rewrite bool_decide_eq_false_2 by done. simpl. rewrite Hbare.
    rewrite bool_decide_eq_true_2 by done. by left. }
  destruct (decide (old = Py.strip text)) as [Hsame|Hdiff].
  { unfold on_file_item_changed. run_io. rewrite Hcell.
    rewrite decide_False by done. simpl.
    rewrite bool_decide_eq_false_2 by done. simpl. rewrite Hbare.
    rewrite bool_decide_eq_false_2 by done.
    rewrite bool_decide_eq_true_2 by done. by left. }
  destruct (on_file_item_changed_cases row w text old) as (w1 & -> & Hcases);
    [done..|].
  simpl.
  destruct (fs w !! os_path_join (current_dir w) old) as [n|] eqn:Eold;
    [|left; apply Hcases].
  destruct (fs w !! os_path_join (current_dir w) (Py.strip text)) as [n'|]
    eqn:Enew; [left; apply Hcases|].
  destruct (refused w _); [left; apply Hcases|].
  right. exists (os_path_join (current_dir w) old),
    (os_path_join (current_dir w) (Py.strip text)), n.
  split_and!; [done..|apply Hcases].
Qed.

Example get_bare_pdfs_run :
  (get_bare_pdfs "/home/u/Dropbox/inbox" world_with_conflict).1
  = Ok [(1%nat, "a.pdf")].
Proof. vm_compute. reflexivity. Qed.

Example rename_to_taken_name :
  let w := set_files_table ["0 1 a.pdf"] world_with_conflict in
  let run := on_file_item_changed 0 w in
  run.1 = Ok ()
  ∧ fs run.2 = fs w
  ∧ events run.2
    = [ShowMessage "Error" "A file named '0 1 a.pdf' already exists." "Warning";
       StatusBar "Loaded 1 bare PDF files from /home/u/Dropbox/inbox"]
  ∧ files_table run.2 = ["a.pdf"].
Proof. vm_compute. done. Qed.

Example apply_prefix_conflict :
  add_tok_prefix_to_file true (Some "01") 0 world_with_conflict
  = (Ok (),
     emit (ShowMessage "Error" "A file named '0 1 a.pdf' already exists."
             "Warning") world_with_conflict).
Proof. vm_compute. reflexivity. Qed.

Example apply_prefix_renames :
  let run := add_tok_prefix_to_file true (Some "02") 0 world_with_conflict in
  fs run.2
  = {[ "/home/u/Dropbox/inbox" := Directory;
       "/home/u/Dropbox/inbox/0 2 a.pdf" := RegularFile "%PDF-1.4 a" 10;
       "/home/u/Dropbox/inbox/0 1 a.pdf" := RegularFile "%PDF-1.4 b" 5 ]}
  ∧ events run.2
    = [Renamed "/home/u/Dropbox/inbox/a.pdf" "/home/u/Dropbox/inbox/0 2 a.pdf";
       StatusBar "Added prefix '02' to file: 0 2 a.pdf"]
  ∧ bare_pdf_files run.2 = {[ 1%nat := "0 2 a.pdf" ]}.
Proof. vm_compute. done. Qed.

(** C9.  Both renames check first that the source is there and that the
    target name is free.  When the source is missing, or when the target
    is taken, the file system is left as it was and a message of its own
    is shown: "... not found ..." for the source, "A file named ...
    already exists." for the target.  Whatever the selection, a call
    either leaves the file system as it was or renames a file that was
    there to a name that was free. *)
Theorem safe_rename_preconditions :
  (∀ tok_text file_row w cell actual_old_filename,
     (file_row <? 0) = false →
     Py.strip tok_text ≠ "" →
     files_table w !! Z.to_nat file_row = Some cell →
     bare_pdf_files w !! Z.to_nat (file_row + 1) = Some actual_old_filename →
     let new_filename := formatted_code (Py.strip tok_text) ++ actual_old_filename in
     let old_path := os_path_join (current_dir w) actual_old_filename in
     let new_path := os_path_join (current_dir w) new_filename in
     let run := add_tok_prefix_to_file true (Some tok_text) file_row w in
     (fs w !! old_path = None →
      run = (Ok (),
             emit (ShowMessage "Error"
                     ("File '" ++ actual_old_filename ++ "' not found on disk.")
                     "Critical") w))
     ∧ (is_Some (fs w !! old_path) → is_Some (fs w !! new_path) →
        run = (Ok (),
               emit (ShowMessage "Error"
                       ("A file named '" ++ new_filename ++ "' already exists.")
                       "Warning") w)))
  ∧ (∀ file_selected selected_tok_item file_row w,
       let w' :=
         (add_tok_prefix_to_file file_selected selected_tok_item file_row w).2 in
       fs w' = fs w
       ∨ ∃ old_path new_path n,
           fs w !! old_path = Some n ∧ fs w !! new_path = None
           ∧ fs w' = <[new_path := n]> (delete old_path (fs w)))
  ∧ (∀ row w text old_filename,
       files_table w !! row = Some text →
       Py.str_of_nat row ∉ files_being_edited w →
       Py.strip text ≠ "" →
       bare_pdf_files w !! S row = Some old_filename →
       old_filename ≠ "" →
       old_filename ≠ Py.strip text →
       let new_filename := Py.strip text in
       let old_path := os_path_join (current_dir w) old_filename in
       let new_path := os_path_join (current_dir w) new_filename in
       ∃ w',
         on_file_item_changed row w = (Ok (), w')
         ∧ (fs w !! old_path = None →
            fs w' = fs w
            ∧ ∃ ev, events w'
                    = (events w
                       ++ ShowMessage "Error"
                            ("File '" ++ old_filename ++ "' not found.")
                            "Critical" :: ev)%list)
         ∧ (is_Some (fs w !! old_path) → is_Some (fs w !! new_path) →
            fs w' = fs w
            ∧ ∃ ev, events w'
                    = (events w
                       ++ ShowMessage "Error"
                            ("A file named '" ++ new_filename
                             ++ "' already exists.")
                            "Warning" :: ev)%list))
  ∧ (∀ row w,
       let w' := (on_file_item_changed row w).2 in
       fs w' = fs w
       ∨ ∃ old_path new_path n,
           fs w !! old_path = Some n ∧ fs w !! new_path = None
           ∧ fs w' = <[new_path := n]> (delete old_path (fs w)))
  ∧ (∀ a b suffix,
       "File '" ++ a ++ suffix ≠ "A file named '" ++ b ++ "' already exists.").
Proof.
  split_and!.
  - intros tok_text file_row w cell old Hrow Htok Hcell Hbare
      new_filename old_path new_path run.
    unfold run.
    rewrite (add_tok_prefix_to_file_run tok_text file_row w cell old) by done.
    simpl. fold new_filename old_path new_path. split.
    + by intros ->.
    + intros [n ->] [n' ->]. done.
  - apply add_tok_prefix_to_file_safe.
  - intros row w text old Hcell Hedit Hnew Hbare Hold Hdiff
      new_filename old_path new_path.
    destruct (on_file_item_changed_cases row w text old) as (w' & Hrun & Hcases);
      [done..|].
    simpl in Hcases. fold new_filename old_path new_path in Hcases.
    exists w'. split; [done|]. split.
    + intros Hnone. by rewrite Hnone in Hcases.
    + intros [n Hn] [n' Hn']. by rewrite Hn, Hn' in Hcases.
  - apply on_file_item_changed_safe.
  - intros a b suffix. rewrite !str_app_cons. intros [=].
Qed.

Lemma safe_rename_preconditions_witness :
  add_tok_prefix_to_file true (Some "01") 0 world_with_conflict
  = (Ok (),
     emit (ShowMessage "Error" "A file named '0 1 a.pdf' already exists."
             "Warning") world_with_conflict).
Proof.
  apply (proj2 (proj1 safe_rename_preconditions "01" 0 world_with_conflict
                  "a.pdf" "a.pdf" eq_refl ltac:(discriminate) eq_refl eq_refl)).
  - by eexists.
  - by eexists.
Defined.

(** ** SnapshotDiffer *)

(** C5: a catalog compared with the scan it was made from.  With two
    files of one size and one base name in one folder, the second
    location is compared with the first old location of that folder, the
    dates differ, and a change is reported although nothing changed. *)
Theorem compare_self_reports_change :
  let pdf_dict := scan_all_pdfs "/home/u/Dropbox" same_folder_twice in
  let catalog := create_json_output pdf_dict true in
  catalog
  = [SizeObj 100
       [FileEntry "report.pdf" (Some "A B")
          [LocationObj "/home/u/Dropbox/papers"
             "2024-01-02 03:04:05" "2024-01-02 03:04:05";
           LocationObj "/home/u/Dropbox/papers"
             "2024-06-07 08:09:10" "2024-06-07 08:09:10"]]]
  ∧ compare_pdf_scans (Some catalog) pdf_dict true
    = Some (Comparison true
              ["MODIFIED: report.pdf in /home/u/Dropbox/papers - dates changed"]).
Proof. split; vm_compute; reflexivity. Qed.

(** *** Ordered dictionaries *)

Section OdictFacts.
Context `{EqDecision K} {V : Type}.
Implicit Types (d : odict K V) (k : K) (v : V).

Lemma odict_get_Some_elem k v d : odict_get k d = Some v → (k, v) ∈ d.
Proof.
  induction d as [|[k' v'] d IH]; simpl; [done|].
  case_decide; [intros [= ->]; subst; left | right; auto].
Qed.

Lemma odict_get_is_Some k d : is_Some (odict_get k d) ↔ k ∈ d.*1.
Proof.
  induction d as [|[k' v'] d IH]; simpl.
  - split; [by intros [? ?] | by intros ?%elem_of_nil].
  - case_decide as Hk; subst.
    + split; [left | eauto].
    + rewrite IH. split; [by right|]. by intros [?|?]%elem_of_cons.
Qed.

Lemma odict_get_set_eq k v d : odict_get k (odict_set k v d) = Some v.
Proof.
  induction d as [|[k' v'] d IH]; simpl; [by rewrite decide_True|].
  case_decide as Hk; simpl; [by rewrite decide_True|]. by rewrite decide_False.
Qed.

Lemma odict_get_set_ne k k' v d :
  k ≠ k' → odict_get k' (odict_set k v d) = odict_get k' d.
Proof.
  intros Hne. induction d as [|[k0 v0] d IH]; simpl; [by rewrite decide_False|].
  case_decide as Hk; simpl; subst.
  - by rewrite !decide_False.
  - case_decide; [done | apply IH].
Qed.

Lemma odict_set_keys k v d k' :
  k' ∈ (odict_set k v d).*1 ↔ k' = k ∨ k' ∈ d.*1.
Proof.
  rewrite <- !odict_get_is_Some. destruct (decide (k = k')) as [->|Hne].
  - rewrite odict_get_set_eq. split; [by left | eauto].
  - rewrite odict_get_set_ne by done. split; [by right|].
    by intros [?|?]; [subst|].
Qed.

Lemma odict_set_NoDup k v d : NoDup d.*1 → NoDup (odict_set k v d).*1.
Proof.
  induction d as [|[k0 v0] d IH]; simpl; intros Hnd.
  - apply NoDup_singleton.
  - apply NoDup_cons in Hnd as [Hk0 Hnd]. case_decide as Hk; simpl; subst.
    + by apply NoDup_cons.
    + apply NoDup_cons. split; [|by apply IH].
      rewrite odict_set_keys. by intros [?|?].
Qed.

End OdictFacts.

(** *** The lookup structures *)

Lemma inner_table_snoc files fe :
  inner_table (files ++ [fe])
  = odict_set (fe_filename fe) (entry_data fe) (inner_table files).
Proof. unfold inner_table. by rewrite foldl_snoc. Qed.

Lemma inner_table_get_Some files filename fd :
  odict_get filename (inner_table files) = Some fd →
  ∃ fe, fe ∈ files ∧ fe_filename fe = filename ∧ fd = entry_data fe.
Proof.
  induction files as [|fe files IH] using rev_ind; [done|].
  rewrite inner_table_snoc.
  destruct (decide (fe_filename fe = filename)) as [<-|Hne].
  - rewrite odict_get_set_eq. intros [= <-]. exists fe.
    split_and!; [|done..]. apply elem_of_app. right. by left.
  - rewrite odict_get_set_ne by done. intros (fe' & Hin & Hf & Hd)%IH.
    exists fe'. split_and!; [|done..]. apply elem_of_app. by left.
Qed.

Lemma inner_table_keys files filename :
  filename ∈ (inner_table files).*1 ↔ filename ∈ fe_filename <$> files.
Proof.
  induction files as [|fe files IH] using rev_ind; [done|].
  rewrite inner_table_snoc, odict_set_keys, IH, fmap_app, elem_of_app.
  simpl. rewrite list_elem_of_singleton. tauto.
Qed.

Lemma inner_table_NoDup files : NoDup (inner_table files).*1.
Proof.
  induction files as [|fe files IH] using rev_ind; [constructor|].
  rewrite inner_table_snoc. by apply odict_set_NoDup.
Qed.


Lemma lookup_table_snoc json g :
  lookup_table (json ++ [g])
  = <[so_size g := inner_table (so_files g)]> (lookup_table json).
Proof. unfold lookup_table. by rewrite foldl_snoc. Qed.

Lemma lookup_table_Some json size table :
  lookup_table json !! size = Some table →
  ∃ g, g ∈ json ∧ so_size g = size ∧ table = inner_table (so_files g).
Proof.
  induction json as [|g json IH] using rev_ind.
  { unfold lookup_table. simpl. by rewrite lookup_empty. }
  rewrite lookup_table_snoc.
  destruct (decide (so_size g = size)) as [<-|Hne].
  - rewrite lookup_insert_eq. intros [= <-]. exists g.
    split_and!; [|done..]. apply elem_of_app. right. by left.
  - rewrite lookup_insert_ne by done. intros (g' & Hin & Hs & Ht)%IH.
    exists g'. split_and!; [|done..]. apply elem_of_app. by left.
Qed.


(** *** No subscript fails *)


Lemma mapM_elem_of_r {A B} (f : A → option B) l k y :
  mapM f l = Some k → y ∈ k → ∃ x, x ∈ l ∧ f x = Some y.
Proof.
  intros Hm%mapM_Some_1 Hy. induction Hm as [|a b l k Hab _ IH]; [by apply elem_of_nil in Hy|].
  apply elem_of_cons in Hy as [->|Hy].
  - exists a. split; [left | done].
  - destruct (IH Hy) as (x & Hx & Hf). exists x. split; [by right | done].
Qed.

Lemma mapM_all_Some {A B} (f : A → option B) l :
  (∀ x, x ∈ l → is_Some (f x)) → is_Some (mapM f l).
Proof.
  intros Hall. apply mapM_is_Some, Forall_forall. exact Hall.
Qed.






(** *** A document compared with itself *)

Lemma next_where_Some {A} (p : A → bool) l x :
  x ∈ l → p x = true → ∃ y, Py.next_where p l = Some y ∧ y ∈ l ∧ p y = true.
Proof.
  intros Hx Hp. unfold Py.next_where.
  assert (Hin : x ∈ filter (λ x, p x = true) l) by (by apply list_elem_of_filter).
  destruct (filter _ l) as [|y k] eqn:E; [by apply elem_of_nil in Hin|].
  exists y. split; [done|].
  assert (Hy : y ∈ filter (λ x, p x = true) l) by (rewrite E; left).
  by apply list_elem_of_filter in Hy as [? ?].
Qed.

Lemma compare_dates_self filename locations loc :
  folder_dates_agree locations → loc ∈ locations →
  compare_dates filename locations
    (list_to_set (loc_folder <$> locations)) loc = [].
Proof.
  intros Hagree Hloc. unfold compare_dates.
  case_decide as Hin; [|done].
  destruct (next_where_Some
              (λ l, bool_decide (loc_folder l = loc_folder loc)) locations loc)
    as (old_loc & -> & Hold & Hfolder); [done | by apply bool_decide_eq_true|].
  apply bool_decide_eq_true in Hfolder.
  destruct (Hagree loc old_loc Hloc Hold (eq_sym Hfolder)) as [-> ->].
  by rewrite !bool_decide_eq_false_2 by (by intros []).
Qed.

Lemma bind_all_nil {A B} (f : A → list B) l :
  (∀ x, x ∈ l → f x = []) → l ≫= f = [].
Proof.
  induction l as [|x l IH]; intros Hall; [done|]. simpl.
  rewrite (Hall x) by left. apply IH. intros y Hy. apply Hall. by right.
Qed.

Lemma concat_all_nil {A} (k : list (list A)) :
  (∀ y, y ∈ k → y = []) → concat k = [].
Proof.
  induction k as [|y k IH]; intros Hall; [done|]. simpl.
  rewrite (Hall y) by left. apply IH. intros z Hz. apply Hall. by right.
Qed.

Lemma mapM_all_nil {A B} (f : A → option (list B)) l :
  (∀ x, x ∈ l → f x = Some []) → ∃ k, mapM f l = Some k ∧ concat k = [].
Proof.
  intros Hall. destruct (mapM_all_Some f l) as [k Hk].
  { intros x Hx. rewrite (Hall x Hx). by eexists. }
  exists k. split; [done|]. apply concat_all_nil. intros y Hy.
  destruct (mapM_elem_of_r f l k y Hk Hy) as (x & Hx & Hf).
  rewrite (Hall x Hx) in Hf. congruence.
Qed.

Lemma elements_difference_self `{Countable K} (X : gset K) :
  elements (X ∖ X) = [].
Proof.
  pose proof (difference_diag_L X) as ->. apply elements_empty.
Qed.

Lemma intersection_self `{Countable K} (X : gset K) : X ∩ X = X.
Proof. pose proof (idemp_L (∩) X) as Hx. exact Hx. Qed.

Lemma report_files_nil tag data size : report_files tag data size [] = Some [].
Proof. reflexivity. Qed.

Lemma mapM_nil {A B} (f : A → option B) : mapM f [] = Some [].
Proof. reflexivity. Qed.

Lemma bind_Some {A B} (f : A → option B) x : Some x ≫= f = f x.
Proof. reflexivity. Qed.

Lemma compare_file_self filename (fd : file_data) :
  folder_dates_agree fd.2 → compare_file filename fd fd = [].
Proof.
  intros Hagree. unfold compare_file.
  rewrite bool_decide_eq_false_2 by (by intros []).
  rewrite elements_difference_self. simpl.
  apply bind_all_nil. intros loc Hloc. by apply compare_dates_self.
Qed.

Lemma compare_size_self (data : gmap Z (list (string * file_data))) size files :
  data !! size = Some files →
  (∀ filename fd, odict_get filename files = Some fd → folder_dates_agree fd.2) →
  compare_size data data size = Some [].
Proof.
  intros Hsize Hagree. unfold compare_size. rewrite Hsize, !bind_Some.
  rewrite elements_difference_self, intersection_self.
  rewrite !report_files_nil, !bind_Some.
  match goal with |- mbind _ (mapM ?f ?l) = _ =>
    destruct (mapM_all_nil f l) as (kept & -> & Hnil) end;
    [|rewrite bind_Some; simpl; by rewrite Hnil].
  intros filename Hf. rewrite elem_of_elements, elem_of_list_to_set in Hf.
  unfold subscript2. rewrite Hsize. simpl.
  apply odict_get_is_Some in Hf as [fd Hfd]. rewrite Hfd. simpl.
  f_equal. apply compare_file_self. by eapply Hagree.
Qed.

(** A document compared with itself shows no difference, provided that
    in every file entry the locations of one folder carry the same
    dates. *)
Lemma compare_json_self json :
  (∀ g fe, g ∈ json → fe ∈ so_files g → folder_dates_agree (fe_locations fe)) →
  compare_json json json = Some [].
Proof.
  intros Hagree. unfold compare_json.
  rewrite elements_difference_self, intersection_self.
  rewrite !mapM_nil, !bind_Some.
  match goal with |- mbind _ (mapM ?f ?l) = _ =>
    destruct (mapM_all_nil f l) as (same & -> & Hnil) end;
    [|rewrite bind_Some; simpl; by rewrite Hnil].
  intros size Hs. rewrite elem_of_elements, elem_of_dom in Hs.
  destruct Hs as [files Hsize].
  apply (compare_size_self _ size files); [done|].
  intros filename fd Hfd.
  apply lookup_table_Some in Hsize as (g & Hg & _ & ->).
  apply inner_table_get_Some in Hfd as (fe & Hfe & _ & ->).
  by apply (Hagree g fe).
Qed.

(** X3.  A scan compared with the catalog made from it shows no
    difference, provided that in every file entry the locations of one
    folder carry the same dates. *)
Lemma compare_pdf_scans_self pdf_dict only_duplicates :
  (∀ g fe, g ∈ create_json_output pdf_dict only_duplicates →
           fe ∈ so_files g → folder_dates_agree (fe_locations fe)) →
  compare_pdf_scans (Some (create_json_output pdf_dict only_duplicates))
    pdf_dict only_duplicates
  = Some (Comparison false []).
Proof.
  intros Hagree. unfold compare_pdf_scans.
  by rewrite compare_json_self.
Qed.

Lemma compare_pdf_scans_self_witness :
  compare_pdf_scans
    (Some (create_json_output (scan_all_pdfs "/home/u/Dropbox" two_folders) true))
    (scan_all_pdfs "/home/u/Dropbox" two_folders) true
  = Some (Comparison false []).
Proof.
  apply compare_pdf_scans_self.
  intros g fe Hg Hfe l1 l2 Hl1 Hl2.
  rewrite scan_two_folders in Hg.
  apply list_elem_of_singleton in Hg as ->.
  apply list_elem_of_singleton in Hfe as ->. simpl in *.
  revert Hl1 Hl2. rewrite !elem_of_cons, !elem_of_nil.
  intros [->|[->|[]]] [->|[->|[]]]; done.
Defined.

(** *** The lines for the dates *)


(** *** The catalog of a scan has every size and every name once *)

Lemma add_location_NoDup files_by_name fi :
  NoDup files_by_name.*1 → NoDup (add_location files_by_name fi).*1.
Proof.
  intros Hnd. unfold add_location.
  destruct (odict_get (fi_base_filename fi) files_by_name) as [[toks locs]|];
    simpl; destruct (default _ _) as [toks' locs'].
  - by apply odict_set_NoDup.
  - by apply odict_set_NoDup, odict_set_NoDup.
Qed.

Lemma files_by_name_NoDup file_list files_by_name :
  NoDup files_by_name.*1 → NoDup (foldl add_location files_by_name file_list).*1.
Proof.
  revert files_by_name. induction file_list as [|fi l IH]; intros t Ht; [done|].
  simpl. by apply IH, add_location_NoDup.
Qed.

Lemma make_size_obj_filenames item :
  NoDup (fe_filename <$> so_files (make_size_obj item)).
Proof.
  unfold make_size_obj. simpl. rewrite <- list_fmap_compose.
  apply (files_by_name_NoDup item.2 []). constructor.
Qed.

Lemma create_json_output_filenames pdf_dict only_duplicates g :
  g ∈ create_json_output pdf_dict only_duplicates →
  NoDup (fe_filename <$> so_files g).
Proof.
  unfold create_json_output. intros (item & -> & _)%list_elem_of_fmap.
  apply make_size_obj_filenames.
Qed.

Lemma create_json_output_sizes pdf_dict only_duplicates :
  NoDup (so_size <$> create_json_output pdf_dict only_duplicates).
Proof.
  unfold create_json_output. rewrite <- list_fmap_compose.
  change (so_size ∘ make_size_obj) with (fst (A := Z) (B := list file_info)).
  rewrite (sorted_Permutation Z.le fst). apply NoDup_fst_map_to_list.
Qed.

(** *** The entries that are compared *)








(** A line that begins with the words of a change of classification is
    one. *)
Lemma render_tag d :
  String.prefix "TOK CHANGED: " (render d) = true
  ↔ ∃ f old_tok new_tok, d = TOK_CHANGED f old_tok new_tok.
Proof.
  destruct d; split; try (by intros (? & ? & ? & [=])); try (by intros [=]).
  - eauto.
  - intros _. unfold render. generalize (filename ++ " - '" ++ old_tok ++ "' -> '" ++ new_tok ++ "'"). 
    intros s. by destruct s.
Qed.


Example old_format_catalog_diff :
  compare_pdf_scans (Some old_format_catalog)
    (scan_all_pdfs "/home/u/Dropbox" two_folders) true
  = Some (Comparison true ["TOK CHANGED: report.pdf - '' -> 'A B'"]).
Proof. vm_compute. reflexivity. Qed.




(** * Further properties of the classification list *)

(** X4.  [update_tok_entry] in full: with no entry of that prefix the list is
    as it was and the result is [False]; otherwise the first entry of
    that prefix, and no other, is replaced where it stands. *)
Lemma update_tok_entry_first_match old_code new_code new_label tok :
  (Forall (λ item, e_prefix item ≠ Some old_code) tok
   ∧ update_tok_entry old_code new_code new_label tok = (false, tok))
  ∨ (∃ l1 item l2,
       tok = (l1 ++ item :: l2)%list
       ∧ Forall (λ item, e_prefix item ≠ Some old_code) l1
       ∧ e_prefix item = Some old_code
       ∧ update_tok_entry old_code new_code new_label tok
         = (true, (l1 ++ TokEntry (Some new_code) (Some new_label) :: l2)%list)).
Proof.
  induction tok as [|x tok IH]; [left; by split|].
  simpl. destruct (decide (e_prefix x = Some old_code)) as [Hx|Hx].
  - right. exists [], x, tok. by split_and!.
  - destruct IH as [[Hall ->]|(l1 & item & l2 & -> & Hl1 & Hitem & ->)].
    + left. split; [by constructor | done].
    + right. exists (x :: l1), item, l2. split_and!; [done | by constructor | done..].
Qed.

(** X5.  [delete_tok_entry] in full: the entry that [remove] takes out is the
    first one of that prefix, also when an equal entry comes again. *)
Lemma delete_tok_entry_first_match code tok :
  (Forall (λ item, e_prefix item ≠ Some code) tok
   ∧ delete_tok_entry code tok = (false, tok))
  ∨ (∃ l1 item l2,
       tok = (l1 ++ item :: l2)%list
       ∧ Forall (λ item, e_prefix item ≠ Some code) l1
       ∧ e_prefix item = Some code
       ∧ delete_tok_entry code tok = (true, (l1 ++ l2)%list)).
Proof.
  unfold delete_tok_entry.
  induction tok as [|x tok IH]; [left; by split|].
  simpl. destruct (decide (e_prefix x = Some code)) as [Hx|Hx].
  - right. exists [], x, tok. rewrite bool_decide_eq_true_2 by done.
    simpl. rewrite decide_True by done. by split_and!.
  - rewrite bool_decide_eq_false_2 by done.
    destruct IH as [[Hall Heq]|(l1 & item & l2 & -> & Hl1 & Hitem & Heq)].
    + left. split; [by constructor|].
      by destruct (find _ tok).
    + right. exists (x :: l1), item, l2.
      split_and!; [done | by constructor | done |].
      destruct (find _ (l1 ++ item :: l2)) as [found|] eqn:Hf; [|done].
      simplify_eq. simpl.
      apply find_some in Hf as [_ Hp%bool_decide_eq_true].
      rewrite decide_False by congruence. by rewrite Heq.
Qed.

Section SortedSnoc.
Context {A K : Type} (le : relation K) `{!RelDecision le, !Total le,
  !Transitive le}.
Context (key : A → K).

Lemma insert_by_head x l :
  (∀ y, head l = Some y → le (key x) (key y)) →
  l ≠ [] → Py.insert_by le key x l = x :: l.
Proof.
  destruct l as [|y l]; [done|]. intros Hhd _. simpl.
  rewrite decide_True; [done|]. by apply Hhd.
Qed.

(** Sorting a sorted list with one more element at its end puts that
    element behind the ones whose key is not greater. *)
Lemma sorted_snoc x l :
  StronglySorted (λ a b, le (key a) (key b)) l →
  Py.sorted le key (l ++ [x])
  = (filter (λ y, le (key y) (key x)) l
     ++ x :: filter (λ y, ¬ le (key y) (key x)) l)%list.
Proof.
  unfold Py.sorted. rewrite foldr_app. simpl.
  induction 1 as [|y l Hl IH Hy]; [done|].
  simpl. rewrite IH. destruct (decide (le (key y) (key x))) as [Hyx|Hyx].
  - rewrite filter_cons_True, filter_cons_False by tauto.
    apply insert_by_head; [|by destruct (filter _ l)].
    intros z Hz. destruct (filter _ l) as [|z' l'] eqn:Hf; simpl in Hz.
    + by simplify_eq.
    + simplify_eq.
      assert (z ∈ filter (λ y, le (key y) (key x)) l) as Hin
        by (rewrite Hf; left).
      apply list_elem_of_filter in Hin as [_ Hin].
      by apply (proj1 (Forall_forall _ _) Hy).
  - rewrite filter_cons_False, filter_cons_True by tauto.
    assert (filter (λ y, le (key y) (key x)) l = []) as ->.
    { clear IH Hl. induction l as [|z l IH]; [done|].
      inversion Hy as [|?? Hz Hl']; subst.
      rewrite filter_cons_False; [by apply IH|].
      intros Hzx. apply Hyx. by etrans. }
    assert (filter (λ y, ¬ le (key y) (key x)) l = l) as ->.
    { clear IH Hl. induction l as [|z l IH]; [done|].
      inversion Hy as [|?? Hz Hl']; subst.
      rewrite filter_cons_True; [by rewrite IH|].
      intros Hzx. apply Hyx. by etrans. }
    simpl. rewrite decide_False by done. f_equal.
    destruct l as [|z l]; [done|]. simpl.
    inversion Hy; subst. by rewrite decide_True.
Qed.

End SortedSnoc.

(** X6.  In a sorted list [add_tok_entry] puts the new entry behind the
    entries whose prefix is not greater than the new code, and moves no
    other entry. *)
Lemma add_tok_entry_position code label tok :
  tok_sorted tok →
  add_tok_entry code label tok
  = (filter (λ e, String.le (prefix_key e) code) tok
     ++ TokEntry (Some code) (Some label)
        :: filter (λ e, ¬ String.le (prefix_key e) code) tok)%list.
Proof.
  intros Hs. unfold add_tok_entry.
  rewrite (sorted_snoc String.le prefix_key); [done|].
  apply Sorted_StronglySorted; [|done].
  intros a b c ??. by etrans.
Qed.

Lemma add_tok_entry_position_witness :
  add_tok_entry "01" "Branch"
    [TokEntry (Some "0") (Some "Root"); TokEntry (Some "1") (Some "Other")]
  = [TokEntry (Some "0") (Some "Root"); TokEntry (Some "01") (Some "Branch");
     TokEntry (Some "1") (Some "Other")].
Proof.
  rewrite (add_tok_entry_position "01" "Branch"); [reflexivity|].
  unfold tok_sorted. repeat constructor.
Defined.

(** * Further properties of the scan and of the catalog *)





(** *** The catalog keeps every record as one location *)

Lemma odict_set_set `{EqDecision K} {V} (k : K) (v v0 : V) d :
  odict_set k v (odict_set k v0 d) = odict_set k v d.
Proof.
  induction d as [|[k' v'] d IH]; simpl.
  - by rewrite decide_True.
  - destruct (decide (k' = k)) as [->|Hne]; simpl.
    + by rewrite decide_True.
    + by rewrite decide_False, IH.
Qed.

(** One turn of the loop over [file_list] sets the entry of the base
    filename: the prefixes and locations it had, with those of the
    record. *)
Lemma add_location_set files_by_name fi :
  add_location files_by_name fi
  = let old :=
      default (∅, []) (odict_get (fi_base_filename fi) files_by_name) in
    odict_set (fi_base_filename fi)
      (if bool_decide (fi_tok_prefix fi = "") then old.1
       else {[fi_tok_prefix fi]} ∪ old.1,
       (old.2 ++ [LocationObj (fi_folder fi)
                    (strftime " " ":" (fi_date_created fi))
                    (strftime " " ":" (fi_date_modified fi))])%list)
      files_by_name.
Proof.
  unfold add_location.
  destruct (odict_get (fi_base_filename fi) files_by_name) as [[toks locs]|]
    eqn:E; simpl.
  - by rewrite E.
  - rewrite odict_get_set_eq. simpl. by rewrite odict_set_set.
Qed.

Lemma locations_of_set k toks locs
    (d : list (string * (gset string * list location_obj))) :
  (locations_of (odict_set k (toks, locs) d)
   + length (default (∅, []) (odict_get k d)).2
   = locations_of d + length locs)%nat.
Proof.
  unfold locations_of.
  induction d as [|[k' [t' l']] d IH]; simpl; [lia|].
  destruct (decide (k' = k)); simpl; unfold fmap in *; lia.
Qed.

Lemma add_location_count files_by_name fi :
  locations_of (add_location files_by_name fi)
  = S (locations_of files_by_name).
Proof.
  rewrite add_location_set. cbv zeta.
  match goal with
  | |- locations_of (odict_set ?k (?t, ?l) _) = _ =>
      pose proof (locations_of_set k t l files_by_name) as H
  end.
  rewrite length_app in H. simpl in H. lia.
Qed.

Lemma odict_set_Forall `{EqDecision K} {V} (P : K * V → Prop) k v d :
  P (k, v) → Forall P d → Forall P (odict_set k v d).
Proof.
  intros Hv. induction 1 as [|[k' v'] d Hx Hd IH]; simpl.
  - by repeat constructor.
  - destruct (decide (k' = k)); by constructor.
Qed.

Lemma add_location_nonempty files_by_name fi :
  Forall (λ item, item.2.2 ≠ []) files_by_name →
  Forall (λ item, item.2.2 ≠ []) (add_location files_by_name fi).
Proof.
  intros H. rewrite add_location_set. cbv zeta.
  apply odict_set_Forall; [|done]. simpl. by destruct (default _ _).2.
Qed.

Lemma foldl_add_location_count file_list files_by_name :
  locations_of (foldl add_location files_by_name file_list)
  = (locations_of files_by_name + length file_list)%nat.
Proof.
  revert files_by_name.
  induction file_list as [|fi l IH]; intros t; simpl; [lia|].
  rewrite IH, add_location_count. lia.
Qed.

Lemma foldl_add_location_nonempty file_list files_by_name :
  Forall (λ item, item.2.2 ≠ []) files_by_name →
  Forall (λ item, item.2.2 ≠ []) (foldl add_location files_by_name file_list).
Proof.
  revert files_by_name.
  induction file_list as [|fi l IH]; intros t Ht; simpl; [done|].
  by apply IH, add_location_nonempty.
Qed.

(** The object of one size lists as many locations as the size has
    records. *)
Lemma make_size_obj_locations size file_list :
  num_locations [make_size_obj (size, file_list)] = length file_list.
Proof.
  unfold num_locations, make_size_obj. simpl. rewrite app_nil_r.
  rewrite <- list_fmap_compose.
  pose proof (foldl_add_location_count file_list []) as H.
  unfold locations_of in H. simpl in H. exact H.
Qed.

Lemma num_locations_cons g json :
  num_locations (g :: json) = (num_locations [g] + num_locations json)%nat.
Proof.
  unfold num_locations. rewrite !bind_cons. simpl. rewrite app_nil_r.
  rewrite fmap_app. induction (_ <$> so_files g) as [|n l IH]; simpl; [done|].
  unfold fmap in *. lia.
Qed.

Lemma num_locations_fmap (l : list (Z * list file_info)) :
  num_locations (make_size_obj <$> l) = length (l ≫= snd).
Proof.
  induction l as [|[size fl] l IH]; [done|].
  rewrite fmap_cons, num_locations_cons, make_size_obj_locations, IH.
  by rewrite bind_cons, length_app.
Qed.

(** X8.  The catalog lists every record of the sizes it processes as one
    location: nothing is lost and nothing comes twice. *)
Theorem create_json_output_locations pdf_dict only_duplicates :
  num_locations (create_json_output pdf_dict only_duplicates)
  = length (records (data_to_process pdf_dict only_duplicates)).
Proof.
  unfold create_json_output. fold (data_to_process pdf_dict only_duplicates).
  rewrite num_locations_fmap. unfold records.
  by rewrite (sorted_Permutation Z.le fst).
Qed.

Lemma create_json_output_elem pdf_dict only_duplicates g :
  g ∈ create_json_output pdf_dict only_duplicates
  ↔ ∃ size file_list,
      data_to_process pdf_dict only_duplicates !! size = Some file_list
      ∧ g = make_size_obj (size, file_list).
Proof.
  unfold create_json_output. fold (data_to_process pdf_dict only_duplicates).
  rewrite list_elem_of_fmap. split.
  - intros ([size fl] & -> & Hin). exists size, fl. split; [|done].
    rewrite (sorted_Permutation Z.le fst) in Hin.
    by apply elem_of_map_to_list in Hin.
  - intros (size & fl & Hl & ->). exists (size, fl). split; [done|].
    rewrite (sorted_Permutation Z.le fst). by apply elem_of_map_to_list.
Qed.

(** X9.  With [only_duplicates] the catalog has the sizes that more than one
    record has, and no other; each of its groups lists two locations or
    more. *)
Theorem create_json_output_only_duplicates pdf_dict :
  (∀ size,
     size ∈ so_size <$> create_json_output pdf_dict true
     ↔ ∃ file_list,
         pdf_dict !! size = Some file_list ∧ (1 < length file_list)%nat)
  ∧ (∀ g, g ∈ create_json_output pdf_dict true →
          (2 ≤ num_locations [g])%nat ∧ so_files g ≠ []).
Proof.
  split.
  - intros size. rewrite list_elem_of_fmap. split.
    + intros (g & -> & (s & fl & Hl & ->)%create_json_output_elem).
      apply map_lookup_filter_Some in Hl as [Hl Hlen]. by exists fl.
    + intros (fl & Hl & Hlen). exists (make_size_obj (size, fl)).
      split; [done|]. apply create_json_output_elem. exists size, fl.
      split; [|done]. by apply map_lookup_filter_Some.
  - intros g (s & fl & Hl & ->)%create_json_output_elem.
    apply map_lookup_filter_Some in Hl as [Hl Hlen]. simpl in Hlen.
    pose proof (make_size_obj_locations s fl) as Hn. split; [lia|].
    intros Hnil. unfold num_locations in Hn. simpl in Hn.
    rewrite app_nil_r in Hn. unfold make_size_obj in Hnil. simpl in Hnil.
    unfold make_size_obj in Hn. simpl in Hn. rewrite Hnil in Hn.
    simpl in Hn. lia.
Qed.

Lemma create_json_output_entries pdf_dict only_duplicates :
  ∀ g, g ∈ create_json_output pdf_dict only_duplicates →
       NoDup (fe_filename <$> so_files g)
       ∧ ∀ file_entry, file_entry ∈ so_files g →
                       is_Some (fe_ToK file_entry)
                       ∧ fe_locations file_entry ≠ [].
Proof.
  intros g Hg. split; [by eapply create_json_output_filenames|].
  apply create_json_output_elem in Hg as (s & fl & _ & ->).
  intros fe. unfold make_size_obj. simpl.
  intros (item & -> & Hin)%list_elem_of_fmap. split; [by eexists|].
  pose proof (foldl_add_location_nonempty fl [] (Forall_nil_2 _)) as H.
  by apply (proj1 (Forall_forall _ _) H).
Qed.

Lemma StronglySorted_lt_of_le (l : list Z) :
  StronglySorted Z.le l → NoDup l → StronglySorted Z.lt l.
Proof.
  induction 1 as [|x l Hl IH Hx]; intros Hnd; [constructor|].
  apply NoDup_cons in Hnd as [Hx' Hnd]. constructor; [by apply IH|].
  apply Forall_forall. intros y Hy.
  pose proof (proj1 (Forall_forall _ _) Hx y Hy).
  assert (x ≠ y) by (intros ->; done). lia.
Qed.

Lemma create_json_output_ascending pdf_dict only_duplicates :
  StronglySorted Z.lt (so_size <$> create_json_output pdf_dict only_duplicates).
Proof.
  apply StronglySorted_lt_of_le; [|apply create_json_output_sizes].
  unfold create_json_output. rewrite <- list_fmap_compose.
  apply Sorted_StronglySorted; [intros a b c; lia|].
  apply (Sorted_fmap _ (λ a b : Z * list file_info, a.1 ≤ b.1)); [done|].
  apply (sorted_Sorted Z.le fst).
Qed.

(** X10.  A catalog is well formed: its groups stand in strictly ascending
    order of size; within a group no file name comes twice; and every
    file entry has the key ["ToK"] and at least one location. *)
Theorem create_json_output_well_formed pdf_dict only_duplicates :
  StronglySorted Z.lt (so_size <$> create_json_output pdf_dict only_duplicates)
  ∧ Forall (λ g,
              NoDup (fe_filename <$> so_files g)
              ∧ Forall (λ file_entry,
                          is_Some (fe_ToK file_entry)
                          ∧ fe_locations file_entry ≠ [])
                  (so_files g))
      (create_json_output pdf_dict only_duplicates).
Proof.
  split; [apply create_json_output_ascending|].
  apply Forall_forall. intros g Hg.
  destruct (create_json_output_entries _ _ g Hg) as [Hnd Hfe].
  split; [done|]. by apply Forall_forall.
Qed.

(** * Further properties of the catalog document *)

(** No call changes the clock or what the operating system refuses. *)
Lemma same_setting_refl w : same_setting w w.
Proof. done. Qed.

Lemma same_setting_trans w1 w2 w3 :
  same_setting w1 w2 → same_setting w2 w3 → same_setting w1 w3.
Proof.
  intros (? & ? & ? & ?) (? & ? & ? & ?). split_and!; congruence.
Qed.

Lemma same_setting_emit e w : same_setting w (emit e w).
Proof. done. Qed.

Lemma mkdir_exist_ok_setting path w :
  same_setting w (mkdir_exist_ok path w).2.
Proof.
  unfold mkdir_exist_ok. destruct (fs w !! path) as [[|]|]; [done..|].
  by destruct (refused w (SysMkdir path)).
Qed.

Lemma shutil_copy2_setting src dst w :
  same_setting w (shutil_copy2 src dst w).2.
Proof.
  unfold shutil_copy2. destruct (fs w !! src) as [[|]|]; [|done..].
  destruct (fs w !! copy_target w src dst) as [[|]|]; [|done|];
    (destruct (bool_decide _); [done|]);
    (destruct (refused w (SysCopy src dst)) eqn:E; [|done]);
    by destruct (debris w _).
Qed.

Lemma write_text_setting path text w :
  same_setting w (write_text path text w).2.
Proof.
  unfold write_text. destruct (fs w !! path) as [[|]|]; [|done|];
    (destruct (refused w (SysWrite path)) eqn:E; [|done]);
    by destruct (debris w _).
Qed.

Lemma os_rename_setting old new w :
  same_setting w (os_rename old new w).2.
Proof.
  unfold os_rename.
  destruct (fs w !! old) as [[|]|]; [| |done];
    (destruct (fs w !! new) as [[|]|]; try done);
    by destruct (refused w _).
Qed.

(** What a save that returns has done: the document holds the text of
    the catalog, stamped with the clock, and the result names the path,
    the statistics and the backup. *)
Lemma save_pdf_scan_json_Ok json_dumps dropbox_path pdf_dict only_duplicates
    backup_old w r w' :
  save_pdf_scan_json json_dumps dropbox_path pdf_dict only_duplicates
    backup_old w = (Ok r, w') →
  let json_data := create_json_output pdf_dict only_duplicates in
  let output_path := scan_json_path dropbox_path in
  ∃ backup_path,
    r = (output_path,
         Stats output_path (length json_data)
           (sum_list ((λ size_group, length (so_files size_group))
                        <$> json_data))
           (num_locations json_data) backup_path,
         backup_path)
    ∧ (is_Some backup_path
       ↔ backup_old = true ∧ is_Some (fs w !! output_path))
    ∧ fs w' !! output_path
      = Some (RegularFile (json_dumps json_data) (clock w))
    ∧ refused w' = refused w.
Proof.
  intros Hrun json_data output_path. revert Hrun.
  unfold save_pdf_scan_json. fold output_path json_data.
  unfold mbind, io_bind, mret, io_ret, Path_exists, get_world.
  assert (Hplain :
            (let (r1, w'1) := write_text output_path (json_dumps json_data) w in
             match r1 with
             | Ok _ =>
                 (Ok (output_path,
                      Stats output_path (length json_data)
                        (sum_list ((λ size_group, length (so_files size_group))
                                     <$> json_data))
                        (sum_list ((λ file_entry,
                                      length (fe_locations file_entry))
                                     <$> (json_data ≫= so_files)))
                        None,
                      None), w'1)
             | Raised exn => (Raised exn, w'1)
             end) = (Ok r, w') →
            r = (output_path,
                 Stats output_path (length json_data)
                   (sum_list ((λ size_group, length (so_files size_group))
                                <$> json_data))
                   (num_locations json_data) None,
                 None)
            ∧ fs w' !! output_path
              = Some (RegularFile (json_dumps json_data) (clock w))
            ∧ refused w' = refused w).
  { pose proof (write_text_setting output_path (json_dumps json_data) w)
      as (_ & _ & Href3 & _).
    destruct (write_text_cases output_path (json_dumps json_data) w)
      as [(exn & w3 & -> & Hev3)|(w3 & Hw & Hev3 & Hfs3)]; [done|].
    rewrite Hw in *. intros [= <- <-]. split_and!; [done| |done].
    by rewrite Hfs3, lookup_insert_eq. }
  destruct backup_old.
  - destruct (unreachable w output_path); [done|]. cbv beta iota.
    destruct (bool_decide (is_Some (fs w !! output_path))) eqn:Hb.
    + apply bool_decide_eq_true in Hb.
      set (folder := backup_folder_of (os_path_join dropbox_path "pdfmanager")).
      set (backup_path := os_path_join folder (backup_filename_at (now w))).
      pose proof (mkdir_exist_ok_setting folder w) as Hset1.
      destruct (mkdir_exist_ok folder w) as [[[]|exn] w1]; [|done].
      pose proof (shutil_copy2_setting output_path backup_path w1) as Hset2.
      destruct (shutil_copy2 output_path backup_path w1) as [[[]|exn] w2];
        [|done].
      pose proof (same_setting_trans _ _ _ Hset1 Hset2)
        as (_ & Hclock & Href & _).
      pose proof (write_text_setting output_path (json_dumps json_data) w2)
        as (_ & _ & Href3 & _).
      destruct (write_text_cases output_path (json_dumps json_data) w2)
        as [(exn & w3 & -> & Hev3)|(w3 & Hw & Hev3 & Hfs3)]; [done|].
      rewrite Hw in *. simpl in *. intros [= <- <-].
      exists (Some backup_path). split_and!; [done| | |].
      * split; [done | by eexists].
      * by rewrite Hfs3, lookup_insert_eq, Hclock.
      * congruence.
    + apply bool_decide_eq_false in Hb. intros (-> & ? & ?)%Hplain.
      exists None. split_and!; [done| |done..].
      split; [by intros [? ?]|]. by intros [_ ?].
  - cbv beta iota. intros (-> & ? & ?)%Hplain.
    exists None. split_and!; [done| |done..].
    split; [by intros [? ?]|]. by intros [? _].
Qed.

Lemma catalog_locations_nonempty pdf_dict only_duplicates file_entry :
  file_entry ∈ create_json_output pdf_dict only_duplicates ≫= so_files →
  fe_locations file_entry ≠ [].
Proof.
  intros (g & Hfe & Hg)%list_elem_of_bind.
  apply create_json_output_elem in Hg as (s & fl & _ & ->).
  revert Hfe. unfold make_size_obj. simpl.
  intros (item & -> & Hin)%list_elem_of_fmap.
  pose proof (foldl_add_location_nonempty fl [] (Forall_nil_2 _)) as H.
  by apply (proj1 (Forall_forall _ _) H).
Qed.

Lemma length_le_sum_list {A} (f : A → nat) (l : list A) :
  Forall (λ x, (1 ≤ f x)%nat) l → (length l ≤ sum_list (f <$> l))%nat.
Proof.
  induction 1 as [|x l Hx Hl IH]; simpl; [lia|]. unfold fmap in *. lia.
Qed.

Lemma sum_list_bind_length {A B} (f : A → list B) (l : list A) :
  sum_list ((λ x, length (f x)) <$> l) = length (l ≫= f).
Proof.
  induction l as [|x l IH]; [done|].
  rewrite fmap_cons, bind_cons, length_app. simpl. by rewrite IH.
Qed.

(** X11.  The statistics of a save that returns agree with the scan: as many
    size groups as sizes processed, as many locations as records, and
    no more file entries than locations. *)
Theorem save_pdf_scan_json_stats json_dumps dropbox_path pdf_dict
    only_duplicates backup_old w output_path stats backup_path w' :
  save_pdf_scan_json json_dumps dropbox_path pdf_dict only_duplicates
    backup_old w = (Ok (output_path, stats, backup_path), w') →
  output_path = scan_json_path dropbox_path
  ∧ stats_output_path stats = output_path
  ∧ stats_backup_path stats = backup_path
  ∧ stats_size_groups stats = size (data_to_process pdf_dict only_duplicates)
  ∧ stats_total_locations stats
    = length (records (data_to_process pdf_dict only_duplicates))
  ∧ (stats_file_entries stats ≤ stats_total_locations stats)%nat.
Proof.
  intros Hrun.
  apply save_pdf_scan_json_Ok in Hrun as (bp & [= -> -> ->] & _).
  simpl. split_and!; [done..| | |].
  - unfold create_json_output.
    fold (data_to_process pdf_dict only_duplicates).
    by rewrite length_fmap, (sorted_length Z.le fst), length_map_to_list.
  - unfold create_json_output.
    fold (data_to_process pdf_dict only_duplicates).
    rewrite num_locations_fmap. unfold records.
    by rewrite (sorted_Permutation Z.le fst).
  - rewrite sum_list_bind_length. unfold num_locations.
    apply length_le_sum_list, Forall_forall. intros fe Hfe.
    apply catalog_locations_nonempty in Hfe.
    destruct (fe_locations fe); [done | simpl; lia].
Qed.

Lemma save_pdf_scan_json_stats_witness :
  ∃ stats w',
    save_pdf_scan_json count_dumps "/home/u/Dropbox"
      (scan_all_pdfs "/home/u/Dropbox" two_folders) true true
      world_with_catalog
    = (Ok (scan_json_path "/home/u/Dropbox", stats,
           Some "/home/u/Dropbox/pdfmanager/pdf-files-by-size-old-files/pdf-files-by-size_2025-03-04_05-06-07.json"),
       w')
    ∧ stats_size_groups stats = 1%nat
    ∧ stats_total_locations stats = 2%nat.
Proof.
  eexists _, _. split; [vm_compute; reflexivity|].
  match goal with
  | |- stats_size_groups ?st = _ ∧ _ =>
      destruct (save_pdf_scan_json_stats count_dumps "/home/u/Dropbox"
                  (scan_all_pdfs "/home/u/Dropbox" two_folders) true true
                  world_with_catalog (scan_json_path "/home/u/Dropbox") st
                  _ _ ltac:(vm_compute; reflexivity))
        as (_ & _ & _ & -> & -> & _)
  end.
  split; vm_compute; reflexivity.
Defined.

Lemma load_pdf_scan_json_Some {J} (json_loads : string → option J)
    dropbox_path w text mtime data :
  fs w !! scan_json_path dropbox_path = Some (RegularFile text mtime) →
  refused w (SysRead (scan_json_path dropbox_path)) = false →
  json_loads text = Some data →
  load_pdf_scan_json json_loads dropbox_path w = (Ok (Some data), w).
Proof.
  intros Hfs Href Hjson. unfold load_pdf_scan_json. run_io.
  unfold unreachable. rewrite Href, andb_false_r, Hfs.
  rewrite bool_decide_eq_true_2 by eauto. simpl.
  by rewrite Hfs, Href, Hjson.
Qed.

(** X12.  A document that was saved is the document that is loaded: after a
    save that returns, [load_pdf_scan_json] gives the catalog of the
    scan, when reading is not refused and [json.load] reads what
    [json.dump] wrote. *)
Theorem save_then_load json_loads json_dumps dropbox_path pdf_dict
    only_duplicates backup_old w r w' :
  let json_data := create_json_output pdf_dict only_duplicates in
  json_loads (json_dumps json_data) = Some json_data →
  refused w (SysRead (scan_json_path dropbox_path)) = false →
  save_pdf_scan_json json_dumps dropbox_path pdf_dict only_duplicates
    backup_old w = (Ok r, w') →
  load_pdf_scan_json json_loads dropbox_path w' = (Ok (Some json_data), w').
Proof.
  intros json_data Hjson Hread Hrun.
  apply save_pdf_scan_json_Ok in Hrun as (bp & _ & _ & Hfs & Href).
  eapply load_pdf_scan_json_Some; [done | by rewrite Href | done].
Qed.

Lemma save_then_load_witness :
  load_pdf_scan_json
    (loads_of
       (create_json_output (scan_all_pdfs "/home/u/Dropbox" two_folders) true))
    "/home/u/Dropbox"
    (save_pdf_scan_json count_dumps "/home/u/Dropbox"
       (scan_all_pdfs "/home/u/Dropbox" two_folders) true true
       world_with_catalog).2
  = (Ok (Some (create_json_output
                 (scan_all_pdfs "/home/u/Dropbox" two_folders) true)),
     (save_pdf_scan_json count_dumps "/home/u/Dropbox"
        (scan_all_pdfs "/home/u/Dropbox" two_folders) true true
        world_with_catalog).2).
Proof.
  destruct (save_pdf_scan_json count_dumps "/home/u/Dropbox"
              (scan_all_pdfs "/home/u/Dropbox" two_folders) true true
              world_with_catalog) as [[r|exn] w'] eqn:Hsaved;
    [|by vm_compute in Hsaved].
  apply (save_then_load _ count_dumps "/home/u/Dropbox"
           (scan_all_pdfs "/home/u/Dropbox" two_folders) true true
           world_with_catalog r w');
    [vm_compute; reflexivity | reflexivity | done].
Defined.

(** * The by-size scan in the window *)

Lemma load_pdf_scan_json_run {J} (json_loads : string → option J)
    dropbox_path w :
  ∃ r w',
    load_pdf_scan_json json_loads dropbox_path w = (r, w')
    ∧ fs w' = fs w ∧ same_setting w w'
    ∧ exception_text w' = exception_text w
    ∧ ∀ w0, fs w0 = fs w → refused w0 = refused w →
            (load_pdf_scan_json json_loads dropbox_path w0).1 = r.
Proof.
  unfold load_pdf_scan_json. run_io.
  set (json_path := scan_json_path dropbox_path).
  unfold unreachable. destruct (refused w (SysStat json_path)) eqn:Hstat;
    destruct (refused w (SysRead json_path)) eqn:Href; simpl.
  1: { eexists _, _. split_and!; [done..|]. intros w0 Hfs0 Href0.
       by rewrite Href0, Hstat, Href. }
  all: destruct (fs w !! json_path) as [[text mtime|]|] eqn:E.
  all: rewrite ?bool_decide_eq_true_2 by eauto;
    rewrite ?bool_decide_eq_false_2 by (by intros [? ?]); simpl;
    rewrite ?E, ?Href; try destruct (json_loads text) eqn:Hj.
  all: eexists _, _; split_and!; [done..|]; intros w0 Hfs0 Href0.
  all: rewrite Href0, Hstat, Href, Hfs0, ?E; simpl.
  all: rewrite ?bool_decide_eq_true_2 by eauto;
    rewrite ?bool_decide_eq_false_2 by (by intros [? ?]); simpl.
  all: by rewrite ?Hfs0, ?E, ?Href0, ?Href, ?Hj.
Qed.

Lemma for_each_print_run (g : string → string) l w :
  ∃ w', for_each (λ d, print (g d)) l w = (Ok (), w')
        ∧ fs w' = fs w ∧ same_setting w w'.
Proof.
  revert w. induction l as [|d l IH]; intros w; simpl.
  - by exists w.
  - unfold mbind, io_bind. unfold print at 1. unfold modify.
    destruct (IH (emit (Printed (g d)) w)) as (w' & -> & Hfs & Hset).
    exists w'. split_and!; [done | by rewrite Hfs |].
    by apply (same_setting_trans _ (emit (Printed (g d)) w)).
Qed.

(** X13.  [on_dropbox_scan_finished] never raises, and it leaves the file
    system as it was unless the comparison of the scan with the document
    loaded reports a change. *)
Theorem on_dropbox_scan_finished_writes json_loads json_dumps dropbox_path
    pdf_dict w :
  ∃ w',
    on_dropbox_scan_finished json_loads json_dumps dropbox_path pdf_dict w
    = (Ok (), w')
    ∧ (fs w' = fs w
       ∨ pdf_dict ≠ ∅
         ∧ ∃ old_json comparison,
             (load_pdf_scan_json json_loads dropbox_path w).1 = Ok old_json
             ∧ compare_pdf_scans old_json pdf_dict true = Some comparison
             ∧ has_changes comparison = true).
Proof.
  unfold on_dropbox_scan_finished.
  destruct (bool_decide (pdf_dict = ∅)) eqn:Hempty.
  { eexists. split; [reflexivity|]. by left. }
  apply bool_decide_eq_false in Hempty.
  unfold try_except, mbind, io_bind. unfold print at 1 2 3. unfold modify.
  set (w3 := emit _ (emit _ (emit _ w))).
  destruct (load_pdf_scan_json_run json_loads dropbox_path w3)
    as (r & w4 & -> & Hfs4 & Hset4 & Htext4 & Hval).
  destruct r as [old_json|exn].
  2:{ eexists. split; [reflexivity|]. left. simpl. done. }
  destruct (compare_pdf_scans old_json pdf_dict true) as [comparison|] eqn:Hc.
  2:{ eexists. split; [reflexivity|]. left. simpl. done. }
  destruct (has_changes comparison) eqn:Hch.
  2:{ eexists. split; [reflexivity|]. left. simpl. done. }
  assert (pdf_dict ≠ ∅
          ∧ ∃ old_json comparison,
              (load_pdf_scan_json json_loads dropbox_path w).1 = Ok old_json
              ∧ compare_pdf_scans old_json pdf_dict true = Some comparison
              ∧ has_changes comparison = true) as Hright.
  { split; [done|]. exists old_json, comparison. split_and!; [|done..].
    by apply Hval. }
  unfold print at 1. unfold modify.
  match goal with
  | |- context [for_each ?f ?l ?w0] =>
      destruct (for_each_print_run (λ d, "  " ++ d) l w0)
        as (w5 & -> & Hfs5 & Hset5)
  end.
  unfold print at 1. unfold modify.
  destruct (save_pdf_scan_json _ _ _ _ _ _) as [[[[out st] bp]|exn] w6];
    eexists; (split; [reflexivity | by right]).
Qed.

(** X14.  A scan that was saved and comes again unchanged is not saved again:
    the handler finds no difference and leaves the file system as the
    save left it. *)
Theorem rescan_without_changes json_loads json_dumps dropbox_path pdf_dict
    backup_old w r w' :
  json_loads (json_dumps (create_json_output pdf_dict true))
  = Some (create_json_output pdf_dict true) →
  refused w (SysRead (scan_json_path dropbox_path)) = false →
  (∀ g fe, g ∈ create_json_output pdf_dict true → fe ∈ so_files g →
           folder_dates_agree (fe_locations fe)) →
  save_pdf_scan_json json_dumps dropbox_path pdf_dict true backup_old w
  = (Ok r, w') →
  ∃ w'',
    on_dropbox_scan_finished json_loads json_dumps dropbox_path pdf_dict w'
    = (Ok (), w'')
    ∧ fs w'' = fs w'
    ∧ last (events w'')
      = Some (StatusBar (if bool_decide (pdf_dict = ∅)
                         then "Scan complete - no PDFs found"
                         else "Scan complete - no changes detected")).
Proof.
  intros Hjson Hread Hagree Hrun.
  apply save_pdf_scan_json_Ok in Hrun as (bp & _ & _ & Hfs & Href).
  unfold on_dropbox_scan_finished.
  destruct (bool_decide (pdf_dict = ∅)) eqn:Hempty.
  { eexists. split; [reflexivity|]. split; [done|]. simpl.
    by rewrite last_snoc. }
  unfold try_except, mbind, io_bind. unfold print at 1 2 3. unfold modify.
  set (w3 := emit _ (emit _ (emit _ w'))).
  rewrite (load_pdf_scan_json_Some json_loads dropbox_path w3 _ _
             (create_json_output pdf_dict true) Hfs);
    [|by rewrite <- Hread, <- Href | done].
  unfold compare_pdf_scans. rewrite (compare_json_self _ Hagree). simpl.
  eexists. split; [reflexivity|]. split; [done|]. simpl.
  by rewrite last_snoc.
Qed.

Lemma rescan_without_changes_witness :
  ∃ w'',
    on_dropbox_scan_finished
      (loads_of
         (create_json_output (scan_all_pdfs "/home/u/Dropbox" two_folders) true))
      count_dumps "/home/u/Dropbox"
      (scan_all_pdfs "/home/u/Dropbox" two_folders)
      (save_pdf_scan_json count_dumps "/home/u/Dropbox"
         (scan_all_pdfs "/home/u/Dropbox" two_folders) true true
         world_with_catalog).2
    = (Ok (), w'')
    ∧ fs w''
      = fs (save_pdf_scan_json count_dumps "/home/u/Dropbox"
              (scan_all_pdfs "/home/u/Dropbox" two_folders) true true
              world_with_catalog).2.
Proof.
  destruct (save_pdf_scan_json count_dumps "/home/u/Dropbox"
              (scan_all_pdfs "/home/u/Dropbox" two_folders) true true
              world_with_catalog) as [[r|exn] w'] eqn:Hsaved;
    [|by vm_compute in Hsaved].
  destruct (rescan_without_changes
              (loads_of
                 (create_json_output
                    (scan_all_pdfs "/home/u/Dropbox" two_folders) true))
              count_dumps "/home/u/Dropbox"
              (scan_all_pdfs "/home/u/Dropbox" two_folders) true
              world_with_catalog r w')
    as (w'' & Hrun & Hfs & _); [vm_compute; reflexivity | reflexivity | | done |].
  - intros g fe Hg Hfe l1 l2 Hl1 Hl2.
    rewrite scan_two_folders in Hg.
    apply list_elem_of_singleton in Hg as ->.
    apply list_elem_of_singleton in Hfe as ->. simpl in *.
    revert Hl1 Hl2. rewrite !elem_of_cons, !elem_of_nil.
    intros [->|[->|[]]] [->|[->|[]]]; done.
  - by exists w''.
Defined.

(** * The report on duplicates *)

Lemma prefix_app_iff p s :
  String.prefix p s = true ↔ ∃ b, s = p ++ b.
Proof.
  revert s. induction p as [|a p IH]; intros s.
  - split; [|by destruct s]. intros _. exists s. by rewrite str_app_nil_l.
  - destruct s as [|c s].
    + split; [done|]. intros [b Hb]. by rewrite str_app_cons in Hb.
    + change (String.prefix (String a p) (String c s))
        with (if ascii_dec a c then String.prefix p s else false).
      destruct (ascii_dec a c) as [->|Hne].
      * rewrite IH. split; intros [b Hb]; exists b.
        -- by rewrite str_app_cons, Hb.
        -- rewrite str_app_cons in Hb. by simplify_eq.
      * split; [done|]. intros [b Hb]. rewrite str_app_cons in Hb.
        by simplify_eq.
Qed.

Lemma contains_iff p s :
  Py.contains p s = true ↔ ∃ a b, s = a ++ p ++ b.
Proof.
  induction s as [|c s IH].
  - change (Py.contains p "") with (String.prefix p "" || false).
    rewrite orb_false_r, prefix_app_iff. split.
    + intros [b Hb]. exists "", b. by rewrite str_app_nil_l.
    + intros (a & b & Hab). destruct a as [|? a].
      * exists b. by rewrite str_app_nil_l in Hab.
      * by rewrite str_app_cons in Hab.
  - change (Py.contains p (String c s))
      with (String.prefix p (String c s) || Py.contains p s).
    rewrite orb_true_iff, IH, prefix_app_iff. split.
    + intros [[b Hb]|(a & b & ->)].
      * exists "", b. by rewrite str_app_nil_l.
      * exists (String c a), b. by rewrite str_app_cons.
    + intros (a & b & Hab). destruct a as [|x a].
      * left. exists b. by rewrite str_app_nil_l in Hab.
      * right. rewrite str_app_cons in Hab. simplify_eq. by exists a, b.
Qed.

Lemma drop_split n s : ∃ a, s = a ++ Py.drop n s.
Proof.
  revert s. induction n as [|n IH]; intros s.
  - exists "". by rewrite str_app_nil_l.
  - destruct s as [|c s]; [by exists ""|].
    destruct (IH s) as [a Ha]. exists (String c a).
    simpl. by rewrite str_app_cons, <- Ha.
Qed.

Lemma endswith_contains p s :
  Py.endswith p s = true → Py.contains p s = true.
Proof.
  unfold Py.endswith. intros [_ Heq%String.eqb_eq]%andb_prop.
  apply contains_iff.
  destruct (drop_split (String.length s - String.length p) s) as [a Ha].
  exists a, "". by rewrite str_app_nil_r, <- Heq.
Qed.

Lemma contains_app_l p q s :
  Py.contains (p ++ q) s = true → Py.contains p s = true.
Proof.
  rewrite !contains_iff. intros (a & b & ->). exists a, (q ++ b).
  by rewrite str_app_assoc.
Qed.

(** X16.  A folder counts as protected exactly when its path has
    [/documents], [/1hugefiles] or [/1-spark-library] somewhere in it,
    and as ignored exactly when it has [/pdfmanager] somewhere in it:
    the test is on the text of the path, not on its components. *)
Theorem is_protected_folder_substring folder_path :
  (is_protected_folder folder_path = true
   ↔ ∃ a name b,
       name ∈ ["documents"; "1hugefiles"; "1-spark-library"]
       ∧ folder_path = a ++ "/" ++ name ++ b)
  ∧ (is_ignored_folder folder_path = true
     ↔ ∃ a b, folder_path = a ++ "/pdfmanager" ++ b).
Proof.
  assert (∀ name, Py.contains ("/" ++ name) folder_path
                  || Py.endswith ("/" ++ name) folder_path
                  = Py.contains ("/" ++ name) folder_path) as Hor.
  { intros name. destruct (Py.contains _ _) eqn:Hc; [done|]. simpl.
    destruct (Py.endswith _ _) eqn:He; [|done].
    apply endswith_contains in He. congruence. }
  split.
  - unfold is_protected_folder, PROTECTED_FOLDERS. simpl. rewrite !Hor.
    rewrite orb_false_r, !orb_true_iff, !contains_iff. split.
    + intros [(a & b & ->)|[(a & b & ->)|[(a & b & ->)|(a & b & ->)]]].
      * exists a, "documents", b. split; [by left | done].
      * exists a, "1hugefiles", b. split; [by right; left | done].
      * exists a, "documents", ("-in-folders" ++ b). split; [by left|].
        done.
      * exists a, "1-spark-library", b. split; [by right; right; left | done].
    + intros (a & name & b & Hname & ->).
      apply elem_of_cons in Hname as [->|Hname]; [left; by exists a, b|].
      apply elem_of_cons in Hname as [->|Hname];
        [right; left; by exists a, b|].
      apply list_elem_of_singleton in Hname as ->.
      right; right; right. by exists a, b.
  - unfold is_ignored_folder, IGNORE_FOLDERS. simpl. rewrite Hor.
    by rewrite orb_false_r, contains_iff.
Qed.

Lemma split_locations_spec locations :
  Forall (λ folder, is_ignored_folder folder = false
                    ∧ is_protected_folder folder = true)
    (split_locations locations).1
  ∧ Forall deletable_folder (split_locations locations).2.
Proof.
  unfold split_locations.
  assert (∀ lists : list string * list string,
            Forall (λ folder, is_ignored_folder folder = false
                              ∧ is_protected_folder folder = true) lists.1 →
            Forall deletable_folder lists.2 →
            Forall (λ folder, is_ignored_folder folder = false
                              ∧ is_protected_folder folder = true)
              (foldl (λ lists loc,
                        let folder := loc_folder loc in
                        if is_ignored_folder folder then lists
                        else if is_protected_folder folder
                             then ((lists.1 ++ [folder])%list, lists.2)
                             else (lists.1, (lists.2 ++ [folder])%list))
                 lists locations).1
            ∧ Forall deletable_folder
                (foldl (λ lists loc,
                          let folder := loc_folder loc in
                          if is_ignored_folder folder then lists
                          else if is_protected_folder folder
                               then ((lists.1 ++ [folder])%list, lists.2)
                               else (lists.1, (lists.2 ++ [folder])%list))
                   lists locations).2) as H.
  { induction locations as [|loc locations IH]; intros lists H1 H2; [done|].
    simpl. apply IH.
    - destruct (is_ignored_folder (loc_folder loc)) eqn:Hi; [done|].
      destruct (is_protected_folder (loc_folder loc)) eqn:Hp; [|done].
      simpl. apply Forall_app. split; [done|]. by repeat constructor.
    - destruct (is_ignored_folder (loc_folder loc)) eqn:Hi; [done|].
      destruct (is_protected_folder (loc_folder loc)) eqn:Hp; [done|].
      simpl. apply Forall_app. split; [done|]. by repeat constructor. }
  by apply H.
Qed.

Lemma num_deletable_set k v (d : list (string * list deletable)) :
  (num_deletable (odict_set k v d) + length (default [] (odict_get k d))
   = num_deletable d + length v)%nat.
Proof.
  unfold num_deletable.
  induction d as [|[k' v'] d IH]; simpl; [lia|].
  destruct (decide (k' = k)); simpl; unfold fmap in *; lia.
Qed.

Lemma append_record_spec record by_folder folder :
  protected_record record → deletable_folder folder →
  Forall good_item by_folder → NoDup by_folder.*1 →
  num_deletable (append_record record by_folder folder)
  = S (num_deletable by_folder)
  ∧ Forall good_item (append_record record by_folder folder)
  ∧ NoDup (append_record record by_folder folder).*1.
Proof.
  intros Hr Hf Hall Hnd. unfold append_record. split_and!.
  - pose proof (num_deletable_set folder
      (default [] (odict_get folder by_folder) ++ [record]) by_folder) as H.
    rewrite length_app in H. simpl in H. lia.
  - apply odict_set_Forall; [|done]. split_and!; simpl.
    + done.
    + by destruct (default _ _).
    + apply Forall_app. split; [|constructor; [done | constructor]].
      destruct (odict_get folder by_folder) as [files|] eqn:E;
        [|constructor].
      apply odict_get_Some_elem in E.
      by apply (proj1 (Forall_forall _ _) Hall) in E as (_ & _ & ?).
  - by apply odict_set_NoDup.
Qed.

Lemma append_records_spec record folders by_folder :
  protected_record record → Forall deletable_folder folders →
  Forall good_item by_folder → NoDup by_folder.*1 →
  num_deletable (foldl (append_record record) by_folder folders)
  = (num_deletable by_folder + length folders)%nat
  ∧ Forall good_item (foldl (append_record record) by_folder folders)
  ∧ NoDup (foldl (append_record record) by_folder folders).*1.
Proof.
  intros Hr Hfs. revert by_folder.
  induction Hfs as [|folder folders Hf Hfs IH]; intros d Hall Hnd; simpl.
  - split_and!; [lia | done..].
  - destruct (append_record_spec record d folder Hr Hf Hall Hnd)
      as (Hn & Hall' & Hnd').
    destruct (IH _ Hall' Hnd') as (Hn2 & ? & ?). split_and!; [lia | done..].
Qed.

Lemma analyze_file_ok size st file_entry :
  analysis_ok st → analysis_ok (analyze_file size st file_entry).
Proof.
  intros (Htot & Hle & Hall & Hnd). unfold analyze_file.
  pose proof (split_locations_spec (fe_locations file_entry)) as [Hp Hn].
  destruct (split_locations (fe_locations file_entry)) as [prot non].
  simpl in Hp, Hn.
  destruct prot as [|p prot]; [done|]. destruct non as [|n non]; [done|].
  assert (protected_record
            (Deletable (fe_filename file_entry) size (p :: prot))) as Hr.
  { split; [by eexists | done]. }
  destruct (append_records_spec _ (n :: non) _ Hr Hn Hall Hnd)
    as (Hnum & Hall' & Hnd').
  split_and!; simpl in *; [lia | lia | done..].
Qed.

Lemma analyze_ok data : analysis_ok (analyze data).
Proof.
  unfold analyze.
  assert (∀ st, analysis_ok st →
            analysis_ok
              (foldl (λ st size_group,
                        foldl (analyze_file (so_size size_group)) st
                          (so_files size_group)) st data)) as H.
  { induction data as [|g data IH]; intros st Hst; [done|].
    simpl. apply IH. generalize (so_files g). intros files. revert st Hst.
    induction files as [|fe files IHf]; intros st Hst; [done|].
    simpl. by apply IHf, analyze_file_ok. }
  apply H. split_and!; simpl; [done | lia | constructor | constructor].
Qed.

(** X17.  The invariants of the analysis.  The total of deletable duplicates
    is the number of records over all folders, which is also the sum of
    the counts that the reports list folder by folder, and no more files
    are counted as protected than duplicates as deletable.  Every folder
    of the analysis is one that is neither ignored nor protected, and
    comes once; it has at least one record, and every record names at
    least one protected folder, so that the first protected location the
    report prints is always there. *)
Theorem analyze_invariants data :
  total_deletable_duplicates (analyze data)
  = num_deletable (deletable_by_folder (analyze data))
  ∧ num_deletable (sorted_folders (analyze data))
    = total_deletable_duplicates (analyze data)
  ∧ (total_files_in_protected (analyze data)
     ≤ total_deletable_duplicates (analyze data))%nat
  ∧ NoDup (deletable_by_folder (analyze data)).*1
  ∧ Forall (λ item,
              deletable_folder item.1 ∧ item.2 ≠ []
              ∧ Forall protected_record item.2)
      (deletable_by_folder (analyze data)).
Proof.
  destruct (analyze_ok data) as (Htot & Hle & Hall & Hnd).
  split_and!; [done | | done..].
  unfold sorted_folders, num_deletable in *.
  by rewrite (sorted_Permutation (flip le) (λ x, length x.2)).
Qed.

(** The reports list the folders by descending count, every folder of
    the analysis once. *)
Lemma sorted_folders_descending stats :
  Sorted (λ a b, (length b.2 ≤ length a.2)%nat) (sorted_folders stats)
  ∧ sorted_folders stats ≡ₚ deletable_by_folder stats.
Proof.
  split.
  - assert (Total (flip le)) by (intros a b; unfold flip; lia).
    apply (sorted_Sorted (flip le) (λ x, length x.2)).
  - apply (sorted_Permutation (flip le) (λ x, length x.2)).
Qed.

(** * The classification document *)

Lemma str_app_inv_l a b c : a ++ b = a ++ c → b = c.
Proof.
  induction a as [|x a IH]; [by rewrite !str_app_nil_l|].
  rewrite !str_app_cons. intros [= H]. by apply IH.
Qed.

Lemma os_path_join_inj a b c :
  String.prefix "/" b = false → String.prefix "/" c = false →
  os_path_join a b = os_path_join a c → b = c.
Proof.
  unfold os_path_join. intros -> ->.
  destruct (bool_decide (a = "") || Py.endswith "/" a).
  - apply str_app_inv_l.
  - intros H%str_app_inv_l. by apply (str_app_inv_l "/").
Qed.

(** The backup of the classification document never has the name of
    the document itself. *)
Lemma tok_backup_ne_json_file dropbox_path t :
  os_path_join (os_path_join dropbox_path "pdfmanager")
    (Window.backup_filename_at t)
  ≠ Window.json_file dropbox_path.
Proof.
  unfold Window.json_file, Window.backup_filename_at.
  generalize (strftime "_" "-" t). intros x H.
  apply os_path_join_inj in H; [|done..].
  vm_compute in H. discriminate.
Qed.

Ltac run_gui :=
  repeat (progress (unfold mbind, mret, Window.gui_bind, Window.gui_ret,
                    Window.lift, Window.try_except, Window.try_finally,
                    Window.get, Window.modify, Window.raise; simpl)).

(** X18.  [save_tok_data] with a document on disk has one of three outcomes.
    The rename fails: the call raises and nothing has changed.  The
    rename succeeds and the write fails: the call raises, the old
    document is at the backup path and no document, or what the failed
    write left, is at the path of the document.  Both succeed: the old
    document is at the backup path, the document in memory is written,
    and the name of the backup is returned.  In every case the old
    document is kept in one of the two places. *)
Theorem save_tok_data_outcomes json_dumps dropbox_path s content mtime :
  let w := Window.the_world s in
  let json_file := Window.json_file dropbox_path in
  let backup_filename := Window.backup_filename_at (now w) in
  let backup_path :=
    os_path_join (os_path_join dropbox_path "pdfmanager") backup_filename in
  let old := RegularFile content mtime in
  fs w !! json_file = Some old →
  ∃ r s',
    Window.save_tok_data json_dumps dropbox_path s = (r, s')
    ∧ Window.tok_data s' = Window.tok_data s
    ∧ let fs' := fs (Window.the_world s') in
      ((∃ exn, r = Raised exn) ∧ fs' = fs w)
      ∨ ((∃ exn, r = Raised exn)
         ∧ fs' !! backup_path = Some old
         ∧ fs' !! json_file
           = (λ part, RegularFile part (clock w)) <$> debris w json_file)
      ∨ (r = Ok backup_filename
         ∧ fs' !! backup_path = Some old
         ∧ fs' !! json_file
           = Some (RegularFile (json_dumps (Window.tok_data s)) (clock w))).
Proof.
  intros w json_file backup_filename backup_path old Hold.
  pose proof (tok_backup_ne_json_file dropbox_path (now w)) as Hne.
  fold json_file backup_filename backup_path in Hne.
  unfold Window.save_tok_data. run_gui. unfold Path_exists.
  fold w json_file backup_filename backup_path.
  destruct (unreachable w json_file); simpl.
  { eexists _, _; split; [reflexivity|]; split; [done|].
    left; split; [by eexists | done]. }
  rewrite Hold.
  rewrite bool_decide_eq_true_2 by eauto. simpl.
  unfold os_rename. rewrite Hold.
  destruct (fs w !! backup_path) as [[|]|] eqn:Hb;
    try (destruct (refused w (SysRename json_file backup_path)) eqn:Href);
    simpl;
    try (eexists _, _; split; [reflexivity|]; split; [done|];
         left; split; [by eexists | done]).
  all: unfold write_text; simpl;
    rewrite lookup_insert_ne, lookup_delete_eq by done;
    destruct (refused w (SysWrite json_file)) eqn:Hw; simpl.
  all: try (destruct (debris w json_file) as [part|] eqn:Hd; simpl).
  all: eexists _, _; (split; [reflexivity|]); (split; [done|]); simpl.
  all: try (right; left; split; [by eexists|]; split;
            [| rewrite ?lookup_insert_eq, ?lookup_insert_ne,
                 ?lookup_delete_eq by done; done]).
  all: try (right; right; split; [done|]; split;
            [| by rewrite lookup_insert_eq]).
  all: rewrite ?(lookup_insert_ne _ json_file backup_path) by done;
    by rewrite lookup_insert_eq.
Qed.

(** What [save_tok_data] does in general: it touches the world only,
    and it returns exactly when the document in memory was written. *)
Lemma save_tok_data_run json_dumps dropbox_path s :
  let w := Window.the_world s in
  let json_file := Window.json_file dropbox_path in
  ∃ r w' ev,
    Window.save_tok_data json_dumps dropbox_path s
    = (r, Window.set_world w' s)
    ∧ same_setting w w'
    ∧ events w' = (events w ++ ev)%list
    ∧ (((∃ exn, r = Raised exn) ∧ Written json_file ∉ ev)
       ∨ (r = Ok (Window.backup_filename_at (now w))
          ∧ Written json_file ∈ ev
          ∧ fs w' !! json_file
            = Some (RegularFile (json_dumps (Window.tok_data s)) (clock w)))).
Proof.
  intros w json_file.
  unfold Window.save_tok_data. run_gui. unfold Path_exists.
  fold w json_file.
  set (backup_path := os_path_join _ (Window.backup_filename_at (now w))).
  destruct (unreachable w json_file); simpl.
  { exists (Raised "PermissionError"), w, [].
    split_and!; [by destruct s | done | by rewrite (right_id_L [] app) |].
    left. split; [by eexists | by intros ?%elem_of_nil]. }
  destruct (fs w !! json_file) as [n|] eqn:Hold.
  - rewrite bool_decide_eq_true_2 by eauto. simpl.
    pose proof (os_rename_setting json_file backup_path w) as Hset1.
    destruct (os_rename json_file backup_path w) as [[[]|exn] w1] eqn:Hren;
      simpl in *.
    + assert (events w1 = (events w ++ [Renamed json_file backup_path])%list)
        as Hev1.
      { revert Hren. unfold os_rename. repeat case_match; intros; by simplify_eq. }
      pose proof (write_text_setting json_file
                    (json_dumps (Window.tok_data s)) w1) as Hset2.
      destruct (write_text_cases json_file (json_dumps (Window.tok_data s)) w1)
        as [(exn & w3 & Hw & Hev3)|(w3 & Hw & Hev3 & Hfs3)];
        rewrite Hw in *; simpl in *.
      * exists (Raised exn), w3, [Renamed json_file backup_path].
        split_and!; [done | by eapply same_setting_trans | congruence |].
        left. split; [by eexists|]. by intros [=]%list_elem_of_singleton.
      * exists (Ok (Window.backup_filename_at (now w))), w3,
          [Renamed json_file backup_path; Written json_file].
        split_and!; [done | by eapply same_setting_trans | |].
        { rewrite Hev3, Hev1. by rewrite <- (assoc_L app). }
        right. split_and!; [done | by right; left |].
        rewrite Hfs3, lookup_insert_eq. by destruct Hset1 as (_ & -> & _).
    + exists (Raised exn), w1, [].
      assert (w1 = w) as ->.
      { revert Hren. unfold os_rename. repeat case_match; intros; by simplify_eq. }
      split_and!; [done | done | by rewrite (right_id_L [] app) |].
      left. split; [by eexists | by intros ?%elem_of_nil].
  - rewrite bool_decide_eq_false_2 by (by intros [? ?]). simpl.
    pose proof (write_text_setting json_file
                  (json_dumps (Window.tok_data s)) w) as Hset2.
    destruct (write_text_cases json_file (json_dumps (Window.tok_data s)) w)
      as [(exn & w3 & Hw & Hev3)|(w3 & Hw & Hev3 & Hfs3)];
      fold w; rewrite Hw in *; simpl in *.
    + exists (Raised exn), w3, [].
      split_and!; [done | done | by rewrite (right_id_L [] app) |].
      left. split; [by eexists | by intros ?%elem_of_nil].
    + exists (Ok (Window.backup_filename_at (now w))), w3, [Written json_file].
      split_and!; [done | done | done |].
      right. split_and!; [done | by left | by rewrite Hfs3, lookup_insert_eq].
Qed.

Lemma load_tok_data_cases json_loads dropbox_path s :
  let w := Window.the_world s in
  let json_file := Window.json_file dropbox_path in
  Window.load_tok_data json_loads dropbox_path s
  = if unreachable w json_file then (Raised "PermissionError", s)
    else
      match fs w !! json_file with
      | None => (Raised "FileNotFoundError", s)
      | Some Directory => (Raised "IsADirectoryError", s)
      | Some (RegularFile text _) =>
          if refused w (SysRead json_file) then (Raised "PermissionError", s)
          else match json_loads text with
               | None => (Raised "JSONDecodeError", s)
               | Some None => (Raised "KeyError", Window.set_tok_data None s)
               | Some (Some tok) => (Ok tok, Window.set_tok_data (Some tok) s)
               end
      end.
Proof.
  intros w json_file. destruct s as [w0 d t e]. simpl in w. subst w.
  unfold Window.load_tok_data. run_gui. unfold Path_exists, read_text.
  fold json_file. destruct (unreachable w0 json_file); [done|].
  destruct (fs w0 !! json_file) as [[text mtime|]|] eqn:E; simpl.
  - rewrite E. destruct (refused w0 (SysRead json_file)); [done|]. simpl.
    by destruct (json_loads text) as [[tok|]|].
  - by rewrite E.
  - done.
Qed.

(** The method of the window that loads the tree never raises and
    writes nothing: it shows something, and it may replace the list in
    memory and the tree. *)
Lemma load_tok_codes_run json_loads dropbox_path s :
  ∃ d t ev,
    Window.load_tok_codes json_loads dropbox_path s
    = (Ok (),
       Window.Window
         (World (fs (Window.the_world s)) (now (Window.the_world s))
            (clock (Window.the_world s)) (refused (Window.the_world s))
            (debris (Window.the_world s))
            (exception_text (Window.the_world s))
            (events (Window.the_world s) ++ ev)%list
            (current_dir (Window.the_world s))
            (bare_pdf_files (Window.the_world s))
            (file_paths (Window.the_world s))
            (files_table (Window.the_world s))
            (files_being_edited (Window.the_world s)))
         d t (Window.tok_being_edited s))
    ∧ Forall shown ev.
Proof.
  unfold Window.load_tok_codes, Window.try_except.
  unfold mbind at 1, Window.gui_bind at 1.
  rewrite load_tok_data_cases.
  destruct s as [w d t e]. simpl.
  destruct (unreachable w _);
    [|destruct (fs w !! Window.json_file dropbox_path) as [[text mtime|]|];
      [destruct (refused w _); [|destruct (json_loads text) as [[[|x tok]|]|]]
      | |]];
    run_gui; unfold show_message, status_bar, modify, emit; simpl;
    eexists _, _, [_]; (split; [reflexivity|]); by repeat constructor.
Qed.

Lemma save_tok_data_outcomes_witness :
  ∃ r s',
    Window.save_tok_data tok_dumps "/home/u/Dropbox" window_with_document
    = (r, s')
    ∧ Window.tok_data s' = Some two_codes.
Proof.
  destruct (save_tok_data_outcomes tok_dumps "/home/u/Dropbox"
              window_with_document (tok_dumps (Some two_codes)) 0 eq_refl)
    as (r & s' & Hrun & Hdata & _).
  by exists r, s'.
Defined.

(** X19.  Round trip of the classification document: after a save that
    returns, [load_tok_data] returns the list that was in memory and
    leaves it there, when reading is not refused and [json.load] reads
    what [json.dump] wrote. *)
Theorem save_tok_data_then_load json_loads json_dumps dropbox_path s tok
    backup_filename s' :
  Window.tok_data s = Some tok →
  json_loads (json_dumps (Some tok)) = Some (Some tok) →
  refused (Window.the_world s) (SysRead (Window.json_file dropbox_path))
  = false →
  Window.save_tok_data json_dumps dropbox_path s = (Ok backup_filename, s') →
  Window.load_tok_data json_loads dropbox_path s' = (Ok tok, s').
Proof.
  intros Htok Hjson Hread Hsave.
  destruct (save_tok_data_run json_dumps dropbox_path s)
    as (r & w' & ev & Hrun & (_ & _ & Href & _) & _ & Hcases).
  rewrite Hsave in Hrun. injection Hrun as <- ->.
  destruct Hcases as [[[exn [=]] _]|(_ & _ & Hfs)].
  rewrite load_tok_data_cases. simpl. unfold unreachable.
  rewrite Hfs, Href, Hread, andb_false_r, Htok, Hjson.
  destruct s; simpl in *. by rewrite Htok.
Qed.

Lemma save_tok_data_then_load_witness :
  Window.load_tok_data (tok_loads_of (Some two_codes)) "/home/u/Dropbox"
    (Window.save_tok_data tok_dumps "/home/u/Dropbox" window_with_document).2
  = (Ok two_codes,
     (Window.save_tok_data tok_dumps "/home/u/Dropbox"
        window_with_document).2).
Proof.
  destruct (Window.save_tok_data tok_dumps "/home/u/Dropbox"
              window_with_document) as [[b|exn] s'] eqn:Hsaved;
    [|by vm_compute in Hsaved].
  apply (save_tok_data_then_load (tok_loads_of (Some two_codes)) tok_dumps
           "/home/u/Dropbox" window_with_document two_codes b s');
    [reflexivity | vm_compute; reflexivity | reflexivity | done].
Defined.

(** * The handlers of the classification tree *)

Lemma discard_added (E : gset string) (item_id : string) :
  item_id ∉ E → ({[item_id]} ∪ E) ∖ {[item_id]} = E.
Proof.
  intros H. apply set_eq. intros x.
  rewrite elem_of_difference, elem_of_union, !elem_of_singleton.
  split; [by intros [[->|?] ?] | intros ?; split; [by right | by intros ->]].
Qed.

Lemma discard_absent (E : gset string) (item_id : string) :
  item_id ∉ E → E ∖ {[item_id]} = E.
Proof.
  intros H. apply set_eq. intros x.
  rewrite elem_of_difference, elem_of_singleton.
  split; [by intros [? ?] | intros ?; split; [done | by intros ->]].
Qed.

Lemma shown_not_Written ev path :
  Forall shown ev → Written path ∉ ev.
Proof.
  intros H Hin. by apply (proj1 (Forall_forall _ _) H) in Hin.
Qed.

Lemma no_conflict new_code old_code tok :
  bool_decide (new_code ≠ old_code)
  && existsb (λ entry,
                bool_decide (e_prefix entry = Some new_code)
                && bool_decide (e_prefix entry ≠ Some old_code)) tok
  = false →
  new_code = old_code ∨ Forall (λ e, e_prefix e ≠ Some new_code) tok.
Proof.
  destruct (decide (new_code = old_code)) as [->|Hne]; [by left|].
  rewrite bool_decide_eq_true_2 by done. simpl. intros Hex. right.
  apply Forall_forall. intros e He Heq.
  assert (existsb (λ entry,
                     bool_decide (e_prefix entry = Some new_code)
                     && bool_decide (e_prefix entry ≠ Some old_code)) tok
          = true) as Ht; [|congruence].
  apply existsb_exists. exists e. split; [by apply list_elem_of_In|].
  rewrite !bool_decide_eq_true_2; [done | congruence | done].
Qed.

Lemma only_shown_refl w : only_shown w w.
Proof.
  split_and!; [done..|]. exists []. by rewrite (right_id_L [] app).
Qed.

Lemma only_shown_trans w1 w2 w3 :
  only_shown w1 w2 → only_shown w2 w3 → only_shown w1 w3.
Proof.
  intros (Hfs1 & Hset1 & ev1 & Hev1 & Hs1) (Hfs2 & Hset2 & ev2 & Hev2 & Hs2).
  split_and!; [congruence | by eapply same_setting_trans |].
  exists (ev1 ++ ev2)%list. split; [|by apply Forall_app].
  by rewrite Hev2, Hev1, (assoc_L app).
Qed.

Lemma only_shown_emit e w : shown e → only_shown w (emit e w).
Proof.
  intros He. split_and!; [done..|]. exists [e]. split; [done|].
  by repeat constructor.
Qed.

Lemma load_tok_codes_shown json_loads dropbox_path s :
  ∃ s', Window.load_tok_codes json_loads dropbox_path s = (Ok (), s')
        ∧ only_shown (Window.the_world s) (Window.the_world s')
        ∧ Window.tok_being_edited s' = Window.tok_being_edited s.
Proof.
  destruct (load_tok_codes_run json_loads dropbox_path s)
    as (d & t & ev & -> & Hev).
  eexists. split; [reflexivity|]. split; [|done]. simpl.
  split_and!; [done..|]. by exists ev.
Qed.

(** The way the handlers turn an input down: a message, the mark taken
    off, the tree loaded again. *)
Lemma turned_down_run json_loads dropbox_path title text icon
    (discard : Window.window → Window.window) s :
  (∀ s0, Window.the_world (discard s0) = Window.the_world s0) →
  ∃ s',
    (Window.lift (show_message title text icon)
     ≫= λ _ : (), Window.modify discard
     ≫= λ _ : (), Window.load_tok_codes json_loads dropbox_path) s
    = (Ok (), s')
    ∧ only_shown (Window.the_world s) (Window.the_world s')
    ∧ Window.tok_being_edited s'
      = Window.tok_being_edited
          (discard (Window.set_world
                      (emit (ShowMessage title text icon) (Window.the_world s))
                      s)).
Proof.
  intros Hd. run_gui. unfold show_message, modify. simpl.
  match goal with
  | |- context [Window.load_tok_codes _ _ ?s0] =>
      destruct (load_tok_codes_shown json_loads dropbox_path s0)
        as (s' & -> & Hshown & He)
  end.
  exists s'. split; [done|]. split; [|done].
  eapply only_shown_trans; [|exact Hshown]. rewrite Hd. simpl.
  by apply only_shown_emit.
Qed.

Lemma on_tok_item_changed_run json_loads json_dumps dropbox_path
    item_id text0 text1 s :
  let new_code := Py.strip text0 in
  let new_label := Py.strip text1 in
  let json_file := Window.json_file dropbox_path in
  ∃ s' ev,
    Window.on_tok_item_changed json_loads json_dumps dropbox_path
      item_id text0 text1 s = (Ok (), s')
    ∧ Window.tok_being_edited s' = Window.tok_being_edited s
    ∧ events (Window.the_world s')
      = (events (Window.the_world s) ++ ev)%list
    ∧ (Written json_file ∈ ev →
       ∃ tok entry old_code,
         Window.tok_data s = Some tok
         ∧ find (λ entry, bool_decide (e_string entry = Some new_label)) tok
           = Some entry
         ∧ e_prefix entry = Some old_code
         ∧ (new_code = old_code
            ∨ Forall (λ e, e_prefix e ≠ Some new_code) tok)
         ∧ Window.tok_data s'
           = Some (update_tok_entry old_code new_code new_label tok).2
         ∧ fs (Window.the_world s') !! json_file
           = Some (RegularFile (json_dumps (Window.tok_data s'))
                     (clock (Window.the_world s)))).
Proof.
  intros new_code new_label json_file.
  unfold Window.on_tok_item_changed. fold new_code new_label.
  unfold mbind at 1, Window.gui_bind at 1, Window.get at 1.
  destruct (decide (item_id ∈ Window.tok_being_edited s)) as [Hin|Hnew].
  { exists s, []. split_and!; [done..| by rewrite (right_id_L [] app) |].
    by intros ?%elem_of_nil. }
  unfold Window.try_finally, Window.try_except.
  unfold mbind at 1, Window.gui_bind at 1, Window.modify at 1.
  set (s1 := Window.set_tok_being_edited _ s).
  set (discard := λ s0 : Window.window,
         Window.set_tok_being_edited
           (Window.tok_being_edited s0 ∖ {[item_id]}) s0).
  assert (∀ s0, Window.the_world (discard s0) = Window.the_world s0) as Hd
    by done.
  assert (∀ s2,
            Window.tok_being_edited s2
            = ({[item_id]} ∪ Window.tok_being_edited s) ∖ {[item_id]} →
            Window.tok_being_edited (discard s2) = Window.tok_being_edited s)
    as Hmark.
  { intros s2 He. simpl. by rewrite He, discard_added, discard_absent. }
  assert (∀ s2, only_shown (Window.the_world s) (Window.the_world s2) →
            Window.tok_being_edited (discard s2) = Window.tok_being_edited s →
            ∃ s' ev,
              (Ok (), discard s2) = (Ok (), s')
              ∧ Window.tok_being_edited s' = Window.tok_being_edited s
              ∧ events (Window.the_world s')
                = (events (Window.the_world s) ++ ev)%list
              ∧ (Written json_file ∈ ev →
                 ∃ tok entry old_code,
                   Window.tok_data s = Some tok
                   ∧ find (λ entry,
                             bool_decide (e_string entry = Some new_label)) tok
                     = Some entry
                   ∧ e_prefix entry = Some old_code
                   ∧ (new_code = old_code
                      ∨ Forall (λ e, e_prefix e ≠ Some new_code) tok)
                   ∧ Window.tok_data s'
                     = Some (update_tok_entry old_code new_code new_label
                               tok).2
                   ∧ fs (Window.the_world s') !! json_file
                     = Some (RegularFile (json_dumps (Window.tok_data s'))
                               (clock (Window.the_world s))))) as Hshown.
  { intros s2 (_ & _ & ev & Hev & Hsh) He. exists (discard s2), ev.
    split_and!; [done..|]. by intros ?%(shown_not_Written ev). }
  destruct (bool_decide (new_code = "") || bool_decide (new_label = "")).
  { destruct (turned_down_run json_loads dropbox_path "Error"
                "ToK code and label cannot be empty." "Warning" discard s1 Hd)
      as (s2 & -> & Hsh & He).
    apply Hshown; [done|]. by apply Hmark. }
  destruct (negb (forallb Py.isalnum (Py.split new_code))).
  { destruct (turned_down_run json_loads dropbox_path "Error"
                "ToK code must contain only alphanumeric characters and spaces."
                "Warning" discard s1 Hd)
      as (s2 & -> & Hsh & He).
    apply Hshown; [done|]. by apply Hmark. }
  unfold mbind at 1, Window.gui_bind at 1, Window.get at 1.
  change (Window.tok_data s1) with (Window.tok_data s).
  destruct (Window.tok_data s) as [tok|] eqn:Htok.
  2:{ unfold Window.raise.
      unfold mbind at 1, Window.gui_bind at 1, Window.lift at 1.
      unfold show_message, modify.
      match goal with
      | |- context [Window.load_tok_codes _ _ ?s0] =>
          destruct (load_tok_codes_shown json_loads dropbox_path s0)
            as (s2 & -> & Hsh & He)
      end.
      apply Hshown.
      - eapply only_shown_trans; [|exact Hsh]. by apply only_shown_emit.
      - simpl. rewrite He. simpl. by rewrite discard_added. }
  destruct (find _ tok) as [entry|] eqn:Hfind.
  2:{ unfold Window.modify. apply Hshown; [apply only_shown_refl|].
      by apply Hmark. }
  destruct (e_prefix entry) as [old_code|] eqn:Hold.
  2:{ unfold Window.modify. apply Hshown; [apply only_shown_refl|].
      by apply Hmark. }
  destruct (bool_decide (old_code = "")).
  { unfold Window.modify. apply Hshown; [apply only_shown_refl|].
    by apply Hmark. }
  destruct (bool_decide (new_code ≠ old_code) && existsb _ tok) eqn:Hconf.
  { match goal with
    | |- context [Window.lift (show_message ?a ?b ?c)] =>
        destruct (turned_down_run json_loads dropbox_path a b c discard s1 Hd)
          as (s2 & -> & Hsh & He)
    end.
    apply Hshown; [done|]. by apply Hmark. }
  apply no_conflict in Hconf.
  unfold Window.update_tok_entry. run_gui. rewrite Htok. simpl.
  set (s3 := Window.set_tok_data _ s1).
  destruct (save_tok_data_run json_dumps dropbox_path s3)
    as (r & w' & ev1 & -> & Hset & Hev1 & Hcases).
  destruct Hcases as [[[exn ->] Hnot]|(-> & Hin & Hfs)].
  - match goal with
    | |- context [Window.load_tok_codes _ _ ?s0] =>
        destruct (load_tok_codes_shown json_loads dropbox_path s0)
          as (s2 & -> & (_ & _ & ev2 & Hev2 & Hsh2) & He)
    end.
    simpl in Hev2, He.
    eexists _, (ev1 ++ ShowMessage "Error" _ "Critical" :: ev2)%list.
    split_and!; [reflexivity | | |].
    + simpl. rewrite He. by rewrite discard_added.
    + simpl. rewrite Hev2, Hev1. simpl.
      by rewrite <- !(assoc_L app).
    + intros [?|[[=]|?%(shown_not_Written ev2)]%elem_of_cons]%elem_of_app;
        done.
  - eexists _, (ev1 ++ [StatusBar _])%list.
    split_and!; [reflexivity | | |].
    + simpl. by rewrite discard_added.
    + simpl. rewrite Hev1. simpl. by rewrite <- !(assoc_L app).
    + intros _. exists tok, entry, old_code. by split_and!.
Qed.

Lemma codes_cons x tok :
  codes (x :: tok)
  = match e_prefix x with Some c => c :: codes tok | None => codes tok end.
Proof. unfold codes. simpl. by destruct (e_prefix x). Qed.

Lemma elem_of_codes c tok :
  c ∈ codes tok ↔ ∃ e, e ∈ tok ∧ e_prefix e = Some c.
Proof. unfold codes. by rewrite list_elem_of_omap. Qed.

Lemma update_tok_entry_length old_code new_code new_label tok :
  length (update_tok_entry old_code new_code new_label tok).2 = length tok.
Proof.
  induction tok as [|x tok IH]; [done|]. simpl.
  destruct (decide (e_prefix x = Some old_code)); [done|].
  destruct (update_tok_entry old_code new_code new_label tok). simpl in *.
  by rewrite IH.
Qed.

Lemma update_tok_entry_cons old_code new_code new_label x tok :
  (update_tok_entry old_code new_code new_label (x :: tok)).2
  = if decide (e_prefix x = Some old_code)
    then TokEntry (Some new_code) (Some new_label) :: tok
    else x :: (update_tok_entry old_code new_code new_label tok).2.
Proof.
  simpl. destruct (decide (e_prefix x = Some old_code)); [done|].
  by destruct (update_tok_entry old_code new_code new_label tok).
Qed.

Lemma update_tok_entry_codes old_code new_code new_label tok c :
  c ∈ codes (update_tok_entry old_code new_code new_label tok).2 →
  c ∈ codes tok ∨ c = new_code.
Proof.
  induction tok as [|x tok IH]; [by left|].
  rewrite update_tok_entry_cons.
  destruct (decide (e_prefix x = Some old_code)) as [Hx|Hx].
  - rewrite !codes_cons, Hx. simpl.
    intros [->|?]%elem_of_cons; [by right | left; by right].
  - rewrite !codes_cons. destruct (e_prefix x) as [p|]; [|done].
    intros [->|Hc]%elem_of_cons; [left; by left|].
    destruct (IH Hc); [left; by right | by right].
Qed.

Lemma update_tok_entry_NoDup old_code new_code new_label tok :
  NoDup (codes tok) →
  new_code = old_code ∨ Forall (λ e, e_prefix e ≠ Some new_code) tok →
  NoDup (codes (update_tok_entry old_code new_code new_label tok).2).
Proof.
  induction tok as [|x tok IH]; [done|]. intros Hnd Hnew.
  rewrite update_tok_entry_cons. rewrite codes_cons in Hnd.
  destruct (decide (e_prefix x = Some old_code)) as [Hx|Hx].
  - rewrite codes_cons. simpl. rewrite Hx in Hnd.
    apply NoDup_cons in Hnd as [Hold Hnd]. apply NoDup_cons. split; [|done].
    destruct Hnew as [->|Hall]; [done|].
    apply Forall_cons in Hall as [_ Hall]. intros (e & He & Hp)%elem_of_codes.
    by apply (proj1 (Forall_forall _ _) Hall e He).
  - pose proof (update_tok_entry_codes old_code new_code new_label tok) as Hc.
    rewrite codes_cons.
    assert (NoDup (codes tok)) as Hnd'.
    { destruct (e_prefix x); [by apply NoDup_cons in Hnd as [_ ?] | done]. }
    assert (NoDup (codes (update_tok_entry old_code new_code new_label tok).2))
      as Ht.
    { apply IH; [done|]. destruct Hnew as [->|Hall]; [by left|].
      right. by apply Forall_cons in Hall as [_ ?]. }
    destruct (e_prefix x) as [p|] eqn:Hp; [|done].
    apply NoDup_cons in Hnd as [Hnot _]. apply NoDup_cons. split; [|done].
    intros [?| ->]%Hc; [done|].
    destruct Hnew as [->|Hall]; [done|].
    by apply Forall_cons in Hall as [? _].
Qed.

Lemma update_tok_entry_labels old_code new_code new_label tok entry :
  NoDup (codes tok) →
  find (λ entry, bool_decide (e_string entry = Some new_label)) tok
  = Some entry →
  e_prefix entry = Some old_code →
  e_string <$> (update_tok_entry old_code new_code new_label tok).2
  = e_string <$> tok.
Proof.
  induction tok as [|x tok IH]; [done|]. intros Hnd Hfind Hold.
  rewrite update_tok_entry_cons. rewrite codes_cons in Hnd. simpl in Hfind.
  destruct (decide (e_prefix x = Some old_code)) as [Hx|Hx].
  - rewrite !fmap_cons. simpl. f_equal. rewrite Hx in Hnd.
    apply NoDup_cons in Hnd as [Hnot _].
    destruct (bool_decide (e_string x = Some new_label)) eqn:Hl.
    + by apply bool_decide_eq_true in Hl.
    + destruct Hnot. apply elem_of_codes. exists entry. split; [|done].
      by apply find_some in Hfind as [?%list_elem_of_In _].
  - destruct (bool_decide (e_string x = Some new_label)) eqn:Hl;
      [by simplify_eq|].
    rewrite !fmap_cons. f_equal. apply IH; [|done..].
    destruct (e_prefix x); [by apply NoDup_cons in Hnd as [_ ?] | done].
Qed.

(** [on_tok_item_changed] never raises and leaves no item marked as
    being edited that was not marked before. *)
Lemma on_tok_item_changed_never_raises json_loads json_dumps dropbox_path
    item_id text0 text1 s :
  ∃ s',
    Window.on_tok_item_changed json_loads json_dumps dropbox_path
      item_id text0 text1 s = (Ok (), s')
    ∧ Window.tok_being_edited s' = Window.tok_being_edited s.
Proof.
  destruct (on_tok_item_changed_run json_loads json_dumps dropbox_path
              item_id text0 text1 s) as (s' & ev & Hrun & He & _).
  by exists s'.
Qed.

(** What [update_tok_entry] does to a list that has the code: the first
    entry with the code is replaced. *)
Lemma update_tok_entry_split old_code new_code new_label tok entry :
  entry ∈ tok → e_prefix entry = Some old_code →
  ∃ before x after,
    tok = (before ++ x :: after)%list
    ∧ e_prefix x = Some old_code
    ∧ Forall (λ e, e_prefix e ≠ Some old_code) before
    ∧ (update_tok_entry old_code new_code new_label tok).2
      = (before ++ TokEntry (Some new_code) (Some new_label) :: after)%list.
Proof.
  induction tok as [|y tok IH]; [by intros ?%elem_of_nil|].
  intros Hin Hold. rewrite update_tok_entry_cons.
  destruct (decide (e_prefix y = Some old_code)) as [Hy|Hy].
  - by exists [], y, tok.
  - apply elem_of_cons in Hin as [->|Hin]; [done|].
    destruct (IH Hin Hold) as (before & x & after & -> & Hx & Hbefore & ->).
    exists (y :: before), x, after. split_and!; [done..| |done].
    by constructor.
Qed.

(** X20.  When [on_tok_item_changed] writes the document, the list it writes
    and keeps in memory is the list before with one entry replaced by the
    new code and the label: the first entry with the code of the first
    entry that has the label.  When no code comes twice in the list
    before, that is the entry with the label itself: the labels are then
    the same, entry by entry, and no code comes twice afterwards.  A code
    can be changed through the tree, a label cannot. *)
Theorem on_tok_item_changed_keeps_labels json_loads json_dumps dropbox_path
    item_id text0 text1 s tok :
  Window.tok_data s = Some tok →
  ∃ s' ev,
    Window.on_tok_item_changed json_loads json_dumps dropbox_path
      item_id text0 text1 s = (Ok (), s')
    ∧ events (Window.the_world s')
      = (events (Window.the_world s) ++ ev)%list
    ∧ (Written (Window.json_file dropbox_path) ∈ ev →
       ∃ tok' entry old_code before x after,
         Window.tok_data s' = Some tok'
         ∧ fs (Window.the_world s') !! Window.json_file dropbox_path
           = Some (RegularFile (json_dumps (Some tok'))
                     (clock (Window.the_world s)))
         ∧ find (λ entry, bool_decide (e_string entry = Some (Py.strip text1)))
             tok = Some entry
         ∧ e_prefix entry = Some old_code
         ∧ tok = (before ++ x :: after)%list
         ∧ e_prefix x = Some old_code
         ∧ Forall (λ e, e_prefix e ≠ Some old_code) before
         ∧ tok' = (before
                   ++ TokEntry (Some (Py.strip text0)) (Some (Py.strip text1))
                      :: after)%list
         ∧ length tok' = length tok
         ∧ (NoDup (codes tok) →
            x = entry
            ∧ e_string <$> tok' = e_string <$> tok
            ∧ NoDup (codes tok'))).
Proof.
  intros Htok.
  destruct (on_tok_item_changed_run json_loads json_dumps dropbox_path
              item_id text0 text1 s) as (s' & ev & Hrun & _ & Hev & Hw).
  exists s', ev. split_and!; [done..|]. intros Hin.
  destruct (Hw Hin) as (tok0 & entry & old_code & Htok0 & Hfind & Hold
                        & Hnew & Hdata & Hfs).
  rewrite Htok in Htok0. injection Htok0 as <-.
  assert (entry ∈ tok) as Hentry
    by (by apply find_some in Hfind as [?%list_elem_of_In _]).
  destruct (update_tok_entry_split old_code (Py.strip text0) (Py.strip text1)
              tok entry Hentry Hold)
    as (before & x & after & Hsplit & Hx & Hbefore & Hupdate).
  eexists _, entry, old_code, before, x, after.
  split_and!; [exact Hdata | by rewrite Hfs, Hdata | done..| | |].
  - by rewrite Hupdate.
  - apply update_tok_entry_length.
  - intros Hnd. split_and!.
    + subst tok. clear -Hnd Hentry Hold Hx Hbefore.
      apply elem_of_app in Hentry as [Hin|[->|Hin]%elem_of_cons]; [|done|].
      * by apply (proj1 (Forall_forall _ _) Hbefore) in Hin.
      * exfalso.
        assert (codes (before ++ x :: after)
                = (codes before ++ old_code :: codes after)%list) as Hc.
        { unfold codes. rewrite omap_app. simpl. by rewrite Hx. }
        rewrite Hc in Hnd. apply NoDup_app in Hnd as (_ & _ & Hnd).
        apply NoDup_cons in Hnd as [Hnot _]. apply Hnot.
        apply elem_of_codes. by exists entry.
    + by eapply update_tok_entry_labels.
    + by apply update_tok_entry_NoDup.
Qed.

(** X21.  A label typed into the tree that no entry has is ignored without a
    word: nothing is saved, nothing is shown, and the state is as it
    was. *)
Theorem on_tok_item_changed_label_edit json_loads json_dumps dropbox_path
    item_id text0 text1 s tok :
  item_id ∉ Window.tok_being_edited s →
  Window.tok_data s = Some tok →
  Py.strip text0 ≠ "" → Py.strip text1 ≠ "" →
  forallb Py.isalnum (Py.split (Py.strip text0)) = true →
  Forall (λ e, e_string e ≠ Some (Py.strip text1)) tok →
  Window.on_tok_item_changed json_loads json_dumps dropbox_path
    item_id text0 text1 s = (Ok (), s).
Proof.
  intros Hid Htok Hcode Hlabel Halnum Hall.
  unfold Window.on_tok_item_changed. run_gui.
  rewrite decide_False by done. simpl.
  rewrite !bool_decide_eq_false_2 by done. simpl. rewrite Halnum. simpl.
  rewrite Htok.
  assert (find (λ entry, bool_decide (e_string entry = Some (Py.strip text1)))
            tok = None) as ->.
  { clear Htok. induction Hall as [|x tok Hx Hall IH]; [done|]. simpl.
    by rewrite bool_decide_eq_false_2. }
  simpl. destruct s as [w d t E]. simpl in *.
  unfold Window.set_tok_being_edited. simpl.
  by rewrite discard_added, discard_absent.
Qed.

Lemma on_tok_item_changed_keeps_labels_witness :
  ∃ s' tok',
    Window.on_tok_item_changed (tok_loads_of (Some two_codes)) tok_dumps
      "/home/u/Dropbox" "item" "02" "Branch" window_with_document
    = (Ok (), s')
    ∧ Window.tok_data s' = Some tok'
    ∧ e_string <$> tok' = [Some "Root"; Some "Branch"]
    ∧ NoDup (codes tok').
Proof.
  destruct (on_tok_item_changed_keeps_labels (tok_loads_of (Some two_codes))
              tok_dumps "/home/u/Dropbox" "item" "02" "Branch"
              window_with_document two_codes eq_refl)
    as (s' & ev & Hrun & Hev & Hw).
  assert (s' = (Window.on_tok_item_changed (tok_loads_of (Some two_codes))
                  tok_dumps "/home/u/Dropbox" "item" "02" "Branch"
                  window_with_document).2) as Hs by (by rewrite Hrun).
  destruct Hw as (tok' & entry & old_code & before & x & after & Hdata & _
                  & _ & _ & _ & _ & _ & _ & _ & Hnd).
  - change (events (Window.the_world window_with_document) ++ ev)%list
      with ev in Hev.
    rewrite <- Hev, Hs. vm_compute. right. left.
  - destruct Hnd as (_ & Hlabels & Hcodes).
    { apply (bool_decide_unpack (NoDup (codes two_codes))). vm_compute.
      exact I. }
    exists s', tok'. split_and!; [done..| |done].
    by rewrite Hlabels.
Defined.

(** With a code twice in the list a label is lost: the edit of the code
    of the second entry changes the first one, which has the code. *)
Example on_tok_item_changed_loses_label :
  let run :=
    Window.on_tok_item_changed (tok_loads_of None) tok_dumps "/home/u/Dropbox"
      "item" "5" "Y" window_with_code_twice in
  run.1 = Ok ()
  ∧ Window.tok_data run.2
    = Some [TokEntry (Some "5") (Some "Y"); TokEntry (Some "0") (Some "Y")]
  ∧ fs (Window.the_world run.2)
      !! "/home/u/Dropbox/pdfmanager/pdf_manager_tok_init.json"
    = Some (RegularFile "{ToK:5=Y;0=Y}" 1741064767).
Proof. vm_compute. done. Qed.

Lemma on_tok_item_changed_label_edit_witness :
  Window.on_tok_item_changed (tok_loads_of (Some two_codes)) tok_dumps
    "/home/u/Dropbox" "item" "01" "Twig" window_with_document
  = (Ok (), window_with_document).
Proof.
  apply (on_tok_item_changed_label_edit _ _ _ _ _ _ _ two_codes).
  - apply not_elem_of_empty.
  - reflexivity.
  - vm_compute. discriminate.
  - vm_compute. discriminate.
  - reflexivity.
  - repeat constructor; vm_compute; discriminate.
Defined.





(** X23.  An entry whose label is empty or missing cannot be deleted through
    the dialog: [delete_from_tok] reports the code as not found and
    changes nothing, although [delete_tok_entry] would find the entry.
    [add_to_tok] makes such an entry when the label typed is white
    space only. *)
Theorem delete_from_tok_blank_label json_loads json_dumps dropbox_path
    typed confirmed s tok entry :
  typed ≠ "" →
  Window.tok_data s = Some tok →
  find (λ e, bool_decide (e_prefix e = Some (Py.strip typed))) tok
  = Some entry →
  default "" (e_string entry) = "" →
  Window.delete_from_tok json_loads json_dumps dropbox_path (typed, true)
    confirmed s
  = (Ok (),
     Window.set_world
       (emit (ShowMessage "Error"
                ("ToK code '" ++ Py.strip typed ++ "' not found.") "Warning")
          (Window.the_world s)) s)
  ∧ (delete_tok_entry (Py.strip typed) tok).1 = true.
Proof.
  intros Htyped Htok Hfind Hlabel. split.
  - unfold Window.delete_from_tok. simpl.
    rewrite bool_decide_eq_false_2 by done.
    unfold mbind at 1, Window.gui_bind at 1, Window.get at 1.
    unfold Window.tok_or_empty. rewrite Htok. simpl. rewrite Hfind.
    destruct (e_string entry) as [l|]; [|done]. simpl in Hlabel. subst l.
    done.
  - unfold delete_tok_entry. by rewrite Hfind.
Qed.

Lemma delete_from_tok_blank_label_witness :
  Window.delete_from_tok (tok_loads_of None) tok_dumps "/home/u/Dropbox"
    ("02", true) true
    (Window.set_tok_data
       (Some (add_tok_entry "02" (Py.strip "  ") two_codes))
       window_with_document)
  = (Ok (),
     Window.set_world
       (emit (ShowMessage "Error" "ToK code '02' not found." "Warning")
          (Window.the_world window_with_document))
       (Window.set_tok_data
          (Some (add_tok_entry "02" (Py.strip "  ") two_codes))
          window_with_document))
  ∧ (delete_tok_entry "02" (add_tok_entry "02" (Py.strip "  ") two_codes)).1
    = true.
Proof.
  exact (delete_from_tok_blank_label (tok_loads_of None) tok_dumps
           "/home/u/Dropbox" "02" true
           (Window.set_tok_data
              (Some (add_tok_entry "02" (Py.strip "  ") two_codes))
              window_with_document)
           (add_tok_entry "02" (Py.strip "  ") two_codes)
           (TokEntry (Some "02") (Some ""))
           ltac:(discriminate) eq_refl ltac:(vm_compute; reflexivity) eq_refl).
Defined.



(** * The listing of the files without a prefix *)

Lemma with_mtime_Ok dir l w k w' :
  with_mtime dir l w = (Ok k, w') →
  k = (λ f, (f, mtime_of w (os_path_join dir f))) <$> l.
Proof.
  revert k w'. induction l as [|f l IH]; intros k w'.
  - intros H. change (with_mtime dir [] w) with (Ok (@nil (string * Z)), w) in H.
    by simplify_eq.
  - change (with_mtime dir (f :: l))
      with (y ← (mtime ← os_path_getmtime (os_path_join dir f);
                 mret (M := io) (f, mtime));
            k ← with_mtime dir l; mret (M := io) (y :: k)).
    unfold mbind, io_bind, mret, io_ret, os_path_getmtime.
    rewrite fmap_cons. unfold mtime_of at 1.
    destruct (fs w !! os_path_join dir f) as [[c m|]|]; [|done..].
    destruct (with_mtime dir l w) as [[k0|exn] w0]; [|done].
    intros [= <- <-]. by rewrite (IH k0 w0).
Qed.

Lemma filter_filter_and {A} (P Q : A → Prop) `{!∀ x, Decision (P x)}
    `{!∀ x, Decision (Q x)} (l : list A) :
  filter Q (filter P l) = filter (λ x, P x ∧ Q x) l.
Proof.
  induction l as [|x l IH]; [done|]. rewrite !filter_cons.
  destruct (decide (P x)) as [HP|HP].
  - rewrite filter_cons. destruct (decide (Q x)) as [HQ|HQ].
    + rewrite decide_True by done. by rewrite IH.
    + rewrite decide_False by tauto. done.
  - rewrite decide_False by tauto. done.
Qed.

Lemma imap_pair_snd {A} (g : nat → nat) (l : list A) :
  (imap (λ i x, (g i, x)) l).*2 = l.
Proof.
  revert g. induction l as [|x l IH]; intros g; [done|].
  simpl. f_equal. apply (IH (g ∘ S)).
Qed.

Lemma imap_pair_fst {A} (g : nat → nat) (l : list A) :
  (imap (λ i x, (g i, x)) l).*1 = g <$> seq 0 (length l).
Proof.
  revert g. induction l as [|x l IH]; intros g; [done|].
  simpl. f_equal. etrans; [apply (IH (g ∘ S))|].
  by rewrite <- fmap_S_seq, <- list_fmap_compose.
Qed.

(** X25.  When [get_bare_pdfs] returns: the names listed are the PDF files of
    the folder that are regular files and carry no prefix, each once for
    each time the listing has it; they are numbered from 1 in the order
    of the list, the latest change first; the index of the manager holds
    these numbers, and with no such file it is left as it was.  The file
    system is not changed. *)
Theorem get_bare_pdfs_result dir w items w' :
  get_bare_pdfs dir w = (Ok items, w') →
  fs w' = fs w
  ∧ (∃ names,
       os_listdir dir w = (Ok names, w)
       ∧ items.*2 ≡ₚ filter (bare_pdf w dir) names)
  ∧ items.*1 = seq 1 (length items)
  ∧ Sorted (λ a b, mtime_of w (os_path_join dir b)
                   ≤ mtime_of w (os_path_join dir a)) items.*2
  ∧ (items ≠ [] →
     ∀ i f, bare_pdf_files w' !! i = Some f ↔ (i, f) ∈ items)
  ∧ (items = [] → bare_pdf_files w' = bare_pdf_files w).
Proof.
  intros Hrun.
  pose proof (get_bare_pdfs_kept dir w) as [Hfs _]. rewrite Hrun in Hfs.
  split; [done|]. clear Hfs. revert Hrun.
  unfold get_bare_pdfs, mbind, io_bind, mret, io_ret, get_world.
  destruct (os_listdir dir w) as [[names|exn] w0] eqn:Hls; [|done].
  assert (w0 = w) as ->.
  { revert Hls. unfold os_listdir. repeat case_match; intros; by simplify_eq. }
  rewrite filter_filter_and.
  assert (filter (λ f, (Py.endswith ".pdf" (Py.lower f) = true
                        ∧ is_file w (os_path_join dir f) = true)
                       ∧ is_bare f = true) names
          = filter (bare_pdf w dir) names) as ->.
  { apply list_filter_iff. intros f. unfold bare_pdf. tauto. }
  destruct (filter (bare_pdf w dir) names) as [|f0 bare0] eqn:Hb.
  { intros [= <- <-]. split_and!; [|done|constructor|done|done].
    exists names. by rewrite Hb. }
  rewrite <- Hb. set (bare := filter (bare_pdf w dir) names) in *.
  destruct (with_mtime dir bare w) as [[k|exn] w1] eqn:Hk; [|done].
  pose proof (with_mtime_world dir bare w) as Hw1. rewrite Hk in Hw1.
  simpl in Hw1. subst w1. apply with_mtime_Ok in Hk.
  unfold modify. intros [= <- <-].
  set (srt := Py.sorted (flip Z.le) snd k).
  assert (srt ≡ₚ k) as Hperm by apply (sorted_Permutation (flip Z.le) snd).
  assert (Total (flip Z.le)) by (intros a b; unfold flip; lia).
  assert (Sorted (λ a b, snd b ≤ snd a) srt) as Hsorted
    by apply (sorted_Sorted (flip Z.le) snd).
  assert (∀ x, x ∈ srt → x.2 = mtime_of w (os_path_join dir x.1)) as Hm.
  { intros x Hx. rewrite Hperm, Hk in Hx.
    by apply list_elem_of_fmap in Hx as (f & -> & _). }
  assert ((imap (λ idx filename, (S idx, filename)) (srt.*1)).*2 = srt.*1)
    as Hnames.
  { apply (imap_pair_snd S). }
  assert ((imap (λ idx filename, (S idx, filename)) (srt.*1)).*1
          = seq 1 (length (imap (λ idx (filename : string),
                                   (S idx, filename)) (srt.*1))))
    as Hnum.
  { rewrite (imap_pair_fst S), length_imap. by rewrite fmap_S_seq. }
  split_and!.
  - exists names. split; [done|]. fold bare. rewrite Hnames, Hperm, Hk.
    rewrite <- list_fmap_compose. simpl. by rewrite list_fmap_id.
  - done.
  - rewrite Hnames. clear Hnum Hnames Hperm.
    induction Hsorted as [|x l Hl IH Hhd]; [constructor|].
    rewrite fmap_cons. constructor.
    + apply IH. intros y Hy. apply Hm. by right.
    + destruct Hhd as [|y l Hxy]; [constructor|]. rewrite fmap_cons.
      constructor. rewrite <- (Hm x), <- (Hm y); [done | | by left].
      right. by left.
  - intros _ i f. simpl. rewrite <- elem_of_list_to_map; [done|].
    rewrite Hnum. apply NoDup_seq.
  - intros Hnil. apply (f_equal length) in Hnil.
    rewrite length_imap, length_fmap in Hnil.
    rewrite Hperm, Hk, length_fmap, Hb in Hnil. done.
Qed.

Lemma get_bare_pdfs_result_witness :
  ∃ w',
    get_bare_pdfs "/home/u/Dropbox/inbox" world_with_conflict
    = (Ok [(1%nat, "a.pdf")], w')
    ∧ fs w' = fs world_with_conflict
    ∧ bare_pdf_files w' !! 1%nat = Some "a.pdf".
Proof.
  destruct (get_bare_pdfs "/home/u/Dropbox/inbox" world_with_conflict)
    as [r w'] eqn:Hrun.
  assert (r = Ok [(1%nat, "a.pdf")]) as ->.
  { change r with (r, w').1. rewrite <- Hrun. vm_compute. reflexivity. }
  exists w'. split; [done|].
  destruct (get_bare_pdfs_result _ _ _ _ Hrun) as (Hfs & _ & _ & _ & Hidx & _).
  split; [done|]. apply Hidx; [done | left].
Defined.

(** * The patterned scan *)

(** X26.  [scan_pdfs] never enters a directory named RAG: it walks the tree
    as if these directories, at any depth, were not there, so that
    nothing in them has an effect on the result. *)
Theorem scan_pdfs_skips_RAG dropbox_path root :
  os_walk (λ name, bool_decide (name = "RAG")) dropbox_path root
  = os_walk (λ _, false) dropbox_path (without_rag root)
  ∧ scan_pdfs dropbox_path root = scan_pdfs dropbox_path (without_rag root).
Proof.
  assert (∀ skip top d,
            (∀ name, skip name = true → name = "RAG") →
            os_walk (λ name, bool_decide (name = "RAG")) top d
            = os_walk skip top (without_rag d)) as Hwalk.
  { intros skip top d Hskip. revert top.
    induction d as [files subdirs IH] using dir_tree_nested_ind.
    intros top. simpl. f_equal.
    induction IH as [|[name sub] l Hsub _ IHl]; [done|].
    destruct (bool_decide (name = "RAG")) eqn:Hname; [done|].
    rewrite IHl, Hsub.
    destruct (skip name) eqn:Hs; [|done].
    apply Hskip in Hs. by apply bool_decide_eq_false in Hname. }
  split.
  - by apply Hwalk.
  - unfold scan_pdfs. f_equal. apply Hwalk. by intros name ?%bool_decide_eq_true.
Qed.

Lemma pairs_run_prefix s : ∃ rest, s = pairs_run s ++ rest.
Proof.
  induction s as [| |c d s IH] using string_pair_ind.
  - by exists "".
  - by eexists (String _ "").
  - simpl. destruct (Py.alnum c && Ascii.eqb d " ") eqn:E.
    + destruct IH as [rest Hrest]. exists rest.
      apply andb_prop in E as [_ Hd]. apply Ascii.eqb_eq in Hd as ->.
      by rewrite !str_app_cons, <- Hrest.
    + eexists. by rewrite str_app_nil_l.
Qed.

Lemma drop_app_length a b : Py.drop (String.length a) (a ++ b) = b.
Proof.
  induction a as [|x a IH]; [by rewrite str_app_nil_l|].
  by rewrite str_app_cons.
Qed.

(** A file name with a prefix is the prefix, one space and the rest. *)
Lemma matches_pattern_split filename pattern :
  matches_pattern filename = Some pattern →
  filename
  = pattern ++ " " ++ Py.drop (String.length pattern + 1) filename.
Proof.
  intros (c & Hc & Hlen & Hrun & ->)%matches_pattern_Some.
  destruct (pairs_run_prefix filename) as [rest Hrest].
  assert (c ≠ "") as Hne by (intros ->; simpl in Hlen; lia).
  rewrite Hrun, <- (formatted_code_spaced c Hne) in Hrest.
  unfold formatted_code in Hrest.
  set (p := Py.join_chars " " c) in *.
  assert (Py.drop (String.length p + 1) filename = rest) as ->.
  { rewrite Hrest.
    replace (String.length p + 1)%nat with (String.length (p ++ " ")).
    - apply drop_app_length.
    - rewrite str_length_app. simpl. lia. }
  by rewrite Hrest, str_app_assoc.
Qed.

(** X27.  The name that [on_scan_finished] puts together from a result of
    [scan_pdfs] is the name of the file exactly when what follows the
    prefix and its space has no white space at either end; a second
    space after the prefix is lost. *)
Theorem rebuilt_filename filename pattern :
  matches_pattern filename = Some pattern →
  pattern ++ " " ++ remainder pattern filename = filename
  ↔ Py.strip (Py.drop (String.length pattern + 1) filename)
    = Py.drop (String.length pattern + 1) filename.
Proof.
  intros Hm. pose proof (matches_pattern_split filename pattern Hm) as Hsplit.
  set (rest := Py.drop (String.length pattern + 1) filename) in *.
  assert (remainder pattern filename = Py.strip rest) as ->.
  { unfold remainder. rewrite Hsplit at 1. rewrite drop_app_length.
    unfold Py.strip. by rewrite str_app_cons. }
  split.
  - intros Heq.
    assert (pattern ++ " " ++ Py.strip rest = pattern ++ " " ++ rest) as H
      by (by rewrite <- Hsplit).
    apply str_app_inv_l in H. by apply (str_app_inv_l " ") in H.
  - intros ->. by rewrite <- Hsplit.
Qed.

Lemma rebuilt_filename_witness :
  matches_pattern "A B  x.pdf" = Some "A B"
  ∧ "A B" ++ " " ++ remainder "A B" "A B  x.pdf" = "A B x.pdf"
  ∧ Py.strip (Py.drop 4 "A B  x.pdf") ≠ Py.drop 4 "A B  x.pdf".
Proof.
  split; [reflexivity|]. split; [reflexivity|].
  intros H.
  apply (proj2 (rebuilt_filename "A B  x.pdf" "A B" eq_refl)) in H.
  vm_compute in H. discriminate.
Defined.

Lemma pair_le_total : Total pair_le.
Proof.
  intros a b. unfold pair_le.
  destruct (decide (a.1 = b.1)) as [Heq|Hne].
  - rewrite decide_True by done. apply (total String.le).
  - rewrite decide_False by done. apply (total String.le).
Qed.

Lemma lookup_rows {A B} (f : A → B) (l : list A) (k i : nat) :
  (list_to_map (imap (λ j r, ((k + j)%nat, f r)) l) : gmap nat B)
    !! (k + i)%nat
  = f <$> l !! i.
Proof.
  revert k i. induction l as [|x l IH]; intros k i; [done|].
  simpl. destruct i as [|i].
  - rewrite Nat.add_0_r. by rewrite lookup_insert_eq.
  - rewrite lookup_insert_ne by lia. simpl.
    replace (k + S i)%nat with (S k + i)%nat by lia. rewrite <- (IH (S k) i).
    f_equal. f_equal. apply imap_ext. intros j y _. simpl. f_equal. lia.
Qed.

Lemma length_string_of_list_ascii l :
  String.length (string_of_list_ascii l) = length l.
Proof. induction l as [|c l IH]; simpl; [done | by rewrite IH]. Qed.

Lemma length_ljust w s :
  String.length (Py.ljust w s) = (w `max` String.length s)%nat.
Proof.
  unfold Py.ljust.
  rewrite str_length_app, length_string_of_list_ascii, length_replicate. lia.
Qed.

Lemma col_width_ge field least results r :
  r ∈ results →
  (String.length (field r) + 2 ≤ col_width field least results)%nat
  ∧ (least ≤ col_width field least results)%nat.
Proof.
  intros Hr. unfold col_width.
  assert (String.length (field r)
          ≤ max_list ((λ r, String.length (field r)) <$> results))%nat.
  { apply max_list_elem_of_le, list_elem_of_fmap. by exists r. }
  lia.
Qed.

(** X28.  No field of the report runs over its column: with the widths taken
    from the results, every line has its title at the same column, the
    one under the heading of the title. *)
Theorem report_line_aligned results r :
  r ∈ results →
  let col1_width := col_width (λ r, r.1.1.1) 10 results in
  let col2_width := col_width (λ r, r.1.1.2) 20 results in
  let col3_width := col_width (λ r, r.1.2) 20 results in
  String.length (report_line col1_width col2_width col3_width r)
  = (col1_width + col2_width + col3_width + 3 + String.length r.2 + 1)%nat
  ∧ String.length (report_header col1_width col2_width col3_width)
    = (col1_width + col2_width + col3_width + 3 + 14 + 1)%nat.
Proof.
  intros Hr w1 w2 w3.
  destruct (col_width_ge (λ r, r.1.1.1) 10 results r Hr) as [H1 H1'].
  destruct (col_width_ge (λ r, r.1.1.2) 20 results r Hr) as [H2 H2'].
  destruct (col_width_ge (λ r, r.1.2) 20 results r Hr) as [H3 H3'].
  fold w1 in H1, H1'. fold w2 in H2, H2'. fold w3 in H3, H3'.
  unfold report_line, report_header.
  rewrite !str_length_app, !length_ljust. simpl in *. lia.
Qed.

Lemma report_line_aligned_witness :
  String.length
    (report_line 10 20 20 ("A B", "x.pdf", "[root]", "Title"))
  = 59%nat.
Proof.
  exact (proj1 (report_line_aligned [("A B", "x.pdf", "[root]", "Title")]
                  ("A B", "x.pdf", "[root]", "Title")
                  ltac:(left))).
Defined.

Lemma on_scan_finished_paths dropbox_path results w w' :
  on_scan_finished dropbox_path results w = (Ok (), w') →
  ∀ i, file_paths w' !! i
       = row_path dropbox_path <$> Py.sorted pair_le sort_key results !! i.
Proof.
  unfold on_scan_finished. destruct results as [|r0 results0].
  { unfold mbind, io_bind, show_message, status_bar, modify. simpl.
    intros [= <-] i. simpl. by rewrite lookup_empty. }
  set (results := r0 :: results0) in *.
  unfold mbind, io_bind.
  destruct (mkdir_exist_ok _ w) as [[[]|exn] w1]; [|done].
  destruct (write_text _ _ w1) as [[[]|exn] w3]; [|done].
  unfold show_message, status_bar, modify. simpl. intros [= <-] i. simpl.
  apply (lookup_rows (row_path dropbox_path) _ 0 i).
Qed.

(** X29.  When [on_scan_finished] returns: the rows of the table are the
    results in the order of prefix and rest of the name, the path of a
    row is the one put together from its result, and the report is
    written; with no result nothing is written and the table is
    empty. *)
Theorem on_scan_finished_rows dropbox_path results w w' :
  on_scan_finished dropbox_path results w = (Ok (), w') →
  let rows := Py.sorted pair_le sort_key results in
  rows ≡ₚ results
  ∧ Sorted (λ a b, pair_le (sort_key a) (sort_key b)) rows
  ∧ files_table w' = (λ r, r.1.1.2) <$> rows
  ∧ (∀ i, file_paths w' !! i = row_path dropbox_path <$> rows !! i)
  ∧ (results ≠ [] →
     fs w' !! os_path_join (os_path_join dropbox_path "coffeetable")
                "pdf-document.txt"
     = Some (RegularFile (output_text results) (clock w)))
  ∧ (results = [] → fs w' = fs w).
Proof.
  intros Hrun rows.
  split; [apply (sorted_Permutation pair_le sort_key)|].
  split; [pose proof pair_le_total; apply (sorted_Sorted pair_le sort_key)|].
  revert Hrun. unfold on_scan_finished.
  destruct results as [|r0 results0].
  { unfold mbind, io_bind, show_message, status_bar, modify. simpl.
    intros [= <-]. simpl. split_and!; [done | | done | done].
    intros i. by rewrite lookup_empty. }
  set (results := r0 :: results0) in *.
  unfold mbind, io_bind.
  set (output_dir := os_path_join dropbox_path "coffeetable").
  pose proof (mkdir_exist_ok_setting output_dir w) as (_ & Hclock & _).
  destruct (mkdir_exist_ok output_dir w) as [[[]|exn] w1]; [|done].
  simpl in Hclock.
  destruct (write_text_cases (os_path_join output_dir "pdf-document.txt")
              (output_text results) w1)
    as [(exn & w3 & -> & Hev3)|(w3 & -> & Hev3 & Hfs3)]; [done|].
  unfold show_message, status_bar, modify. simpl. intros [= <-]. simpl.
  split_and!; [done | | | ].
  - intros i. apply (lookup_rows (row_path dropbox_path) rows 0 i).
  - intros _. by rewrite Hfs3, lookup_insert_eq, Hclock.
  - done.
Qed.

Lemma on_scan_finished_rows_witness :
  ∃ w',
    on_scan_finished "/home/u/Dropbox"
      (scan_pdfs "/home/u/Dropbox" two_spaces_in_root) world_with_two_spaces
    = (Ok (), w')
    ∧ files_table w' = ["x.pdf"]
    ∧ file_paths w' !! 0%nat = Some "/home/u/Dropbox/A B x.pdf".
Proof.
  destruct (on_scan_finished "/home/u/Dropbox"
              (scan_pdfs "/home/u/Dropbox" two_spaces_in_root)
              world_with_two_spaces) as [[[]|exn] w'] eqn:Hrun;
    [|by vm_compute in Hrun].
  exists w'. split; [done|].
  destruct (on_scan_finished_rows _ _ _ _ Hrun) as (_ & _ & Ht & Hp & _).
  split; [by rewrite Ht | by rewrite Hp].
Defined.

(** X30.  A double click on a row of the table of the scan looks for the
    path that was put together for the row: when nothing is there, the
    file is reported as not found and nothing else happens, whether or
    not the file that the scan found is there under its own name. *)
Theorem double_click_after_scan dropbox_path results w w' i r opened :
  on_scan_finished dropbox_path results w = (Ok (), w') →
  Py.sorted pair_le sort_key results !! i = Some r →
  fs w' !! row_path dropbox_path r = None →
  on_file_double_clicked i opened w'
  = (Ok (),
     emit (ShowMessage "File Not Found"
             ("File not found:" ++ Py.nl ++ row_path dropbox_path r)
             "Warning") w').
Proof.
  intros Hrun Hrow Hnone.
  pose proof (on_scan_finished_paths dropbox_path results w w' Hrun) as Hp.
  unfold on_file_double_clicked, mbind, io_bind, get_world, path_exists.
  rewrite Hp, Hrow. simpl. rewrite Hnone.
  by rewrite bool_decide_eq_false_2 by (by intros [? ?]).
Qed.

Lemma double_click_after_scan_witness :
  ∃ w',
    on_scan_finished "/home/u/Dropbox"
      (scan_pdfs "/home/u/Dropbox" two_spaces_in_root) world_with_two_spaces
    = (Ok (), w')
    ∧ fs w' !! "/home/u/Dropbox/A B  x.pdf"
      = Some (RegularFile "%PDF-1.4" 10)
    ∧ on_file_double_clicked 0 true w'
      = (Ok (),
         emit (ShowMessage "File Not Found"
                 ("File not found:" ++ Py.nl ++ "/home/u/Dropbox/A B x.pdf")
                 "Warning") w').
Proof.
  destruct (on_scan_finished "/home/u/Dropbox"
              (scan_pdfs "/home/u/Dropbox" two_spaces_in_root)
              world_with_two_spaces) as [[[]|exn] w'] eqn:Hrun;
    [|by vm_compute in Hrun].
  exists w'. split; [done|].
  assert (w' = (on_scan_finished "/home/u/Dropbox"
                  (scan_pdfs "/home/u/Dropbox" two_spaces_in_root)
                  world_with_two_spaces).2) as Hw by (by rewrite Hrun).
  split; [rewrite Hw; vm_compute; reflexivity|].
  apply (double_click_after_scan "/home/u/Dropbox"
           (scan_pdfs "/home/u/Dropbox" two_spaces_in_root)
           world_with_two_spaces w' 0 ("A B", "x.pdf", "[root]", "") true Hrun);
    [reflexivity | rewrite Hw; vm_compute; reflexivity].
Defined.

(** * One location more, one location less *)








(** The handlers at work on the document with the codes 0 and 01. *)
Example on_tok_item_changed_renames_code :
  let run :=
    Window.on_tok_item_changed (tok_loads_of None) tok_dumps "/home/u/Dropbox"
      "item" "02" "Branch" window_with_document in
  run.1 = Ok ()
  ∧ Window.tok_data run.2
    = Some [TokEntry (Some "0") (Some "Root");
            TokEntry (Some "02") (Some "Branch")]
  ∧ events (Window.the_world run.2)
    = [Renamed "/home/u/Dropbox/pdfmanager/pdf_manager_tok_init.json"
         "/home/u/Dropbox/pdfmanager/pdf_manager_tok_init_2025-03-04_05-06-07.json";
       Written "/home/u/Dropbox/pdfmanager/pdf_manager_tok_init.json";
       StatusBar "Updated ToK: '02' - 'Branch' (backup: pdf_manager_tok_init_2025-03-04_05-06-07.json)"].
Proof. vm_compute. done. Qed.

Example add_to_tok_blank_label :
  let run :=
    Window.add_to_tok
      (tok_loads_of (Some (add_tok_entry "02" "" two_codes))) tok_dumps
      "/home/u/Dropbox" (" 02 ", true) ("  ", true) window_with_document in
  run.1 = Ok ()
  ∧ Window.tok_data run.2
    = Some [TokEntry (Some "0") (Some "Root");
            TokEntry (Some "01") (Some "Branch");
            TokEntry (Some "02") (Some "")]
  ∧ fs (Window.the_world run.2)
      !! "/home/u/Dropbox/pdfmanager/pdf_manager_tok_init.json"
    = Some (RegularFile "{ToK:0=Root;01=Branch;02=}" 1741064767).
Proof. vm_compute. done. Qed.

Example delete_from_tok_deletes :
  let run :=
    Window.delete_from_tok
      (tok_loads_of (Some [TokEntry (Some "0") (Some "Root")])) tok_dumps
      "/home/u/Dropbox" ("01", true) true window_with_document in
  run.1 = Ok ()
  ∧ Window.tok_data run.2 = Some [TokEntry (Some "0") (Some "Root")]
  ∧ fs (Window.the_world run.2)
      !! "/home/u/Dropbox/pdfmanager/pdf_manager_tok_init.json"
    = Some (RegularFile "{ToK:0=Root}" 1741064767)
  ∧ fs (Window.the_world run.2)
      !! "/home/u/Dropbox/pdfmanager/pdf_manager_tok_init_2025-03-04_05-06-07.json"
    = Some (RegularFile "{ToK:0=Root;01=Branch}" 0).
Proof. vm_compute. done. Qed.

Example analyze_two_folders :
  analyze
    [SizeObj 100
       [FileEntry "report.pdf" (Some "A B")
          [LocationObj "/home/u/Dropbox/documents/a" "" "";
           LocationObj "/home/u/Dropbox/inbox" "" "";
           LocationObj "/home/u/Dropbox/pdfmanager" "" ""]]]
  = Analysis
      [("/home/u/Dropbox/inbox",
        [Deletable "report.pdf" 100 ["/home/u/Dropbox/documents/a"]])]
      1 1.
Proof. vm_compute. reflexivity. Qed.
